(** * Wellness Record Builder (src/App.js): document-generation engine

    A shallow embedding of the pure helpers, the resource builders, the
    [generateBundle] handler and the other handlers and effects of the
    [App] component of [src/App.js], followed by the properties the
    specification states about them and by further properties of the
    component.

    Conventions of the embedding
    - a JavaScript string is a [string]: a sequence of code units, each kept
      in one [ascii] (code units 0..255);
    - a JavaScript value of unknown shape (a field of the JSON feed, a field
      of the form state) is a [value]; a number is an integer below 10^21 in
      absolute value, which [String] prints in decimal;
    - [uuidv4()] and [new Date().toISOString()] read the outside world: the
      n-th call of each returns what the [Runtime] oracle gives at n, and the
      number of calls made so far is the [World] threaded through [M];
    - [undefined] as the content of an optional field of a resource is
      [None]. *)

From Stdlib Require Import ZArith List String Ascii Bool Arith Lia.
From Stdlib Require Import Numbers.DecimalString.
From Equations Require Import Equations.
Import ListNotations.

Set Warnings "-register-all".

Local Open Scope list_scope.
Local Open Scope string_scope.

(* ===================================================================== *)
(** ** The JavaScript runtime the source relies on *)
(* ===================================================================== *)

Module Js.

(** Values as [JSON.parse] and the form state produce them. *)
Inductive value : Type :=
| VUndefined
| VNull
| VBool (b : bool)
| VNum (n : Z)
| VStr (s : string)
| VArr (items : list value)
| VObj (props : list (string * value)).   (* own properties, as enumerated *)

(** ToBoolean: [!v] is [negb (truthy v)]. *)
Definition truthy (v : value) : bool :=
  match v with
  | VUndefined | VNull => false
  | VBool b => b
  | VNum n => negb (Z.eqb n 0)
  | VStr s => negb (String.eqb s "")
  | VArr _ | VObj _ => true
  end.

(** [a || b]. *)
Definition or_else (a b : value) : value := if truthy a then a else b.

(** Decimal rendering of an integer-valued number. *)
Definition string_of_Z (n : Z) : string := NilZero.string_of_int (Z.to_int n).

(** [s1 + sep + s2 + ...] *)
Fixpoint join (sep : string) (l : list string) : string :=
  match l with
  | [] => ""
  | [x] => x
  | x :: r => x ++ sep ++ join sep r
  end.

(** [String(v)], also what a template literal does with [${v}]. *)
Fixpoint toString (v : value) : string :=
  match v with
  | VUndefined => "undefined"
  | VNull => "null"
  | VBool true => "true"
  | VBool false => "false"
  | VNum n => string_of_Z n
  | VStr s => s
  | VArr items =>
      join ","
        (map (fun x => match x with
                       | VUndefined | VNull => ""
                       | _ => toString x
                       end) items)
  | VObj _ => "[object Object]"
  end.

(** Property read [v.k] for the property names the source uses (none of
    them is a built-in property of a string, a number or an array): the
    own property of an object, [undefined] anywhere else. *)
Fixpoint lookup (k : string) (props : list (string * value)) : value :=
  match props with
  | [] => VUndefined
  | (k', x) :: r => if String.eqb k k' then x else lookup k r
  end.

Definition get (v : value) (k : string) : value :=
  match v with
  | VObj props => lookup k props
  | _ => VUndefined
  end.

(** Optional chaining [v?.k]. *)
Definition get_opt (v : value) (k : string) : value :=
  match v with
  | VUndefined | VNull => VUndefined
  | _ => get v k
  end.

(** *** JSON.stringify *)

Definition dquote : string := String "034"%char "".
Definition backslash : string := String "092"%char "".

Definition hex_digit (n : nat) : ascii :=
  nth n (list_ascii_of_string "0123456789abcdef") "0"%char.

Definition quote_char (c : ascii) : string :=
  let n := nat_of_ascii c in
  if Nat.eqb n 34 then backslash ++ dquote
  else if Nat.eqb n 92 then backslash ++ backslash
  else if Nat.eqb n 8 then backslash ++ "b"
  else if Nat.eqb n 9 then backslash ++ "t"
  else if Nat.eqb n 10 then backslash ++ "n"
  else if Nat.eqb n 12 then backslash ++ "f"
  else if Nat.eqb n 13 then backslash ++ "r"
  else if Nat.ltb n 32 then
    backslash ++ "u00" ++ String (hex_digit (n / 16)) (String (hex_digit (n mod 16)) "")
  else String c "".

Fixpoint quote_body (s : string) : string :=
  match s with
  | EmptyString => ""
  | String c r => quote_char c ++ quote_body r
  end.

Definition quote (s : string) : string := dquote ++ quote_body s ++ dquote.

Fixpoint somes {A : Type} (l : list (option A)) : list A :=
  match l with
  | [] => []
  | Some x :: r => x :: somes r
  | None :: r => somes r
  end.

(** [JSON.stringify(v)]: [None] is the [undefined] it returns for
    [undefined]; an array renders an [undefined] item as [null], an object
    leaves a property out whose value is [undefined]. *)
Fixpoint stringify (v : value) : option string :=
  match v with
  | VUndefined => None
  | VNull => Some "null"
  | VBool true => Some "true"
  | VBool false => Some "false"
  | VNum n => Some (string_of_Z n)
  | VStr s => Some (quote s)
  | VArr items =>
      Some ("[" ++ join "," (map (fun x => match stringify x with
                                          | Some s => s
                                          | None => "null"
                                          end) items) ++ "]")
  | VObj props =>
      Some ("{" ++ join "," (somes (map (fun kx => match stringify (snd kx) with
                                                   | Some s => Some (quote (fst kx) ++ ":" ++ s)
                                                   | None => None
                                                   end) props)) ++ "}")
  end.

(** *** String methods *)

(** [s.includes(c)] for a one-character [c]. *)
Fixpoint includes (c : ascii) (s : string) : bool :=
  match s with
  | EmptyString => false
  | String a r => Ascii.eqb a c || includes c r
  end.

(** [s.split(sep)] for a one-character separator. *)
Fixpoint split (sep : ascii) (s : string) : list string :=
  match s with
  | EmptyString => [""]
  | String a r =>
      if Ascii.eqb a sep then "" :: split sep r
      else match split sep r with
           | [] => [String a ""]
           | p :: ps => String a p :: ps
           end
  end.

Fixpoint replicate (n : nat) (c : ascii) : string :=
  match n with
  | O => ""
  | S k => String c (replicate k c)
  end.

(** [s.padStart(n, c)] for a one-character filler. *)
Definition padStart (n : nat) (c : ascii) (s : string) : string :=
  replicate (n - String.length s) c ++ s.

(** White space and line terminators among the code units 0..255. *)
Definition isWhiteSpace (c : ascii) : bool :=
  let n := nat_of_ascii c in
  (Nat.leb 9 n && Nat.leb n 13) || Nat.eqb n 32 || Nat.eqb n 160.

Fixpoint trimStart (s : string) : string :=
  match s with
  | EmptyString => ""
  | String c r => if isWhiteSpace c then trimStart r else s
  end.

Fixpoint trimEnd (s : string) : string :=
  match s with
  | EmptyString => ""
  | String c r =>
      let r' := trimEnd r in
      if isWhiteSpace c && String.eqb r' "" then "" else String c r'
  end.

(** [s.trim()] *)
Definition trim (s : string) : string := trimEnd (trimStart s).

Definition lower_char (c : ascii) : ascii :=
  let n := nat_of_ascii c in
  if (Nat.leb 65 n && Nat.leb n 90)
     || (Nat.leb 192 n && Nat.leb n 222 && negb (Nat.eqb n 215))
  then ascii_of_nat (n + 32) else c.

(** [s.toLowerCase()] *)
Fixpoint toLowerCase (s : string) : string :=
  match s with
  | EmptyString => ""
  | String c r => String (lower_char c) (toLowerCase r)
  end.

(** *** Anchored regular expressions of fixed length

    Both patterns of the source are of the form [^c1 c2 ... cn$] with each
    [ci] a character class, so a pattern is the list of its classes. *)
Inductive cclass : Type :=
| Digit                (* \d *)
| HexI                 (* [0-9a-f] under /i *)
| Range15              (* [1-5] *)
| Variant89abI         (* [89ab] under /i *)
| Lit (c : ascii).

Definition between (lo hi : nat) (c : ascii) : bool :=
  Nat.leb lo (nat_of_ascii c) && Nat.leb (nat_of_ascii c) hi.

Definition in_class (k : cclass) (c : ascii) : bool :=
  match k with
  | Digit => between 48 57 c
  | HexI => between 48 57 c || between 97 102 c || between 65 70 c
  | Range15 => between 49 53 c
  | Variant89abI => between 56 57 c || between 97 98 c || between 65 66 c
  | Lit l => Ascii.eqb c l
  end.

(** [/^...$/.test(s)] *)
Fixpoint test (p : list cclass) (s : string) : bool :=
  match p, s with
  | [], EmptyString => true
  | k :: p', String c s' => in_class k c && test p' s'
  | _, _ => false
  end.

(** [Array.from(new Set(l))]: a Set keeps the first insertion of each
    element, in insertion order. *)
Fixpoint mem (x : string) (l : list string) : bool :=
  match l with
  | [] => false
  | y :: r => String.eqb x y || mem x r
  end.

Definition Set_add (s : list string) (x : string) : list string :=
  if mem x s then s else (s ++ [x])%list.

Definition Set_from (l : list string) : list string := fold_left Set_add l [].

(** The IEEE double [Number(v)] evaluates to, kept as the application. *)
Inductive number : Type :=
| Number (v : value).

End Js.

(* ===================================================================== *)
(** ** The outside world: identifiers and the clock *)
(* ===================================================================== *)

(** What the n-th call of [uuidv4()] and the n-th [new Date().toISOString()]
    return. *)
Record Runtime : Type := {
  uuidv4_at : nat -> string;
  now_at : nat -> string
}.

(** How many calls of each have been made. *)
Record World : Type := {
  uuid_calls : nat;
  date_calls : nat
}.

Definition M (A : Type) : Type := World -> A * World.

Definition ret {A : Type} (a : A) : M A := fun w => (a, w).

Definition bind {A B : Type} (m : M A) (k : A -> M B) : M B :=
  fun w => let (a, w') := m w in k a w'.

Declare Scope wellness_scope.
Delimit Scope wellness_scope with wellness.
Notation "x <- m ;; k" := (bind m (fun x => k))
  (at level 61, m at next level, right associativity) : wellness_scope.
Local Open Scope wellness_scope.

(** [uuidv4()] *)
Definition uuidv4 (rt : Runtime) : M string :=
  fun w => (uuidv4_at rt (uuid_calls w),
            {| uuid_calls := S (uuid_calls w); date_calls := date_calls w |}).

(** [new Date().toISOString()] *)
Definition nowISO (rt : Runtime) : M string :=
  fun w => (now_at rt (date_calls w),
            {| uuid_calls := uuid_calls w; date_calls := S (date_calls w) |}).

(* ===================================================================== *)
(** ** Resources of the output document *)
(* ===================================================================== *)

Import Js.

Record Coding : Type := {
  coding_system : string;
  coding_code : string;
  coding_display : option string
}.

Record CodeableConcept : Type := {
  cc_coding : option (list Coding);
  cc_text : option string
}.

Record Narrative : Type := {
  nar_status : string;
  nar_div : string
}.

Record Reference : Type := {
  reference : string;
  ref_display : option value
}.

Record Identifier : Type := {
  id_system : string;
  id_value : string;
  id_type : CodeableConcept
}.

Record ContactPoint : Type := {
  cp_system : string;
  cp_value : string
}.

Record Patient : Type := {
  pat_id : string;
  pat_profile : list string;
  pat_text : Narrative;
  pat_identifier : list Identifier;
  pat_name : list value;              (* [{ text }] *)
  pat_gender : option string;
  pat_birthDate : option string;
  pat_telecom : list ContactPoint;
  pat_address : list value            (* [{ text }] *)
}.

Record Practitioner : Type := {
  prac_id : string;
  prac_profile : list string;
  prac_text : Narrative;
  prac_identifier : list Identifier;
  prac_name : list string             (* [{ text }] *)
}.

Record Quantity : Type := {
  q_value : number;
  q_unit : string;
  q_system : string;
  q_code : string
}.

(** The one [value[x]] member a builder sets. *)
Inductive ObsValue : Type :=
| valueString (s : string)
| valueCodeableConcept (c : CodeableConcept)
| valueQuantity (q : Quantity).

Record Component : Type := {
  cmp_code : CodeableConcept;
  cmp_value : CodeableConcept
}.

Record Observation : Type := {
  obs_id : string;
  obs_profile : list string;
  obs_status : string;
  obs_code : CodeableConcept;
  obs_subject : Reference;
  obs_performer : list Reference;
  obs_effectiveDateTime : string;
  obs_value : ObsValue;
  obs_component : list Component;
  obs_text : Narrative
}.

Record Section : Type := {
  sec_title : string;
  sec_entry : option (list Reference);
  sec_text : option Narrative
}.

Record Attester : Type := {
  att_mode : string;
  att_party : Reference
}.

Record Composition : Type := {
  comp_id : string;
  comp_profile : list string;
  comp_status : string;
  comp_type : CodeableConcept;
  comp_subject : Reference;
  comp_date : string;
  comp_author : list Reference;
  comp_attester : list Attester;
  comp_title : string;
  comp_section : list Section;
  comp_text : Narrative
}.

Inductive Resource : Type :=
| RComposition (c : Composition)
| RPatient (p : Patient)
| RPractitioner (p : Practitioner)
| RObservation (o : Observation).

Record BundleEntry : Type := {
  fullUrl : string;
  resource : Resource
}.

Record Bundle : Type := {
  bundle_type : string;
  bundle_id : string;
  bundle_identifier : string * string;    (* system, value *)
  bundle_timestamp : string;
  bundle_entry : list BundleEntry
}.

(* ===================================================================== *)
(** ** Constants and helpers of App.js *)
(* ===================================================================== *)

Definition NDHM_PATIENT_PROFILE := "https://nrces.in/ndhm/fhir/r4/StructureDefinition/Patient".
Definition NDHM_PRACTITIONER_PROFILE := "https://nrces.in/ndhm/fhir/r4/StructureDefinition/Practitioner".
Definition NDHM_WELLNESS_COMPOSITION := "https://nrces.in/ndhm/fhir/r4/StructureDefinition/WellnessRecord".
Definition OBS_PHYSICAL_PROFILE := "https://nrces.in/ndhm/fhir/r4/StructureDefinition/ObservationPhysicalActivity".
Definition OBS_GENERAL_PROFILE := "https://nrces.in/ndhm/fhir/r4/StructureDefinition/ObservationGeneralAssessment".
Definition OBS_LIFESTYLE_PROFILE := "https://nrces.in/ndhm/fhir/r4/StructureDefinition/ObservationLifestyle".

Definition V2_0203 := "http://terminology.hl7.org/CodeSystem/v2-0203".

(** The practitioner the form starts with. *)
Record PractitionerInput : Type := {
  loginId : string;
  name : string;
  license : string
}.

Definition GLOBAL_PRACTITIONER : PractitionerInput :=
  {| loginId := "pract-001"; name := "Dr. ABC"; license := "LIC-1234" |}.

(** [a || b] on strings. *)
Definition str_or (a b : string) : string := if String.eqb a "" then b else a.

(** The pattern of [isUuid]:
    [^[0-9a-f]{8}-[0-9a-f]{4}-[1-5][0-9a-f]{3}-[89ab][0-9a-f]{3}-[0-9a-f]{12}$]
    with flag [i]. *)
Definition uuid_pattern : list cclass :=
  (repeat HexI 8 ++ [Lit "-"] ++ repeat HexI 4 ++ [Lit "-"]
   ++ [Range15] ++ repeat HexI 3 ++ [Lit "-"]
   ++ [Variant89abI] ++ repeat HexI 3 ++ [Lit "-"] ++ repeat HexI 12)%list.

Definition isUuid (s : value) : bool :=
  match s with
  | VStr s => test uuid_pattern s
  | _ => false
  end.

(** The pattern [^\d{4}-\d{2}-\d{2}$]. *)
Definition iso_date_pattern : list cclass :=
  (repeat Digit 4 ++ [Lit "-"] ++ repeat Digit 2 ++ [Lit "-"] ++ repeat Digit 2)%list.

Definition ddmmyyyyToISO (v : value) : string :=
  if negb (truthy v) then ""
  else
    let s := trim (toString v) in
    if test iso_date_pattern s then s
    else
      let sep := if includes "-" s then Some "-"%char
                 else if includes "/" s then Some "/"%char else None in
      match sep with
      | None => ""
      | Some sep =>
          let parts := split sep s in
          match parts with
          | [dd; mm; yyyy] =>
              if negb (String.eqb yyyy "") && Nat.eqb (String.length yyyy) 4
              then padStart 4 "0" yyyy ++ "-" ++ padStart 2 "0" mm ++ "-" ++ padStart 2 "0" dd
              else ""
          | _ => ""
          end
      end.

(** The callback of [raw.map(...)] in [extractAbhaAddresses]; [None] is the
    [null] it returns. *)
Definition abhaItem (it : value) : option string :=
  if negb (truthy it) then None
  else match it with
       | VStr s => Some s
       | VArr _ | VObj _ =>
           if truthy (get it "address") then Some (toString (get it "address"))
           else stringify it
       | _ => None
       end.

(** [.filter(Boolean)] on the mapped items: [null] and the empty string go. *)
Definition filterBoolean (l : list (option string)) : list string :=
  filter (fun s => negb (String.eqb s "")) (somes l).

Definition extractAbhaAddresses (apiPatient : value) : list string :=
  let raw := get_opt (get_opt apiPatient "additional_attributes") "abha_addresses" in
  match raw with
  | VArr raw => Set_from (filterBoolean (map abhaItem raw))
  | _ =>
      if truthy (get_opt apiPatient "abha_ref")
      then [toString (get apiPatient "abha_ref")]
      else []
  end.

(** The form state of one person. *)
Record Form : Type := {
  api : value;
  resourceId : string;
  displayName : value;
  gender : string;
  birthDate : string;
  mobile : value;
  address : value;
  abhaRef : value;
  abhaAddresses : list string;
  selectedAbhaAddress : value;
  mrn : string
}.

(** [mapApiToForm]; [None] is the TypeError of [.toLowerCase()] on a gender
    that is neither falsy nor a string. *)
Definition mapApiToForm (apiP : value) : option Form :=
  match or_else (get_opt apiP "gender") (VStr "") with
  | VStr g =>
      Some {| api := apiP;
              resourceId := if isUuid (get_opt apiP "user_ref_id")
                            then toLowerCase (toString (get apiP "user_ref_id"))
                            else "";
              displayName := or_else (get_opt apiP "name") (VStr "");
              gender := toLowerCase g;
              birthDate := str_or (ddmmyyyyToISO (get_opt apiP "dob")) "";
              mobile := or_else (get_opt apiP "mobile") (VStr "");
              address := or_else (get_opt apiP "address") (VStr "");
              abhaRef := or_else (get_opt apiP "abha_ref") (VStr "");
              abhaAddresses := extractAbhaAddresses apiP;
              selectedAbhaAddress := VUndefined;
              mrn := if truthy (get_opt apiP "user_id")
                     then toString (get apiP "user_id") else "" |}
  | _ => None
  end.

(* ===================================================================== *)
(** ** Resource builders *)
(* ===================================================================== *)

(** [<div xmlns="http://www.w3.org/1999/xhtml">] *)
Definition div_open : string :=
  "<div xmlns=" ++ dquote ++ "http://www.w3.org/1999/xhtml" ++ dquote ++ ">".

Definition generated (body : string) : Narrative :=
  {| nar_status := "generated"; nar_div := div_open ++ body ++ "</div>" |}.

(** [`urn:uuid:${id}`] *)
Definition urn (id : string) : string := "urn:uuid:" ++ id.

Definition ref_to (id : string) : Reference :=
  {| reference := urn id; ref_display := None |}.

Definition id_type_of (code display text : string) : CodeableConcept :=
  {| cc_coding := Some [ {| coding_system := V2_0203; coding_code := code;
                            coding_display := Some display |} ];
     cc_text := Some text |}.

Definition textOnly (t : string) : CodeableConcept :=
  {| cc_coding := None; cc_text := Some t |}.

(** [identifier.push(x)] *)
Definition push {A : Type} (l : list A) (x : A) : list A := (l ++ [x])%list.

Definition buildFhirPatient (rt : Runtime) (form : Form) : M Patient :=
  id <- (if negb (String.eqb (resourceId form) "") && isUuid (VStr (resourceId form))
         then ret (toLowerCase (resourceId form)) else uuidv4 rt) ;;
  let identifier : list Identifier := [] in
  let identifier :=
    if truthy (abhaRef form)
    then push identifier
           {| id_system := "https://healthid.abdm.gov.in";
              id_value := toString (abhaRef form);
              id_type := id_type_of "PI" "Patient internal identifier" "ABHA Number" |}
    else identifier in
  let identifier :=
    if truthy (selectedAbhaAddress form)
    then push identifier
           {| id_system := "https://healthid.abdm.gov.in/address";
              id_value := toString (selectedAbhaAddress form);
              id_type := id_type_of "PN" "Person number" "ABHA Address" |}
    else identifier in
  let identifier :=
    if negb (String.eqb (mrn form) "")
    then push identifier
           {| id_system := "http://hospital.example/mrn";
              id_value := mrn form;
              id_type := id_type_of "MR" "Medical record number" "MRN" |}
    else identifier in
  let identifier :=
    if Nat.eqb (List.length identifier) 0
    then push identifier
           {| id_system := "urn:uuid";
              id_value := id;
              id_type := id_type_of "PI" "Patient internal identifier" "generated-id" |}
    else identifier in
  let telecom :=
    if truthy (mobile form)
    then [ {| cp_system := "phone"; cp_value := toString (mobile form) |} ]
    else [] in
  ret {| pat_id := id;
         pat_profile := [NDHM_PATIENT_PROFILE];
         pat_text := generated ("<p>" ++ toString (displayName form) ++ "</p>");
         pat_identifier := identifier;
         pat_name := [displayName form];
         pat_gender := if String.eqb (gender form) "" then None else Some (gender form);
         pat_birthDate := if String.eqb (birthDate form) "" then None
                          else Some (birthDate form);
         pat_telecom := telecom;
         pat_address := if truthy (address form) then [address form] else [] |}.

Definition buildPractitioner (rt : Runtime) (pract : PractitionerInput) : M Practitioner :=
  id <- uuidv4 rt ;;
  ret {| prac_id := id;
         prac_profile := [NDHM_PRACTITIONER_PROFILE];
         prac_text := generated ("<p>" ++ name pract ++ "</p>");
         prac_identifier :=
           [ {| id_system := "https://ndhm.in/practitioner/license";
                id_value := str_or (license pract) "";
                id_type := id_type_of "MD" "Medical License number" "Medical License number" |};
             {| id_system := "https://your.system/login-id";
                id_value := str_or (loginId pract) "";
                id_type := id_type_of "PN" "Person number" "Login id" |} ];
         prac_name := [name pract] |}.

Definition buildPhysicalActivityObs (rt : Runtime) (patientId practitionerId text : string)
  : M Observation :=
  id <- uuidv4 rt ;;
  now <- nowISO rt ;;
  ret {| obs_id := id;
         obs_profile := [OBS_PHYSICAL_PROFILE];
         obs_status := "final";
         obs_code :=
           {| cc_coding := Some [ {| coding_system := "http://loinc.org";
                                     coding_code := "68516-4";
                                     coding_display := Some "On those days that you engage in moderate to strenuous exercise, how many minutes, on average, do you exercise" |} ];
              cc_text := Some "Physical activity" |};
         obs_subject := ref_to patientId;
         obs_performer := [ref_to practitionerId];
         obs_effectiveDateTime := now;
         obs_value := valueString (str_or text "Not provided");
         obs_component := [];
         obs_text := generated ("<p>" ++ str_or text "Not provided" ++ "</p>") |}.

Definition buildGeneralAssessmentObs (rt : Runtime) (patientId practitionerId notes : string)
    (pain : bool) : M Observation :=
  id <- uuidv4 rt ;;
  let textVal := str_or notes "Not provided" in
  now <- nowISO rt ;;
  ret {| obs_id := id;
         obs_profile := [OBS_GENERAL_PROFILE];
         obs_status := "final";
         obs_code :=
           {| cc_coding := Some [ {| coding_system := "http://loinc.org";
                                     coding_code := "8693-4";
                                     coding_display := Some "Mental status" |} ];
              cc_text := Some "General assessment" |};
         obs_subject := ref_to patientId;
         obs_performer := [ref_to practitionerId];
         obs_effectiveDateTime := now;
         obs_value := valueCodeableConcept (textOnly textVal);
         obs_component :=
           [ {| cmp_code := textOnly "Any current pain?";
                cmp_value := textOnly (if pain then "Yes" else "No") |} ];
         obs_text := generated ("<p>" ++ textVal ++ "</p>") |}.

Definition buildLifestyleObs (rt : Runtime) (patientId practitionerId label : string)
    (value : value) : M Observation :=
  id <- uuidv4 rt ;;
  let v := match value with
           | VBool b => if b then "Yes" else "No"
           | _ => toString (or_else value (VStr "Not provided"))
           end in
  now <- nowISO rt ;;
  ret {| obs_id := id;
         obs_profile := [OBS_LIFESTYLE_PROFILE];
         obs_status := "final";
         obs_code :=
           {| cc_coding := Some [ {| coding_system := "http://snomed.info/sct";
                                     coding_code := "229819007";
                                     coding_display := Some "Tobacco use and exposure" |} ];
              cc_text := Some (str_or label "Lifestyle") |};
         obs_subject := ref_to patientId;
         obs_performer := [ref_to practitionerId];
         obs_effectiveDateTime := now;
         obs_value := valueCodeableConcept (textOnly v);
         obs_component := [];
         obs_text := generated ("<p>" ++ label ++ ": " ++ v ++ "</p>") |}.

(** [quantity === "" || quantity === undefined || quantity === null] *)
Definition noQuantity (quantity : value) : bool :=
  match quantity with
  | VStr s => String.eqb s ""
  | VUndefined | VNull => true
  | _ => false
  end.

(** Every call site passes string literals for [codeText], [unit] and
    [loincCode]; [None] is the [null] returned for an absent quantity. *)
Definition buildVitalObservation (rt : Runtime) (patientId practitionerId codeText : string)
    (quantity : value) (unit loincCode : string) : M (option Observation) :=
  if noQuantity quantity then ret None
  else
    id <- uuidv4 rt ;;
    now <- nowISO rt ;;
    ret (Some
      {| obs_id := id;
         obs_profile := [];
         obs_status := "final";
         obs_code :=
           if negb (String.eqb loincCode "")
           then {| cc_coding := Some [ {| coding_system := "http://loinc.org";
                                          coding_code := loincCode;
                                          coding_display := Some codeText |} ];
                   cc_text := Some codeText |}
           else textOnly codeText;
         obs_subject := ref_to patientId;
         obs_performer := [ref_to practitionerId];
         obs_effectiveDateTime := now;
         obs_value := valueQuantity {| q_value := Number quantity;
                                       q_unit := str_or unit "";
                                       q_system := "http://unitsofmeasure.org";
                                       q_code := str_or unit "" |};
         obs_component := [];
         obs_text := generated ("<p>" ++ codeText ++ ": " ++ toString quantity ++ " "
                                ++ str_or unit "" ++ "</p>") |}).

(* ===================================================================== *)
(** ** The component state and [generateBundle] *)
(* ===================================================================== *)

Record Vitals : Type := {
  hr : string;
  systolic : string;
  diastolic : string;
  temp : string;
  spo2 : string
}.

Record Body : Type := {
  height : string;
  weight : string;
  bmi : string
}.

Record LifestyleRow : Type := {
  li_label : string;
  li_value : value
}.

(** The [useState] cells of [App]. [bundleJson] holds the bundle that
    [JSON.stringify(bundle, null, 2)] serialises; [None] is the empty
    string. *)
Record AppState : Type := {
  forms : list Form;
  selectedIndex : Z;
  form : option Form;
  practitioner : PractitionerInput;
  physicalText : string;
  generalNotes : string;
  generalPain : bool;
  lifestyle : list LifestyleRow;
  vitals : Vitals;
  body : Body;
  bundleJson : option Bundle;
  message : string
}.

Definition setMessage (c : AppState) (m : string) : AppState :=
  {| forms := forms c; selectedIndex := selectedIndex c; form := form c;
     practitioner := practitioner c; physicalText := physicalText c;
     generalNotes := generalNotes c; generalPain := generalPain c;
     lifestyle := lifestyle c; vitals := vitals c; body := body c;
     bundleJson := bundleJson c; message := m |}.

Definition setBundleJson (c : AppState) (b : option Bundle) : AppState :=
  {| forms := forms c; selectedIndex := selectedIndex c; form := form c;
     practitioner := practitioner c; physicalText := physicalText c;
     generalNotes := generalNotes c; generalPain := generalPain c;
     lifestyle := lifestyle c; vitals := vitals c; body := body c;
     bundleJson := b; message := message c |}.

(** [if (o) observations.push(o)] *)
Definition push_if {A : Type} (l : list A) (o : option A) : list A :=
  match o with
  | Some x => push l x
  | None => l
  end.

(** [if (x) observations.push(build(...))]: the builder runs only when [x]
    is a non-empty string. *)
Definition when_filled {A : Type} (x : string) (m : M (option A)) : M (option A) :=
  if negb (String.eqb x "") then m else ret None.

(** [li.value === "" || li.value === null || li.value === undefined] *)
Definition noValue (v : value) : bool :=
  match v with
  | VStr s => String.eqb s ""
  | VNull | VUndefined => true
  | _ => false
  end.

(** The loop [for (const li of lifestyle) { ... }] (lines 389-392). *)
Fixpoint lifestyleLoop (rt : Runtime) (patientId practitionerId : string)
    (rows : list LifestyleRow) (observations : list Observation) : M (list Observation) :=
  match rows with
  | [] => ret observations
  | li :: rest =>
      if String.eqb (li_label li) "" && noValue (li_value li)
      then lifestyleLoop rt patientId practitionerId rest observations      (* continue *)
      else
        o <- buildLifestyleObs rt patientId practitionerId
               (str_or (li_label li) "Lifestyle") (li_value li) ;;
        lifestyleLoop rt patientId practitionerId rest (push observations o)
  end.

(** Lines 363-392 of [generateBundle]: the observations in the order they
    are pushed, with the physical-activity and general-assessment ones. *)
Definition collectObservations (rt : Runtime) (c : AppState)
    (patientId practitionerId : string)
  : M (list Observation * Observation * Observation) :=
  let observations : list Observation := [] in
  (* vitals *)
  hrObs <- buildVitalObservation rt patientId practitionerId "Heart rate"
             (VStr (hr (vitals c))) "beats/min" "8867-4" ;;
  let observations := push_if observations hrObs in
  bpSys <- buildVitalObservation rt patientId practitionerId "Systolic blood pressure"
             (VStr (systolic (vitals c))) "mmHg" "8480-6" ;;
  bpDia <- buildVitalObservation rt patientId practitionerId "Diastolic blood pressure"
             (VStr (diastolic (vitals c))) "mmHg" "8462-4" ;;
  let observations := push_if observations bpSys in
  let observations := push_if observations bpDia in
  tempObs <- when_filled (temp (vitals c))
               (buildVitalObservation rt patientId practitionerId "Body temperature"
                  (VStr (temp (vitals c))) "Cel" "8310-5") ;;
  let observations := push_if observations tempObs in
  spo2Obs <- when_filled (spo2 (vitals c))
               (buildVitalObservation rt patientId practitionerId "SpO2"
                  (VStr (spo2 (vitals c))) "%" "59408-5") ;;
  let observations := push_if observations spo2Obs in
  (* body *)
  heightObs <- when_filled (height (body c))
                 (buildVitalObservation rt patientId practitionerId "Height"
                    (VStr (height (body c))) "cm" "8302-2") ;;
  let observations := push_if observations heightObs in
  weightObs <- when_filled (weight (body c))
                 (buildVitalObservation rt patientId practitionerId "Weight"
                    (VStr (weight (body c))) "kg" "29463-7") ;;
  let observations := push_if observations weightObs in
  bmiObs <- when_filled (bmi (body c))
              (buildVitalObservation rt patientId practitionerId "BMI"
                 (VStr (bmi (body c))) "kg/m2" "39156-5") ;;
  let observations := push_if observations bmiObs in
  (* physical activity *)
  physObs <- buildPhysicalActivityObs rt patientId practitionerId
               (str_or (physicalText c) "Not provided") ;;
  let observations := push observations physObs in
  (* general assessment *)
  genObs <- buildGeneralAssessmentObs rt patientId practitionerId
              (str_or (generalNotes c) "Not provided") (generalPain c) ;;
  let observations := push observations genObs in
  (* lifestyle repeatable *)
  observations <- lifestyleLoop rt patientId practitionerId (lifestyle c) observations ;;
  ret (observations, physObs, genObs).

(** [o.valueQuantity] as a condition. *)
Definition hasValueQuantity (o : Observation) : bool :=
  match obs_value o with
  | valueQuantity _ => true
  | _ => false
  end.

(** [(o.meta?.profile || []).includes(OBS_LIFESTYLE_PROFILE)] *)
Definition isLifestyle (o : Observation) : bool :=
  existsb (String.eqb OBS_LIFESTYLE_PROFILE) (obs_profile o).

Definition entryRef (o : Observation) : Reference := ref_to (obs_id o).

(** Lines 396-422: the four sections. [physObs] and [genObs] are objects,
    so the conditions [if (physObs)] and [if (genObs)] hold: they are
    [Some]. *)
Definition buildSections (observations : list Observation)
    (physObs genObs : option Observation) : list Section :=
  let sections : list Section := [] in
  let vitalsEntries := map entryRef (filter hasValueQuantity observations) in
  let sections :=
    if negb (Nat.eqb (List.length vitalsEntries) 0)
    then push sections {| sec_title := "Vitals"; sec_entry := Some vitalsEntries;
                          sec_text := None |}
    else push sections {| sec_title := "Vitals"; sec_entry := None;
                          sec_text := Some (generated "No vitals recorded") |} in
  let sections :=
    match physObs with
    | Some physObs =>
        push sections {| sec_title := "Physical Activity";
                         sec_entry := Some [entryRef physObs];
                         sec_text := Some (generated "Physical activity") |}
    | None =>
        push sections {| sec_title := "Physical Activity"; sec_entry := None;
                         sec_text := Some (generated "No physical activity recorded") |}
    end in
  let sections :=
    match genObs with
    | Some genObs =>
        push sections {| sec_title := "General Assessment";
                         sec_entry := Some [entryRef genObs];
                         sec_text := Some (generated "General assessment") |}
    | None =>
        push sections {| sec_title := "General Assessment"; sec_entry := None;
                         sec_text := Some (generated "No general assessment recorded") |}
    end in
  let lifestyleEntries := map entryRef (filter isLifestyle observations) in
  let sections :=
    if negb (Nat.eqb (List.length lifestyleEntries) 0)
    then push sections {| sec_title := "Lifestyle"; sec_entry := Some lifestyleEntries;
                          sec_text := Some (generated "Lifestyle") |}
    else push sections {| sec_title := "Lifestyle"; sec_entry := None;
                          sec_text := Some (generated "No lifestyle observations recorded") |} in
  sections.

(** Lines 424-437. *)
Definition buildComposition (rt : Runtime) (compId : string) (form : Form)
    (practitioner : PractitionerInput) (patientRes : Patient)
    (practitionerRes : Practitioner) (sections : list Section) : M Composition :=
  now <- nowISO rt ;;
  ret {| comp_id := compId;
         comp_profile := [NDHM_WELLNESS_COMPOSITION];
         comp_status := "final";
         comp_type := {| cc_coding := Some [ {| coding_system := "http://loinc.org";
                                                coding_code := "11502-2";
                                                coding_display := None |} ];
                         cc_text := Some "Wellness Record" |};
         comp_subject := {| reference := urn (pat_id patientRes);
                            ref_display := Some (displayName form) |};
         comp_date := now;
         comp_author := [ {| reference := urn (prac_id practitionerRes);
                             ref_display := Some (VStr (name practitioner)) |} ];
         comp_attester := [ {| att_mode := "official";
                               att_party := ref_to (prac_id practitionerRes) |} ];
         comp_title := "Wellness Record";
         comp_section := sections;
         comp_text := generated ("<h3>Wellness Record - " ++ toString (displayName form)
                                 ++ "</h3>") |}.

(** Lines 439-454. *)
Definition buildBundle (rt : Runtime) (composition : Composition) (patientRes : Patient)
    (practitionerRes : Practitioner) (observations : list Observation) : M Bundle :=
  id <- uuidv4 rt ;;
  identifierValue <- uuidv4 rt ;;
  timestamp <- nowISO rt ;;
  let entry : list BundleEntry := [] in
  (* composition first *)
  let entry := push entry {| fullUrl := urn (comp_id composition);
                             resource := RComposition composition |} in
  (* patient and practitioner *)
  let entry := push entry {| fullUrl := urn (pat_id patientRes);
                             resource := RPatient patientRes |} in
  let entry := push entry {| fullUrl := urn (prac_id practitionerRes);
                             resource := RPractitioner practitionerRes |} in
  (* observations *)
  let entry := fold_left (fun entry o =>
                 push entry {| fullUrl := urn (obs_id o); resource := RObservation o |})
               observations entry in
  ret {| bundle_type := "document";
         bundle_id := id;
         bundle_identifier := ("https://nrces.in/ids/bundles", identifierValue);
         bundle_timestamp := timestamp;
         bundle_entry := entry |}.

(** The message of a successful run (its dash in UTF-8 bytes). *)
Definition MSG_GENERATED : string :=
  "Bundle generated — copy-paste into Inferno/validator. If any remaining validation errors appear, paste them and I'll patch them exactly.".

(** The handler reads the state of the render it belongs to, [c], and
    queues updates; [s] is the state once they are applied. *)
Definition generateBundle (rt : Runtime) (c : AppState) : M AppState :=
  let s := setMessage c "" in
  let s := setBundleJson s None in
  match form c with
  | None => ret (setMessage s "Please select a patient.")
  | Some form =>
      if negb (truthy (selectedAbhaAddress form)) && negb (truthy (abhaRef form))
      then ret (setMessage s "Please select ABHA address.")
      else if String.eqb (name (practitioner c)) "" || String.eqb (license (practitioner c)) ""
      then ret (setMessage s "Practitioner name and license required.")
      else
        patientRes <- buildFhirPatient rt form ;;
        practitionerRes <- buildPractitioner rt (practitioner c) ;;
        collected <- collectObservations rt c (pat_id patientRes) (prac_id practitionerRes) ;;
        let '(observations, physObs, genObs) := collected in
        compId <- uuidv4 rt ;;
        let sections := buildSections observations (Some physObs) (Some genObs) in
        composition <- buildComposition rt compId form (practitioner c) patientRes
                         practitionerRes sections ;;
        bundle <- buildBundle rt composition patientRes practitionerRes observations ;;
        let s := setBundleJson s (Some bundle) in
        ret (setMessage s MSG_GENERATED)
  end.

(** The two states of the generation flow. *)
Inductive Phase : Type :=
| Idle
| Generated.

Definition phase (c : AppState) : Phase :=
  match bundleJson c with
  | None => Idle
  | Some _ => Generated
  end.

(* ===================================================================== *)
(** ** Vocabulary of the specification *)
(* ===================================================================== *)

(** *** Generation preconditions (spec, sections 3 and 7) *)

Definition hasHealthIdentity (f : Form) : bool :=
  truthy (abhaRef f) || truthy (selectedAbhaAddress f).

Definition attesterComplete (p : PractitionerInput) : bool :=
  negb (String.eqb (name p) "") && negb (String.eqb (license p) "").

(** A person is selected, carries an external health id or address, and
    the attester has a name and a license. *)
Definition ready (c : AppState) : bool :=
  match form c with
  | Some f => hasHealthIdentity f && attesterComplete (practitioner c)
  | None => false
  end.

(** *** Cross-references and coined identities of a bundle *)

Definition resourceIdOf (r : Resource) : string :=
  match r with
  | RComposition c => comp_id c
  | RPatient p => pat_id p
  | RPractitioner p => prac_id p
  | RObservation o => obs_id o
  end.

Definition sectionRefs (s : Section) : list Reference :=
  match sec_entry s with
  | Some l => l
  | None => []
  end.

Definition compositionRefs (c : Composition) : list Reference :=
  (comp_subject c :: comp_author c ++ map att_party (comp_attester c)
   ++ flat_map sectionRefs (comp_section c))%list.

Definition observationRefs (o : Observation) : list Reference :=
  obs_subject o :: obs_performer o.

Definition resourceRefs (r : Resource) : list Reference :=
  match r with
  | RComposition c => compositionRefs c
  | RObservation o => observationRefs o
  | RPatient _ | RPractitioner _ => []
  end.

(** Every cross-reference that occurs anywhere in the bundle. *)
Definition bundleRefs (b : Bundle) : list Reference :=
  flat_map (fun e => resourceRefs (resource e)) (bundle_entry b).

(** The entries a reference resolves to: those whose [fullUrl] it names. *)
Definition resolve (b : Bundle) (r : Reference) : list BundleEntry :=
  filter (fun e => String.eqb (fullUrl e) (reference r)) (bundle_entry b).

(** The identities [uuidv4()] hands out in its next [n] calls. *)
Definition coined (rt : Runtime) (w : World) (n : nat) : list string :=
  map (uuidv4_at rt) (seq (uuid_calls w) n).

(** *** Vital measurements *)

(** The arguments of the eight calls of [buildVitalObservation] in
    lines 366-378: label, numeric value, unit, code. *)
Definition vitalInputs (c : AppState) : list (string * string * string * string) :=
  [ ("Heart rate", hr (vitals c), "beats/min", "8867-4");
    ("Systolic blood pressure", systolic (vitals c), "mmHg", "8480-6");
    ("Diastolic blood pressure", diastolic (vitals c), "mmHg", "8462-4");
    ("Body temperature", temp (vitals c), "Cel", "8310-5");
    ("SpO2", spo2 (vitals c), "%", "59408-5");
    ("Height", height (body c), "cm", "8302-2");
    ("Weight", weight (body c), "kg", "29463-7");
    ("BMI", bmi (body c), "kg/m2", "39156-5") ].

Definition vitalFilled (i : string * string * string * string) : bool :=
  let '(_, quantity, _, _) := i in negb (String.eqb quantity "").

(** Label, numeric value and unit of what a vital input becomes. *)
Definition vitalExpected (i : string * string * string * string)
  : option string * option Quantity :=
  let '(label, quantity, unit, _) := i in
  (Some label,
   Some {| q_value := Number (VStr quantity); q_unit := unit;
           q_system := "http://unitsofmeasure.org"; q_code := unit |}).

Definition quantityOf (o : Observation) : option Quantity :=
  match obs_value o with
  | valueQuantity q => Some q
  | _ => None
  end.

Definition vitalSummary (o : Observation) : option string * option Quantity :=
  (cc_text (obs_code o), quantityOf o).

(** *** Lifestyle rows *)

(** A row is dropped when its label is empty and its value is the empty
    string, null or undefined. *)
Definition rowDropped (li : LifestyleRow) : bool :=
  String.eqb (li_label li) ""
  && match li_value li with
     | VStr s => String.eqb s ""
     | VNull | VUndefined => true
     | _ => false
     end.

Definition rowLabel (li : LifestyleRow) : string :=
  if String.eqb (li_label li) "" then "Lifestyle" else li_label li.

Definition rowValueText (li : LifestyleRow) : string :=
  match li_value li with
  | VBool true => "Yes"
  | VBool false => "No"
  | v => if truthy v then toString v else "Not provided"
  end.

Definition valueTextOf (o : Observation) : option string :=
  match obs_value o with
  | valueCodeableConcept c => cc_text c
  | _ => None
  end.

Definition lifestyleSummary (o : Observation) : option string * option string :=
  (cc_text (obs_code o), valueTextOf o).

(** *** Sections *)

Definition fallbackText (title : string) : string :=
  if String.eqb title "Vitals" then "No vitals recorded"
  else if String.eqb title "Physical Activity" then "No physical activity recorded"
  else if String.eqb title "General Assessment" then "No general assessment recorded"
  else "No lifestyle observations recorded".

(** A section carries a non-empty list of cross-references (with a
    narrative unless it is Vitals) or only the narrative that nothing was
    recorded. *)
Definition sectionShape (s : Section) : Prop :=
  (exists r l, sec_entry s = Some (r :: l)
               /\ (sec_title s = "Vitals" -> sec_text s = None)
               /\ (sec_title s <> "Vitals" -> exists n, sec_text s = Some n))
  \/ (sec_entry s = None
      /\ sec_text s = Some (generated (fallbackText (sec_title s)))).

(** *** Identifiers of a person (spec, section 4.3) *)

Definition identifierCode (i : Identifier) : list string :=
  match cc_coding (id_type i) with
  | Some l => map coding_code l
  | None => []
  end.

Definition labelled (i : Identifier) : Prop :=
  (exists t, cc_text (id_type i) = Some t /\ t <> "")
  /\ exists c, cc_coding (id_type i) = Some [c]
               /\ exists d, coding_display c = Some d /\ d <> "".

(** The identity sources that are present, as (value, type code). *)
Definition identitySources (f : Form) : list (string * string) :=
  ((if truthy (abhaRef f) then [(toString (abhaRef f), "PI")] else [])
   ++ (if truthy (selectedAbhaAddress f)
       then [(toString (selectedAbhaAddress f), "PN")] else [])
   ++ (if negb (String.eqb (mrn f) "") then [(mrn f, "MR")] else []))%list.

(** *** Version-4 identifiers, as the specification names them *)

(** [xxxxxxxx-xxxx-Vxxx-yxxx-xxxxxxxxxxxx] with version digit [V]. *)
Definition uuid_version_pattern (version : ascii) : list cclass :=
  (repeat HexI 8 ++ [Lit "-"] ++ repeat HexI 4 ++ [Lit "-"]
   ++ [Lit version] ++ repeat HexI 3 ++ [Lit "-"]
   ++ [Variant89abI] ++ repeat HexI 3 ++ [Lit "-"] ++ repeat HexI 12)%list.

(** A syntactically valid version-4 unique identifier. *)
Definition isUuidV4 (s : string) : bool := test (uuid_version_pattern "4") s.

(** The version digits the pattern of [isUuid] accepts. *)
Definition versionDigits : list ascii := ["1"; "2"; "3"; "4"; "5"]%char.

(** *** Date shapes *)

(** [DD-MM-YYYY] or [DD/MM/YYYY] with the one separator [sep]. *)
Definition dmy_pattern (sep : ascii) : list cclass :=
  (repeat Digit 2 ++ [Lit sep] ++ repeat Digit 2 ++ [Lit sep] ++ repeat Digit 4)%list.

Definition isYMD (s : string) : bool := test iso_date_pattern s.

Definition isDMY (s : string) : bool :=
  test (dmy_pattern "-") s || test (dmy_pattern "/") s.

Fixpoint allDigits (s : string) : bool :=
  match s with
  | EmptyString => true
  | String c r => in_class Digit c && allDigits r
  end.

(** One or two digits. *)
Definition dayOrMonth (s : string) : bool :=
  allDigits s && (Nat.eqb (String.length s) 1 || Nat.eqb (String.length s) 2).

Definition year4 (s : string) : bool :=
  allDigits s && Nat.eqb (String.length s) 4.

(** The separator the code splits on: [-] when the string has one, else
    [/] when it has one. *)
Definition separatorOf (s : string) : option ascii :=
  if includes "-" s then Some "-"%char
  else if includes "/" s then Some "/"%char else None.

(** The string has its separator exactly twice and four characters after
    the second. *)
Definition threeParts (s : string) : bool :=
  match separatorOf s with
  | Some sep =>
      match split sep s with
      | [_; _; yyyy] => Nat.eqb (String.length yyyy) 4
      | _ => false
      end
  | None => false
  end.

(** *** Alternate addresses *)

(** The first occurrence of every element, in order. *)
Equations? firstOccurrences (l : list string) : list string by wf (List.length l) lt :=
  firstOccurrences [] := [];
  firstOccurrences (x :: r) :=
    x :: firstOccurrences (filter (fun y => negb (String.eqb y x)) r).
Proof.
  simpl. apply Nat.lt_succ_r. apply filter_length_le.
Qed.

(** The candidate of one item as the claim words it: a string as it is,
    an object's address when present, else the encoding of the object. *)
Definition claimedCandidate (it : value) : list string :=
  match it with
  | VStr s => [s]
  | VObj _ =>
      if truthy (get it "address") then [toString (get it "address")]
      else match stringify it with Some s => [s] | None => [] end
  | _ => []
  end.

(** The candidate of one item as the code takes it: falsy items, and items
    that are neither strings nor objects, give none; so does an address
    whose string is empty. *)
Definition candidate (it : value) : list string :=
  match it with
  | VStr s => if String.eqb s "" then [] else [s]
  | VArr _ | VObj _ =>
      if truthy (get it "address")
      then (if String.eqb (toString (get it "address")) "" then []
            else [toString (get it "address")])
      else match stringify it with Some s => [s] | None => [] end
  | _ => []
  end.

Definition abhaList (apiPatient : value) : value :=
  get_opt (get_opt apiPatient "additional_attributes") "abha_addresses".

Definition legacyAddress (apiPatient : value) : list string :=
  if truthy (get_opt apiPatient "abha_ref")
  then [toString (get_opt apiPatient "abha_ref")] else [].

(** *** Summaries and invariants of a run *)

(** Value, type code and label of an identifier. *)
Definition identifierSummary (i : Identifier) : string * list string * option string :=
  (id_value i, identifierCode i, cc_text (id_type i)).

(** What an identity source is emitted as. *)
Definition sourceIdentifier (s : string * string) : string * list string * option string :=
  (fst s, [snd s],
   Some (if String.eqb (snd s) "PI" then "ABHA Number"
         else if String.eqb (snd s) "PN" then "ABHA Address" else "MRN")).

(** The message that names what is missing. *)
Definition refusal (c : AppState) : string :=
  match form c with
  | None => "Please select a patient."
  | Some f =>
      if hasHealthIdentity f then "Practitioner name and license required."
      else "Please select ABHA address."
  end.

(** The bundle a run of [generateBundle] leaves in the state. *)
Definition bundleOf (rt : Runtime) (c : AppState) (w : World) : option Bundle :=
  bundleJson (fst (generateBundle rt c w)).

(** An observation points at the person and the attester of its run. *)
Definition wellLinked (patientId practitionerId : string) (o : Observation) : Prop :=
  obs_subject o = ref_to patientId /\ obs_performer o = [ref_to practitionerId].

(** The observations [l] received, in order, the identities coined from
    world [w] on, one each, and the world ended in [w']. *)
Definition generatedFrom (rt : Runtime) (patientId practitionerId : string)
    (w : World) (l : list Observation) (w' : World) : Prop :=
  map obs_id l = coined rt w (List.length l)
  /\ uuid_calls w' = uuid_calls w + List.length l
  /\ Forall (wellLinked patientId practitionerId) l.

Definition rowExpected (li : LifestyleRow) : option string * option string :=
  (Some (rowLabel li), Some (rowValueText li)).

Definition rowKept (li : LifestyleRow) : bool := negb (rowDropped li).

Definition entryOf (r : Resource) : BundleEntry :=
  {| fullUrl := urn (resourceIdOf r); resource := r |}.

(** Kinds of observation, by the tests the section assembler applies. *)
Definition quantityOnly (o : Observation) : Prop :=
  hasValueQuantity o = true /\ isLifestyle o = false.

Definition lifestyleOnly (o : Observation) : Prop :=
  hasValueQuantity o = false /\ isLifestyle o = true.

Definition plainObservation (o : Observation) : Prop :=
  hasValueQuantity o = false /\ isLifestyle o = false.

(** After the vital inputs [done] were handled from world [w0] on, the
    observations pushed so far are [acc] and the world is [w]. *)
Definition vitalsDone (rt : Runtime) (patientId practitionerId : string) (w0 : World)
    (done : list (string * string * string * string)) (acc : list Observation)
    (w : World) : Prop :=
  generatedFrom rt patientId practitionerId w0 acc w
  /\ map vitalSummary acc = map vitalExpected (filter vitalFilled done)
  /\ Forall quantityOnly acc.

(* ===================================================================== *)
(** ** A concrete run *)
(* ===================================================================== *)

Fixpoint hexDigits (width n : nat) : string :=
  match width with
  | O => ""
  | S k => hexDigits k (n / 16) ++ String (hex_digit (n mod 16)) ""
  end.

(** A world whose n-th identifier is [00000000-0000-4000-8000-<n in hex>]
    and whose clock stands still. *)
Definition sampleRuntime : Runtime :=
  {| uuidv4_at := fun n => "00000000-0000-4000-8000-" ++ hexDigits 12 n;
     now_at := fun _ => "2025-01-01T00:00:00.000Z" |}.

Definition startWorld : World := {| uuid_calls := 0; date_calls := 0 |}.

(** The person of scenario A of the specification, as the feed has it. *)
Definition sampleRecord : value :=
  VObj [ ("name", VStr "Asha Rao"); ("gender", VStr "Female");
         ("dob", VStr "15-08-1990"); ("mobile", VStr "9000000000");
         ("abha_ref", VStr "AB1234"); ("user_id", VNum 42);
         ("user_ref_id", VStr "not-a-uuid") ].

Definition sampleForm : Form :=
  {| api := sampleRecord;
     resourceId := "";
     displayName := VStr "Asha Rao";
     gender := "female";
     birthDate := "1990-08-15";
     mobile := VStr "9000000000";
     address := VStr "";
     abhaRef := VStr "AB1234";
     abhaAddresses := ["AB1234"];
     selectedAbhaAddress := VStr "AB1234";
     mrn := "42" |}.

(** Scenario C: a heart rate of 72; the first lifestyle row of the form and
    an empty added row. *)
Definition sampleState : AppState :=
  {| forms := [sampleForm];
     selectedIndex := 0;
     form := Some sampleForm;
     practitioner := GLOBAL_PRACTITIONER;
     physicalText := "";
     generalNotes := "";
     generalPain := false;
     lifestyle := [ {| li_label := "Smoking"; li_value := VBool false |};
                    {| li_label := ""; li_value := VStr "" |} ];
     vitals := {| hr := "72"; systolic := ""; diastolic := ""; temp := ""; spo2 := "" |};
     body := {| height := ""; weight := ""; bmi := "" |};
     bundleJson := None;
     message := "" |}.

(** Scenario B: the attester's license is empty. *)
Definition noLicenseState : AppState :=
  {| forms := [sampleForm];
     selectedIndex := 0;
     form := Some sampleForm;
     practitioner := {| loginId := "pract-001"; name := "Dr. ABC"; license := "" |};
     physicalText := "";
     generalNotes := "";
     generalPain := false;
     lifestyle := [ {| li_label := "Smoking"; li_value := VBool false |} ];
     vitals := {| hr := ""; systolic := ""; diastolic := ""; temp := ""; spo2 := "" |};
     body := {| height := ""; weight := ""; bmi := "" |};
     bundleJson := None;
     message := "" |}.

(** Decidable [NoDup] on strings, to check a concrete window of identifiers. *)
Fixpoint distinct (l : list string) : bool :=
  match l with
  | [] => true
  | x :: r => negb (mem x r) && distinct r
  end.

(** A person whose internal reference is a version-1 (time-based)
    identifier. *)
Definition version1Form : Form :=
  {| api := VNull;
     resourceId := "123e4567-e89b-12d3-a456-426614174000";
     displayName := VStr "Asha Rao";
     gender := "female";
     birthDate := "1990-08-15";
     mobile := VStr "";
     address := VStr "";
     abhaRef := VStr "AB1234";
     abhaAddresses := ["AB1234"];
     selectedAbhaAddress := VStr "AB1234";
     mrn := "" |}.

(** A record whose list of alternate addresses holds an empty string. *)
Definition emptyAddressRecord : value :=
  VObj [ ("additional_attributes",
          VObj [ ("abha_addresses", VArr [VStr ""; VStr "asha@abdm"]) ]) ].

(** A record with strings, objects with and without an address, repeats
    and items of other types. *)
Definition mixedAddressRecord : value :=
  VObj [ ("abha_ref", VStr "AB1234");
         ("additional_attributes",
          VObj [ ("abha_addresses",
                  VArr [ VStr "asha@abdm";
                         VObj [("address", VStr "rao@abdm")];
                         VNum 7;
                         VStr "asha@abdm";
                         VObj [("id", VNum 3)];
                         VNull ]) ]) ].

(* ===================================================================== *)
(** ** The rest of the component: state, handlers and effects *)
(* ===================================================================== *)

(** The [useState] cells as [App] starts. The cell [apiPatients] is written
    once by the loading effect and read nowhere; it is left out. *)
Definition initialState : AppState :=
  {| forms := [];
     selectedIndex := (-1)%Z;
     form := None;
     practitioner := GLOBAL_PRACTITIONER;
     physicalText := "";
     generalNotes := "";
     generalPain := false;
     lifestyle := [ {| li_label := "Smoking"; li_value := VBool false |} ];
     vitals := {| hr := ""; systolic := ""; diastolic := ""; temp := ""; spo2 := "" |};
     body := {| height := ""; weight := ""; bmi := "" |};
     bundleJson := None;
     message := "" |}.

Definition setForms (c : AppState) (l : list Form) : AppState :=
  {| forms := l; selectedIndex := selectedIndex c; form := form c;
     practitioner := practitioner c; physicalText := physicalText c;
     generalNotes := generalNotes c; generalPain := generalPain c;
     lifestyle := lifestyle c; vitals := vitals c; body := body c;
     bundleJson := bundleJson c; message := message c |}.

Definition setSelectedIndex (c : AppState) (i : Z) : AppState :=
  {| forms := forms c; selectedIndex := i; form := form c;
     practitioner := practitioner c; physicalText := physicalText c;
     generalNotes := generalNotes c; generalPain := generalPain c;
     lifestyle := lifestyle c; vitals := vitals c; body := body c;
     bundleJson := bundleJson c; message := message c |}.

Definition setForm (c : AppState) (f : option Form) : AppState :=
  {| forms := forms c; selectedIndex := selectedIndex c; form := f;
     practitioner := practitioner c; physicalText := physicalText c;
     generalNotes := generalNotes c; generalPain := generalPain c;
     lifestyle := lifestyle c; vitals := vitals c; body := body c;
     bundleJson := bundleJson c; message := message c |}.

Definition setPractitioner (c : AppState) (p : PractitionerInput) : AppState :=
  {| forms := forms c; selectedIndex := selectedIndex c; form := form c;
     practitioner := p; physicalText := physicalText c;
     generalNotes := generalNotes c; generalPain := generalPain c;
     lifestyle := lifestyle c; vitals := vitals c; body := body c;
     bundleJson := bundleJson c; message := message c |}.

Definition setPhysicalText (c : AppState) (s : string) : AppState :=
  {| forms := forms c; selectedIndex := selectedIndex c; form := form c;
     practitioner := practitioner c; physicalText := s;
     generalNotes := generalNotes c; generalPain := generalPain c;
     lifestyle := lifestyle c; vitals := vitals c; body := body c;
     bundleJson := bundleJson c; message := message c |}.

Definition setGeneralNotes (c : AppState) (s : string) : AppState :=
  {| forms := forms c; selectedIndex := selectedIndex c; form := form c;
     practitioner := practitioner c; physicalText := physicalText c;
     generalNotes := s; generalPain := generalPain c;
     lifestyle := lifestyle c; vitals := vitals c; body := body c;
     bundleJson := bundleJson c; message := message c |}.

Definition setGeneralPain (c : AppState) (b : bool) : AppState :=
  {| forms := forms c; selectedIndex := selectedIndex c; form := form c;
     practitioner := practitioner c; physicalText := physicalText c;
     generalNotes := generalNotes c; generalPain := b;
     lifestyle := lifestyle c; vitals := vitals c; body := body c;
     bundleJson := bundleJson c; message := message c |}.

Definition setLifestyle (c : AppState) (l : list LifestyleRow) : AppState :=
  {| forms := forms c; selectedIndex := selectedIndex c; form := form c;
     practitioner := practitioner c; physicalText := physicalText c;
     generalNotes := generalNotes c; generalPain := generalPain c;
     lifestyle := l; vitals := vitals c; body := body c;
     bundleJson := bundleJson c; message := message c |}.

Definition setVitals (c : AppState) (v : Vitals) : AppState :=
  {| forms := forms c; selectedIndex := selectedIndex c; form := form c;
     practitioner := practitioner c; physicalText := physicalText c;
     generalNotes := generalNotes c; generalPain := generalPain c;
     lifestyle := lifestyle c; vitals := v; body := body c;
     bundleJson := bundleJson c; message := message c |}.

Definition setBody (c : AppState) (b : Body) : AppState :=
  {| forms := forms c; selectedIndex := selectedIndex c; form := form c;
     practitioner := practitioner c; physicalText := physicalText c;
     generalNotes := generalNotes c; generalPain := generalPain c;
     lifestyle := lifestyle c; vitals := vitals c; body := b;
     bundleJson := bundleJson c; message := message c |}.

(** *** Selecting a person *)

(** [{ ...f, selectedAbhaAddress: v }] *)
Definition withSelected (f : Form) (v : value) : Form :=
  {| api := api f; resourceId := resourceId f; displayName := displayName f;
     gender := gender f; birthDate := birthDate f; mobile := mobile f;
     address := address f; abhaRef := abhaRef f; abhaAddresses := abhaAddresses f;
     selectedAbhaAddress := v; mrn := mrn f |}.

(** [f.abhaAddresses && f.abhaAddresses[0]]: the list is an array, hence
    truthy; its first item is [undefined] when it is empty. *)
Definition firstAddress (f : Form) : value :=
  match abhaAddresses f with
  | [] => VUndefined
  | a :: _ => VStr a
  end.

(** [(f.abhaAddresses && f.abhaAddresses[0]) || f.abhaRef || ""] *)
Definition defaultAbhaAddress (f : Form) : value :=
  or_else (or_else (firstAddress f) (abhaRef f)) (VStr "").

(** [forms[selectedIndex]] *)
Definition formAt (l : list Form) (i : Z) : option Form :=
  if (0 <=? i)%Z then nth_error l (Z.to_nat i) else None.

(** The effect on [selectedIndex] and [forms] (lines 322-327). *)
Definition selectionEffect (c : AppState) : AppState :=
  if (0 <=? selectedIndex c)%Z
  then match formAt (forms c) (selectedIndex c) with
       | Some f => setForm c (Some (withSelected f (defaultAbhaAddress f)))
       | None => c
       end
  else c.

(** *** Loading the list of persons *)

(** The message of a failed load (its dash in UTF-8 bytes). *)
Definition MSG_LOAD_FAILED : string :=
  "Failed to load patients.json — place the file in public/patients.json and reload.".

(** [arr.map(mapApiToForm)]: the first TypeError ends the mapping. *)
Fixpoint mapForms (arr : list value) : option (list Form) :=
  match arr with
  | [] => Some []
  | apiP :: rest =>
      match mapApiToForm apiP with
      | Some f =>
          match mapForms rest with
          | Some fs => Some (f :: fs)
          | None => None
          end
      | None => None
      end
  end.

(** [Array.isArray(data) ? data : data?.data ?? []] *)
Definition patientArray (data : value) : value :=
  match data with
  | VArr _ => data
  | _ => match get_opt data "data" with
         | VUndefined | VNull => VArr []
         | d => d
         end
  end.

(** The body of the loading effect (lines 304-318), once the fetch is
    over: [fetched] is the parsed answer, [None] when [fetch] or
    [res.json()] rejected. Every exception goes to the [catch]: those two,
    [arr.map] on what is not an array, a TypeError in [mapApiToForm]. *)
Definition loadPatients (fetched : option value) (c : AppState) : AppState :=
  match fetched with
  | None => setMessage c MSG_LOAD_FAILED
  | Some data =>
      match patientArray data with
      | VArr arr =>
          match mapForms arr with
          | Some mapped =>
              let c := setForms c mapped in
              match mapped with
              | [] => c
              | first :: _ =>
                  let c := setSelectedIndex c 0%Z in
                  setForm c (Some (withSelected first (defaultAbhaAddress first)))
              end
          | None => setMessage c MSG_LOAD_FAILED
          end
      | _ => setMessage c MSG_LOAD_FAILED
      end
  end.

(** Whether the load replaced [forms] (by [setForms(mapped)]). *)
Definition loadSucceeds (fetched : option value) : bool :=
  match fetched with
  | Some data =>
      match patientArray data with
      | VArr arr => match mapForms arr with Some _ => true | None => false end
      | _ => false
      end
  | None => false
  end.

(** *** Editing the form *)

(** The fields the inputs of the form edit. *)
Inductive FormField : Type :=
| F_displayName
| F_gender
| F_birthDate
| F_mobile
| F_address
| F_abhaRef
| F_mrn
| F_selectedAbhaAddress.

(** [{ ...p, [field]: value }] with the string of an input. *)
Definition setField (p : Form) (field : FormField) (v : string) : Form :=
  {| api := api p;
     resourceId := resourceId p;
     displayName := match field with F_displayName => VStr v | _ => displayName p end;
     gender := match field with F_gender => v | _ => gender p end;
     birthDate := match field with F_birthDate => v | _ => birthDate p end;
     mobile := match field with F_mobile => VStr v | _ => mobile p end;
     address := match field with F_address => VStr v | _ => address p end;
     abhaRef := match field with F_abhaRef => VStr v | _ => abhaRef p end;
     abhaAddresses := abhaAddresses p;
     selectedAbhaAddress :=
       match field with F_selectedAbhaAddress => VStr v | _ => selectedAbhaAddress p end;
     mrn := match field with F_mrn => v | _ => mrn p end |}.

(** [copy[i] = x] at an index within the array. *)
Fixpoint replaceAt {A : Type} (i : nat) (x : A) (l : list A) : list A :=
  match l, i with
  | [], _ => []
  | _ :: r, O => x :: r
  | y :: r, S k => y :: replaceAt k x r
  end.

(** [updateFormField] (lines 329-336). Its callers are the inputs shown
    while a form is selected; with no form the spread of [null] gives an
    object that is no form: [None]. *)
Definition updateFormField (field : FormField) (v : string) (c : AppState)
  : option AppState :=
  match form c with
  | None => None
  | Some p =>
      let c1 := setForm c (Some (setField p field v)) in
      Some (setForms c1
              (match formAt (forms c) (selectedIndex c) with
               | Some old => replaceAt (Z.to_nat (selectedIndex c))
                               (setField old field v) (forms c)
               | None => forms c
               end))
  end.

(** The options of the address select (line 522). *)
Definition abhaOptions (f : Form) : list value :=
  match abhaAddresses f with
  | [] => if truthy (abhaRef f) then [abhaRef f] else []
  | l => map VStr l
  end.

(** *** Lifestyle rows *)

Definition addLifestyle (c : AppState) : AppState :=
  setLifestyle c (lifestyle c ++ [ {| li_label := ""; li_value := VStr "" |} ])%list.

(** [s.filter((_, idx) => idx !== i)] *)
Fixpoint removeAt {A : Type} (i : nat) (l : list A) : list A :=
  match l, i with
  | [], _ => []
  | _ :: r, O => r
  | y :: r, S k => y :: removeAt k r
  end.

Definition removeLifestyle (i : nat) (c : AppState) : AppState :=
  setLifestyle c (if Nat.ltb 1 (List.length (lifestyle c))
                  then removeAt i (lifestyle c) else lifestyle c).

(** The field [updateLifestyle] sets, with its new content: a label is the
    string of an input, a value a boolean or a string. *)
Inductive RowUpdate : Type :=
| SetLabel (s : string)
| SetValue (v : value).

Definition applyRowUpdate (li : LifestyleRow) (u : RowUpdate) : LifestyleRow :=
  match u with
  | SetLabel s => {| li_label := s; li_value := li_value li |}
  | SetValue v => {| li_label := li_label li; li_value := v |}
  end.

(** [updateLifestyle] (lines 344-350) on a row the form shows; beyond the
    rows the assignment would extend the array with a row that has one
    field only: [None]. *)
Definition updateLifestyle (i : nat) (u : RowUpdate) (c : AppState) : option AppState :=
  match nth_error (lifestyle c) i with
  | Some li => Some (setLifestyle c (replaceAt i (applyRowUpdate li u) (lifestyle c)))
  | None => None
  end.

(** What the value input of a row shows (line 581); the rows hold booleans
    and strings only. *)
Definition valueInputText (v : value) : option string :=
  match v with
  | VBool true => Some "true"
  | VBool false => Some "false"
  | VStr s => Some s
  | _ => None
  end.

(** What typing [v] into the value input stores (lines 582-584). *)
Definition valueInputChange (v : string) : value :=
  if String.eqb v "true" || String.eqb v "false"
  then VBool (String.eqb v "true")
  else VStr v.

(** *** The other inputs, and the preview *)

Inductive VitalField : Type :=
| V_hr
| V_systolic
| V_diastolic
| V_temp
| V_spo2.

(** [{ ...vitals, [which]: text }] *)
Definition editVitals (v : Vitals) (which : VitalField) (text : string) : Vitals :=
  {| hr := match which with V_hr => text | _ => hr v end;
     systolic := match which with V_systolic => text | _ => systolic v end;
     diastolic := match which with V_diastolic => text | _ => diastolic v end;
     temp := match which with V_temp => text | _ => temp v end;
     spo2 := match which with V_spo2 => text | _ => spo2 v end |}.

Inductive BodyField : Type :=
| B_height
| B_weight
| B_bmi.

Definition editBody (b : Body) (which : BodyField) (text : string) : Body :=
  {| height := match which with B_height => text | _ => height b end;
     weight := match which with B_weight => text | _ => weight b end;
     bmi := match which with B_bmi => text | _ => bmi b end |}.

(** The Reset Preview button (line 595). *)
Definition resetPreview (c : AppState) : AppState :=
  setMessage (setBundleJson c None) "".

(** *** The component as a state machine *)

(** What can happen to the component: the answer of the fetch arrives,
    or the user acts on a control. *)
Inductive Event : Type :=
| PatientsFetched (fetched : option value)
| PatientChosen (index : Z)
| FieldEdited (field : FormField) (text : string)
| PractitionerNameEdited (text : string)
| PractitionerLicenseEdited (text : string)
| VitalEdited (which : VitalField) (text : string)
| BodyEdited (which : BodyField) (text : string)
| PhysicalTextEdited (text : string)
| GeneralNotesEdited (text : string)
| PainToggled (checked : bool)
| LifestyleAdded
| LifestyleRemoved (i : nat)
| LifestyleLabelEdited (i : nat) (text : string)
| LifestyleValueEdited (i : nat) (text : string)
| GenerateClicked
| ResetClicked.

(** The handler of an event; [None] when the control is not on the page:
    a form input with no form, a row that is not there, an option the
    person select does not offer. *)
Definition handle (rt : Runtime) (ev : Event) (c : AppState) : M (option AppState) :=
  match ev with
  | PatientsFetched fetched => ret (Some (loadPatients fetched c))
  | PatientChosen index =>
      ret (if match forms c with
              | [] => Z.eqb index (-1)
              | _ => (0 <=? index)%Z && (index <? Z.of_nat (List.length (forms c)))%Z
              end
           then Some (setSelectedIndex c index) else None)
  | FieldEdited field text => ret (updateFormField field text c)
  | PractitionerNameEdited text =>
      ret (Some (setPractitioner c {| loginId := loginId (practitioner c); name := text;
                                      license := license (practitioner c) |}))
  | PractitionerLicenseEdited text =>
      ret (Some (setPractitioner c {| loginId := loginId (practitioner c);
                                      name := name (practitioner c); license := text |}))
  | VitalEdited which text => ret (Some (setVitals c (editVitals (vitals c) which text)))
  | BodyEdited which text => ret (Some (setBody c (editBody (body c) which text)))
  | PhysicalTextEdited text => ret (Some (setPhysicalText c text))
  | GeneralNotesEdited text => ret (Some (setGeneralNotes c text))
  | PainToggled checked => ret (Some (setGeneralPain c checked))
  | LifestyleAdded => ret (Some (addLifestyle c))
  | LifestyleRemoved i =>
      ret (if Nat.ltb i (List.length (lifestyle c)) then Some (removeLifestyle i c) else None)
  | LifestyleLabelEdited i text => ret (updateLifestyle i (SetLabel text) c)
  | LifestyleValueEdited i text => ret (updateLifestyle i (SetValue (valueInputChange text)) c)
  | GenerateClicked => c' <- generateBundle rt c ;; ret (Some c')
  | ResetClicked => ret (Some (resetPreview c))
  end.

(** Whether the event leaves React a new [forms] array or another
    [selectedIndex], the dependencies of the selection effect. *)
Definition selectionRuns (ev : Event) (c c' : AppState) : bool :=
  match ev with
  | PatientsFetched fetched => loadSucceeds fetched
  | FieldEdited _ _ => true
  | _ => false
  end
  || negb (Z.eqb (selectedIndex c') (selectedIndex c)).

(** An event, then the selection effect when its dependencies changed. *)
Definition dispatch (rt : Runtime) (ev : Event) (c : AppState) : M (option AppState) :=
  r <- handle rt ev c ;;
  ret (match r with
       | Some c' => Some (if selectionRuns ev c c' then selectionEffect c' else c')
       | None => None
       end).

(** The states the component can be in: [loaded] tells whether the answer
    of the fetch has arrived (the loading effect runs once). *)
Inductive reachable (rt : Runtime) : bool -> AppState -> World -> Prop :=
| reach_start (w : World) : reachable rt false initialState w
| reach_fetch (c : AppState) (w : World) (fetched : option value) (c' : AppState)
    (w' : World) :
    reachable rt false c w ->
    dispatch rt (PatientsFetched fetched) c w = (Some c', w') ->
    reachable rt true c' w'
| reach_event (loaded : bool) (c : AppState) (w : World) (ev : Event) (c' : AppState)
    (w' : World) :
    reachable rt loaded c w ->
    (forall fetched, ev <> PatientsFetched fetched) ->
    dispatch rt ev c w = (Some c', w') ->
    reachable rt loaded c' w'.

(** The form shown is the chosen entry of [forms] with the default
    address selected; with no form, no person is loaded. *)
Definition settled (c : AppState) : Prop :=
  match form c with
  | None => forms c = [] /\ selectedIndex c = (-1)%Z
  | Some f =>
      exists f0, formAt (forms c) (selectedIndex c) = Some f0
                 /\ f = withSelected f0 (defaultAbhaAddress f0)
  end.

(** A lifestyle value is a boolean or a string. *)
Definition boolOrString (v : value) : Prop :=
  (exists b, v = VBool b) \/ (exists s, v = VStr s).

(** What holds of every state of the component. *)
Definition stateInvariant (loaded : bool) (c : AppState) : Prop :=
  settled c
  /\ lifestyle c <> []
  /\ Forall (fun li => boolOrString (li_value li)) (lifestyle c)
  /\ (loaded = false -> forms c = []).

(** Two states hold the same inputs of a generation. *)
Definition sameInputs (c c' : AppState) : Prop :=
  forms c' = forms c /\ selectedIndex c' = selectedIndex c /\ form c' = form c
  /\ practitioner c' = practitioner c /\ physicalText c' = physicalText c
  /\ generalNotes c' = generalNotes c /\ generalPain c' = generalPain c
  /\ lifestyle c' = lifestyle c /\ vitals c' = vitals c /\ body c' = body c.

(** [p[field]] as the input shows it. *)
Definition getField (p : Form) (field : FormField) : value :=
  match field with
  | F_displayName => displayName p
  | F_gender => VStr (gender p)
  | F_birthDate => VStr (birthDate p)
  | F_mobile => mobile p
  | F_address => address p
  | F_abhaRef => abhaRef p
  | F_mrn => VStr (mrn p)
  | F_selectedAbhaAddress => selectedAbhaAddress p
  end.


Definition narrativeOf (r : Resource) : Narrative :=
  match r with
  | RComposition c => comp_text c
  | RPatient p => pat_text p
  | RPractitioner p => prac_text p
  | RObservation o => obs_text o
  end.

(** A narrative that profile validation accepts: generated, with text. *)
Definition narrativePresent (n : Narrative) : Prop :=
  nar_status n = "generated" /\ nar_div n <> ""
  /\ exists body, nar_div n = div_open ++ body ++ "</div>".

(** An observation that is final and classified by one coding, of LOINC
    or SNOMED CT. *)
Definition codedObservation (o : Observation) : Prop :=
  obs_status o = "final"
  /\ exists c, cc_coding (obs_code o) = Some [c]
               /\ (coding_system c = "http://loinc.org"
                   \/ coding_system c = "http://snomed.info/sct")
               /\ coding_code c <> ""
  /\ exists t, cc_text (obs_code o) = Some t.

(** A narrative whose paragraph is not empty. *)
Definition paragraphNarrative (n : Narrative) : Prop :=
  nar_status n = "generated"
  /\ exists body, body <> "" /\ nar_div n = div_open ++ ("<p>" ++ body ++ "</p>") ++ "</div>".

Definition observationOf (e : BundleEntry) : list Observation :=
  match resource e with
  | RObservation o => [o]
  | _ => []
  end.

(** The observations of a bundle, in the order of its entries. *)
Definition bundleObservations (b : Bundle) : list Observation :=
  flat_map observationOf (bundle_entry b).

(** The feed of scenario A, and the component once it has arrived. *)
Definition sampleFeed : value := VObj [ ("data", VArr [sampleRecord]) ].

Definition loadedState : AppState := loadPatients (Some sampleFeed) initialState.

(** The inputs a run reads, the list of persons apart. *)
Definition sameForm (c c' : AppState) : Prop :=
  form c' = form c /\ practitioner c' = practitioner c
  /\ physicalText c' = physicalText c /\ generalNotes c' = generalNotes c
  /\ generalPain c' = generalPain c /\ lifestyle c' = lifestyle c
  /\ vitals c' = vitals c /\ body c' = body c.

(** The events that write the preview. *)
Definition writesPreview (ev : Event) : bool :=
  match ev with
  | GenerateClicked | ResetClicked => true
  | _ => false
  end.

(** A string of white space only. *)
Fixpoint allWhite (s : string) : bool :=
  match s with
  | EmptyString => true
  | String c r => isWhiteSpace c && allWhite r
  end.

(** Four characters, [-], two or more, [-], two or more. *)
Definition dateShaped (s : string) : Prop :=
  exists y m d,
    s = y ++ "-" ++ m ++ "-" ++ d
    /\ String.length y = 4 /\ 2 <= String.length m /\ 2 <= String.length d.

(** The observations [l] carry, in order, the readings of the clock from
    reading [d0] on, one each, and the world [w] has counted them. *)
Definition stamped (rt : Runtime) (d0 : nat) (l : list Observation) (w : World) : Prop :=
  map obs_effectiveDateTime l = map (now_at rt) (seq d0 (List.length l))
  /\ date_calls w = d0 + List.length l.

(* ===================================================================== *)
(** * Properties *)
(* ===================================================================== *)

(** ** Lists and strings *)

Lemma mem_In (x : string) (l : list string) : mem x l = true <-> In x l.
Proof.
  induction l as [|y r IH]; simpl.
  - split; [discriminate | tauto].
  - rewrite orb_true_iff, IH, String.eqb_eq. split; intros [H|H]; auto.
Qed.

Lemma mem_false (x : string) (l : list string) : mem x l = false <-> ~ In x l.
Proof.
  rewrite <- mem_In. destruct (mem x l); split; congruence.
Qed.

Lemma distinct_NoDup (l : list string) : distinct l = true -> NoDup l.
Proof.
  induction l as [|x r IH]; simpl; intros H.
  - constructor.
  - apply andb_true_iff in H as [H1 H2]. constructor; auto.
    apply mem_false. now apply negb_true_iff.
Qed.

Lemma str_or_empty (a : string) : str_or a "" = a.
Proof. unfold str_or. destruct (String.eqb_spec a ""); congruence. Qed.

Lemma urn_inj (a b : string) : urn a = urn b -> a = b.
Proof. unfold urn. simpl. intros H. now injection H. Qed.

(** ** The person builder *)

Lemma buildFhirPatient_id (rt : Runtime) (f : Form) (w : World) :
  (isUuid (VStr (resourceId f)) = true
   /\ pat_id (fst (buildFhirPatient rt f w)) = toLowerCase (resourceId f)
   /\ snd (buildFhirPatient rt f w) = w)
  \/ (isUuid (VStr (resourceId f)) = false
      /\ pat_id (fst (buildFhirPatient rt f w)) = uuidv4_at rt (uuid_calls w)
      /\ snd (buildFhirPatient rt f w)
         = {| uuid_calls := S (uuid_calls w); date_calls := date_calls w |}).
Proof.
  unfold buildFhirPatient, bind.
  destruct (isUuid (VStr (resourceId f))) eqn:E.
  - left. destruct (String.eqb_spec (resourceId f) "") as [e|_].
    + rewrite e in E. discriminate.
    + simpl. auto.
  - right. rewrite andb_false_r. simpl. auto.
Qed.

(** C3. For every form the person resource has a non-empty identifier
    list: one identifier per present identity source (external health id,
    selected external health address, local record number), in this order,
    typed PI, PN and MR with a label and a display text; and when none of
    the three is present, exactly one identifier labelled "generated-id"
    whose value is the identity of the resource. *)
Theorem person_identifiers (rt : Runtime) (f : Form) (w : World) :
  let p := fst (buildFhirPatient rt f w) in
  pat_identifier p <> []
  /\ Forall labelled (pat_identifier p)
  /\ map identifierSummary (pat_identifier p)
     = match identitySources f with
       | [] => [(pat_id p, ["PI"], Some "generated-id")]
       | sources => map sourceIdentifier sources
       end.
Proof.
  assert (L : forall code d t, d <> "" -> t <> "" ->
            forall sys v, labelled {| id_system := sys; id_value := v;
                                      id_type := id_type_of code d t |}).
  { intros code d t Hd Ht sys v. split.
    - exists t. split; [reflexivity | assumption].
    - eexists. split; [reflexivity |]. exists d. split; [reflexivity | assumption]. }
  unfold buildFhirPatient, bind, identitySources.
  destruct (negb (resourceId f =? "") && isUuid (VStr (resourceId f)))%bool;
  simpl; destruct (truthy (abhaRef f)), (truthy (selectedAbhaAddress f)),
           (negb (mrn f =? "")); simpl;
  (split; [discriminate | split; [repeat constructor; apply L; discriminate | reflexivity]]).
Qed.

(** ** Observations and the identities they receive *)

Section Observations.

Variable rt : Runtime.
Variables patientId practitionerId : string.

Lemma generatedFrom_nil (w : World) : generatedFrom rt patientId practitionerId w [] w.
Proof.
  repeat split; simpl; auto.
Qed.

Lemma generatedFrom_app (w0 w1 w2 : World) (l1 l2 : list Observation) :
  generatedFrom rt patientId practitionerId w0 l1 w1 -> generatedFrom rt patientId practitionerId w1 l2 w2 ->
  generatedFrom rt patientId practitionerId w0 (l1 ++ l2) w2.
Proof.
  intros (I1 & C1 & L1) (I2 & C2 & L2). repeat split.
  - rewrite map_app, length_app, I1, I2. unfold coined.
    rewrite seq_app, map_app, C1. reflexivity.
  - rewrite length_app. lia.
  - apply Forall_app. auto.
Qed.

Lemma generatedFrom_one (w w' : World) (o : Observation) :
  obs_id o = uuidv4_at rt (uuid_calls w) ->
  uuid_calls w' = S (uuid_calls w) ->
  wellLinked patientId practitionerId o ->
  generatedFrom rt patientId practitionerId w [o] w'.
Proof.
  intros Hid Hw Hl. repeat split; simpl.
  - now rewrite Hid.
  - lia.
  - constructor; auto.
Qed.

(** *** Vital measurements *)

Lemma buildVitalObservation_absent (codeText : string) (quantity : value)
    (unit loincCode : string) (w : World) :
  noQuantity quantity = true ->
  buildVitalObservation rt patientId practitionerId codeText quantity unit loincCode w
  = (None, w).
Proof.
  intros H. unfold buildVitalObservation. now rewrite H.
Qed.

Lemma buildVitalObservation_present (codeText : string) (quantity : value)
    (unit loincCode : string) (w : World) :
  noQuantity quantity = false ->
  exists o w',
    buildVitalObservation rt patientId practitionerId codeText quantity unit loincCode w
    = (Some o, w')
    /\ obs_id o = uuidv4_at rt (uuid_calls w)
    /\ uuid_calls w' = S (uuid_calls w)
    /\ wellLinked patientId practitionerId o
    /\ cc_text (obs_code o) = Some codeText
    /\ obs_value o = valueQuantity {| q_value := Number quantity; q_unit := unit;
                                      q_system := "http://unitsofmeasure.org";
                                      q_code := unit |}
    /\ quantityOnly o.
Proof.
  intros H. unfold buildVitalObservation. rewrite H.
  unfold bind, uuidv4, nowISO, ret. do 2 eexists. split; [reflexivity |].
  simpl. rewrite str_or_empty.
  repeat split; try reflexivity.
  now destruct (negb (loincCode =? "")).
Qed.

Lemma when_filled_vital (codeText q unit loincCode : string) (w : World) :
  when_filled q
    (buildVitalObservation rt patientId practitionerId codeText (VStr q) unit loincCode) w
  = buildVitalObservation rt patientId practitionerId codeText (VStr q) unit loincCode w.
Proof.
  unfold when_filled. destruct (String.eqb_spec q "") as [->|]; simpl; [| reflexivity].
  now rewrite buildVitalObservation_absent.
Qed.

Lemma vitals_step (w0 w : World) (done : list (string * string * string * string))
    (acc : list Observation) (codeText q unit loincCode : string) :
  vitalsDone rt patientId practitionerId w0 done acc w ->
  vitalsDone rt patientId practitionerId w0 (done ++ [(codeText, q, unit, loincCode)])
    (push_if acc (fst (buildVitalObservation rt patientId practitionerId codeText
                         (VStr q) unit loincCode w)))
    (snd (buildVitalObservation rt patientId practitionerId codeText
            (VStr q) unit loincCode w)).
Proof.
  intros (G & S & Q).
  destruct (String.eqb_spec q "") as [->|Hq].
  - rewrite buildVitalObservation_absent by reflexivity. simpl.
    split; [exact G | split; [| exact Q]].
    rewrite filter_app. simpl. now rewrite app_nil_r.
  - destruct (buildVitalObservation_present codeText (VStr q) unit loincCode w)
      as (o & w' & E & Hid & Hw & Hl & Ht & Hv & Hk).
    { simpl. now apply String.eqb_neq. }
    rewrite E. simpl. unfold push. split; [| split].
    + eapply generatedFrom_app; [exact G |]. now apply generatedFrom_one.
    + rewrite filter_app, !map_app, S. simpl.
      apply String.eqb_neq in Hq. rewrite Hq. simpl.
      unfold vitalSummary, quantityOf. now rewrite Ht, Hv.
    + apply Forall_app. split; [exact Q | now constructor].
Qed.

(** *** Physical activity and general assessment *)

Lemma buildPhysicalActivityObs_spec (text : string) (w : World) :
  exists o w',
    buildPhysicalActivityObs rt patientId practitionerId text w = (o, w')
    /\ obs_id o = uuidv4_at rt (uuid_calls w)
    /\ uuid_calls w' = S (uuid_calls w)
    /\ wellLinked patientId practitionerId o
    /\ plainObservation o.
Proof.
  unfold buildPhysicalActivityObs, bind, uuidv4, nowISO, ret.
  do 2 eexists. split; [reflexivity |]. simpl. repeat split.
Qed.

Lemma buildGeneralAssessmentObs_spec (notes : string) (pain : bool) (w : World) :
  exists o w',
    buildGeneralAssessmentObs rt patientId practitionerId notes pain w = (o, w')
    /\ obs_id o = uuidv4_at rt (uuid_calls w)
    /\ uuid_calls w' = S (uuid_calls w)
    /\ wellLinked patientId practitionerId o
    /\ plainObservation o.
Proof.
  unfold buildGeneralAssessmentObs, bind, uuidv4, nowISO, ret.
  do 2 eexists. split; [reflexivity |]. simpl. repeat split.
Qed.

(** *** Lifestyle rows *)

Lemma buildLifestyleObs_spec (li : LifestyleRow) (w : World) :
  exists o w',
    buildLifestyleObs rt patientId practitionerId (str_or (li_label li) "Lifestyle")
      (li_value li) w = (o, w')
    /\ obs_id o = uuidv4_at rt (uuid_calls w)
    /\ uuid_calls w' = S (uuid_calls w)
    /\ wellLinked patientId practitionerId o
    /\ lifestyleSummary o = rowExpected li
    /\ lifestyleOnly o.
Proof.
  unfold buildLifestyleObs, bind, uuidv4, nowISO, ret.
  do 2 eexists. split; [reflexivity |]. simpl. repeat split.
  unfold lifestyleSummary, rowExpected, rowLabel, rowValueText, valueTextOf, str_or, or_else.
  simpl. f_equal.
  - destruct (String.eqb_spec (li_label li) ""); [reflexivity |].
    destruct (String.eqb_spec (li_label li) ""); congruence.
  - destruct (li_value li) as [| | [|] | n | s | l | l]; simpl; try reflexivity.
    + now destruct (negb (n =? 0)%Z).
    + now destruct (negb (s =? "")).
Qed.

Lemma lifestyleLoop_spec (rows : list LifestyleRow) :
  forall (acc : list Observation) (w : World),
  exists life w',
    lifestyleLoop rt patientId practitionerId rows acc w = ((acc ++ life)%list, w')
    /\ generatedFrom rt patientId practitionerId w life w'
    /\ map lifestyleSummary life = map rowExpected (filter rowKept rows)
    /\ Forall lifestyleOnly life
    /\ List.length life <= List.length rows.
Proof.
  induction rows as [|li rest IH]; intros acc w; simpl.
  - exists [], w. rewrite app_nil_r. repeat split; auto using generatedFrom_nil.
  - unfold rowKept at 1, rowDropped. fold (noValue (li_value li)).
    destruct ((li_label li =? "") && noValue (li_value li))%bool; simpl.
    + destruct (IH acc w) as (life & w' & E & G & S & K & L).
      exists life, w'. intuition lia.
    + unfold bind.
      destruct (buildLifestyleObs_spec li w) as (o & w1 & E1 & Hid & Hw & Hl & Hs & Hk).
      rewrite E1.
      destruct (IH (push acc o) w1) as (life & w' & E & G & S & K & L).
      exists (o :: life), w'. rewrite E. unfold push. rewrite <- app_assoc. simpl.
      split; [reflexivity |]. split; [| split; [| split]]; auto.
      * change (o :: life) with ([o] ++ life)%list.
        eapply generatedFrom_app; [| exact G]. now apply generatedFrom_one.
      * now rewrite Hs, S.
      * lia.
Qed.

End Observations.

(** ** The observations of a run *)

Ltac vital_step H :=
  try rewrite when_filled_vital;
  match goal with
  | |- context [buildVitalObservation ?rt ?p ?q ?l (VStr ?x) ?u ?k ?w] =>
      let V := fresh "V" in
      pose proof (vitals_step rt p q _ w _ _ l x u k H) as V;
      destruct (buildVitalObservation rt p q l (VStr x) u k w) as [? ?];
      cbn [fst snd] in V; clear H; rename V into H; cbv beta iota zeta
  end.

Lemma collectObservations_spec (rt : Runtime) (c : AppState)
    (patientId practitionerId : string) (w : World) :
  exists vit phys gen life w',
    collectObservations rt c patientId practitionerId w
    = ((vit ++ phys :: gen :: life)%list, phys, gen, w')
    /\ generatedFrom rt patientId practitionerId w (vit ++ phys :: gen :: life) w'
    /\ map vitalSummary vit = map vitalExpected (filter vitalFilled (vitalInputs c))
    /\ Forall quantityOnly vit
    /\ plainObservation phys /\ plainObservation gen
    /\ map lifestyleSummary life = map rowExpected (filter rowKept (lifestyle c))
    /\ Forall lifestyleOnly life
    /\ List.length life <= List.length (lifestyle c).
Proof.
  unfold collectObservations, bind.
  assert (H : vitalsDone rt patientId practitionerId w [] [] w).
  { split; [apply generatedFrom_nil | split; [reflexivity | constructor]]. }
  do 8 vital_step H. simpl app in H.
  match type of H with vitalsDone _ _ _ _ _ ?acc ?w1 =>
    set (vit := acc) in *;
    destruct (buildPhysicalActivityObs_spec rt patientId practitionerId
                (str_or (physicalText c) "Not provided") w1)
      as (phys & wp & E2 & I2 & C2 & L2 & K2)
  end.
  rewrite E2.
  destruct (buildGeneralAssessmentObs_spec rt patientId practitionerId
              (str_or (generalNotes c) "Not provided") (generalPain c) wp)
    as (gen & wg & E3 & I3 & C3 & L3 & K3).
  rewrite E3.
  destruct (lifestyleLoop_spec rt patientId practitionerId (lifestyle c)
              (push (push vit phys) gen) wg) as (life & w' & E & G & S & K & L).
  rewrite E. unfold ret.
  destruct H as (GV & SV & QV).
  assert (Eq : ((push (push vit phys) gen) ++ life = vit ++ phys :: gen :: life)%list).
  { unfold push. now rewrite <- !app_assoc. }
  exists vit, phys, gen, life, w'. rewrite Eq.
  split; [reflexivity |]. split; [| auto 10].
  eapply generatedFrom_app; [exact GV |].
  change (phys :: gen :: life) with ([phys] ++ [gen] ++ life)%list.
  eapply generatedFrom_app; [now apply generatedFrom_one; eauto |].
  eapply generatedFrom_app; [now apply generatedFrom_one; eauto | exact G].
Qed.

(** ** A run of [generateBundle] *)

Lemma fold_left_push {A B : Type} (g : A -> B) (l : list A) (acc : list B) :
  fold_left (fun entry o => push entry (g o)) l acc = (acc ++ map g l)%list.
Proof.
  revert acc. induction l as [|x r IH]; intros acc; simpl.
  - now rewrite app_nil_r.
  - rewrite IH. unfold push. now rewrite <- app_assoc.
Qed.

Lemma buildPractitioner_id (rt : Runtime) (p : PractitionerInput) (w : World) :
  prac_id (fst (buildPractitioner rt p w)) = uuidv4_at rt (uuid_calls w)
  /\ uuid_calls (snd (buildPractitioner rt p w)) = S (uuid_calls w).
Proof. split; reflexivity. Qed.

Lemma buildFhirPatient_calls (rt : Runtime) (f : Form) (w : World) :
  uuid_calls w <= uuid_calls (snd (buildFhirPatient rt f w)) <= S (uuid_calls w).
Proof.
  destruct (buildFhirPatient_id rt f w) as [(_ & _ & ->) | (_ & _ & ->)]; simpl; lia.
Qed.

Lemma ready_inv (c : AppState) :
  ready c = true ->
  exists f, form c = Some f
            /\ (negb (truthy (selectedAbhaAddress f)) && negb (truthy (abhaRef f)))%bool = false
            /\ ((name (practitioner c) =? "") || (license (practitioner c) =? ""))%bool = false.
Proof.
  unfold ready, hasHealthIdentity, attesterComplete.
  destruct (form c) as [f|]; [| discriminate].
  intros H. exists f. split; [reflexivity |].
  destruct (truthy (abhaRef f)), (truthy (selectedAbhaAddress f)),
    (name (practitioner c) =? ""), (license (practitioner c) =? ""); simpl in *; auto;
    discriminate.
Qed.

Lemma generateBundle_ready (rt : Runtime) (c : AppState) (w : World) :
  ready c = true ->
  exists f pat w1 prac w2 vit phys gen life w3 comp b,
    form c = Some f
    /\ buildFhirPatient rt f w = (pat, w1)
    /\ buildPractitioner rt (practitioner c) w1 = (prac, w2)
    /\ collectObservations rt c (pat_id pat) (prac_id prac) w2
       = ((vit ++ phys :: gen :: life)%list, phys, gen, w3)
    /\ bundleOf rt c w = Some b
    /\ bundle_entry b
       = map entryOf (RComposition comp :: RPatient pat :: RPractitioner prac
                      :: map RObservation (vit ++ phys :: gen :: life))
    /\ generatedFrom rt (pat_id pat) (prac_id prac) w2 (vit ++ phys :: gen :: life) w3
    /\ map vitalSummary vit = map vitalExpected (filter vitalFilled (vitalInputs c))
    /\ Forall quantityOnly vit
    /\ plainObservation phys /\ plainObservation gen
    /\ map lifestyleSummary life = map rowExpected (filter rowKept (lifestyle c))
    /\ Forall lifestyleOnly life
    /\ List.length life <= List.length (lifestyle c)
    /\ comp_id comp = uuidv4_at rt (uuid_calls w3)
    /\ comp_subject comp = {| reference := urn (pat_id pat);
                              ref_display := Some (displayName f) |}
    /\ comp_author comp = [ {| reference := urn (prac_id prac);
                               ref_display := Some (VStr (name (practitioner c))) |} ]
    /\ comp_attester comp = [ {| att_mode := "official"; att_party := ref_to (prac_id prac) |} ]
    /\ comp_section comp = buildSections (vit ++ phys :: gen :: life) (Some phys) (Some gen).
Proof.
  intros R. destruct (ready_inv c R) as (f & Hf & G1 & G2).
  destruct (buildFhirPatient rt f w) as [pat w1] eqn:E1.
  destruct (buildPractitioner rt (practitioner c) w1) as [prac w2] eqn:E2.
  destruct (collectObservations_spec rt c (pat_id pat) (prac_id prac) w2)
    as (vit & phys & gen & life & w3 & E3 & F3).
  unfold bundleOf, generateBundle.
  rewrite Hf, G1, G2. unfold bind at 1. rewrite E1.
  unfold bind at 1. rewrite E2. unfold bind at 1. rewrite E3.
  unfold bind, uuidv4, buildComposition, buildBundle, nowISO, ret.
  cbn [fst snd bundleJson setMessage setBundleJson].
  exists f, pat, w1, prac, w2, vit, phys, gen, life, w3.
  exists (fst (buildComposition rt (uuidv4_at rt (uuid_calls w3)) f (practitioner c) pat prac
                 (buildSections (vit ++ phys :: gen :: life) (Some phys) (Some gen))
                 {| uuid_calls := S (uuid_calls w3); date_calls := date_calls w3 |})).
  eexists.
  split; [reflexivity |]. split; [exact E1 |]. split; [exact E2 |]. split; [exact E3 |].
  split; [reflexivity |].
  split.
  { cbn [bundle_entry]. rewrite fold_left_push. unfold push. simpl.
    rewrite map_map. reflexivity. }
  destruct F3 as (F3a & F3b & F3c & F3d & F3e & F3f & F3g & F3h).
  do 8 (split; [eassumption |]).
  repeat split.
Qed.

(** ** Sections *)

Lemma filter_all {A : Type} (p : A -> bool) (l : list A) :
  Forall (fun x => p x = true) l -> filter p l = l.
Proof.
  induction 1 as [|x r Hx _ IH]; simpl; [reflexivity |]. now rewrite Hx, IH.
Qed.

Lemma filter_none {A : Type} (p : A -> bool) (l : list A) :
  Forall (fun x => p x = false) l -> filter p l = [].
Proof.
  induction 1 as [|x r Hx _ IH]; simpl; [reflexivity |]. now rewrite Hx.
Qed.

Lemma observations_by_kind (vit life : list Observation) (phys gen : Observation) :
  Forall quantityOnly vit -> plainObservation phys -> plainObservation gen ->
  Forall lifestyleOnly life ->
  filter hasValueQuantity (vit ++ phys :: gen :: life) = vit
  /\ filter isLifestyle (vit ++ phys :: gen :: life) = life.
Proof.
  intros Hv [Hp1 Hp2] [Hg1 Hg2] Hl. rewrite !filter_app. simpl.
  rewrite Hp1, Hp2, Hg1, Hg2. split.
  - rewrite (filter_all hasValueQuantity vit), (filter_none hasValueQuantity life).
    + apply app_nil_r.
    + eapply Forall_impl; [| exact Hl]. now intros o [H _].
    + eapply Forall_impl; [| exact Hv]. now intros o [H _].
  - rewrite (filter_none isLifestyle vit), (filter_all isLifestyle life).
    + reflexivity.
    + eapply Forall_impl; [| exact Hl]. now intros o [_ H].
    + eapply Forall_impl; [| exact Hv]. now intros o [_ H].
Qed.

Lemma buildSections_shape (observations : list Observation) (physObs genObs : option Observation) :
  map sec_title (buildSections observations physObs genObs)
  = ["Vitals"; "Physical Activity"; "General Assessment"; "Lifestyle"]
  /\ Forall sectionShape (buildSections observations physObs genObs).
Proof.
  unfold buildSections, push.
  destruct (map entryRef (filter hasValueQuantity observations)) as [|v vs];
  destruct (map entryRef (filter isLifestyle observations)) as [|l ls];
  destruct physObs, genObs; simpl; (split; [reflexivity |]);
  repeat (apply Forall_cons); try apply Forall_nil;
  solve [ right; split; reflexivity
        | left; do 2 eexists; split; [reflexivity |]; simpl;
          split; [intros; try reflexivity; discriminate
                 | intros; try congruence; eexists; reflexivity] ].
Qed.

Lemma buildSections_refs (vit life : list Observation) (phys gen : Observation) :
  Forall quantityOnly vit -> plainObservation phys -> plainObservation gen ->
  Forall lifestyleOnly life ->
  flat_map sectionRefs (buildSections (vit ++ phys :: gen :: life) (Some phys) (Some gen))
  = map entryRef (vit ++ phys :: gen :: life).
Proof.
  intros Hv Hp Hg Hl.
  destruct (observations_by_kind vit life phys gen Hv Hp Hg Hl) as [Ev El].
  unfold buildSections, push. rewrite Ev, El, map_app.
  destruct vit as [|v vit], life as [|l life]; simpl;
    rewrite ?app_nil_r, <- ?app_assoc; reflexivity.
Qed.

Lemma sectionShape_content (s : Section) :
  sectionShape s ->
  sec_entry s <> Some [] /\ (sec_entry s <> None \/ sec_text s <> None).
Proof.
  intros [(r & l & E & _) | (E & T)]; rewrite E.
  - split; [discriminate | left; discriminate].
  - split; [discriminate | right; rewrite T; discriminate].
Qed.

(** ** Refusal *)

Lemma generateBundle_refused (rt : Runtime) (c : AppState) (w : World) :
  ready c = false ->
  generateBundle rt c w = (setMessage (setBundleJson (setMessage c "") None) (refusal c), w).
Proof.
  unfold ready, refusal, generateBundle, hasHealthIdentity, attesterComplete.
  destruct (form c) as [f|]; [| reflexivity].
  destruct (truthy (abhaRef f)), (truthy (selectedAbhaAddress f)); simpl;
    try reflexivity;
    destruct (name (practitioner c) =? ""), (license (practitioner c) =? "");
    simpl; try reflexivity; discriminate.
Qed.

(* ===================================================================== *)
(** ** Statements about a run of [generateBundle] *)
(* ===================================================================== *)

Lemma map_resource_entryOf (l : list Resource) : map resource (map entryOf l) = l.
Proof.
  induction l as [|r l IH]; simpl; [reflexivity | now rewrite IH].
Qed.

(** C5. Whenever a precondition of generation fails (no person selected;
    neither external-health id nor address; attester name or license
    empty), generation is refused: the state holds no bundle, the flow is
    Idle, no identity was coined, and the message names what is missing; an
    attester with an empty license is told that the practitioner name and
    license are required. *)
Theorem refused_without_preconditions (rt : Runtime) (c : AppState) (w : World) :
  ready c = false ->
  bundleOf rt c w = None
  /\ phase (fst (generateBundle rt c w)) = Idle
  /\ snd (generateBundle rt c w) = w
  /\ message (fst (generateBundle rt c w)) = refusal c
  /\ (form c = None -> refusal c = "Please select a patient.")
  /\ (forall f, form c = Some f -> hasHealthIdentity f = false ->
                refusal c = "Please select ABHA address.")
  /\ (forall f, form c = Some f -> hasHealthIdentity f = true ->
                attesterComplete (practitioner c) = false
                /\ refusal c = "Practitioner name and license required.").
Proof.
  intros R. unfold bundleOf, phase. rewrite (generateBundle_refused rt c w R). simpl.
  repeat split; unfold refusal.
  - now intros ->.
  - now intros f -> ->.
  - unfold ready in R. rewrite H in R. now rewrite H0 in R.
  - now rewrite H, H0.
Qed.

Lemma refused_without_preconditions_witness :
  ready noLicenseState = false
  /\ license (practitioner noLicenseState) = ""
  /\ bundleOf sampleRuntime noLicenseState startWorld = None
  /\ message (fst (generateBundle sampleRuntime noLicenseState startWorld))
     = "Practitioner name and license required.".
Proof.
  split; [reflexivity |]. split; [reflexivity |].
  destruct (refused_without_preconditions sampleRuntime noLicenseState startWorld eq_refl)
    as (B & _ & _ & M & _ & _ & L).
  split; [exact B |].
  rewrite M. exact (proj2 (L sampleForm eq_refl eq_refl)).
Defined.

(** C2. In every generated bundle the composition has the four sections
    Vitals, Physical Activity, General Assessment and Lifestyle, in this
    order; each carries either a non-empty list of cross-references (and a
    narrative as well unless it is Vitals) or only the narrative that
    nothing was recorded; none carries an empty list and none lacks both.
    Read in order, the sections reference the observations of the bundle in
    the order of their generation. *)
Theorem sections_have_content (rt : Runtime) (c : AppState) (w : World) :
  ready c = true ->
  exists b comp others observations,
    bundleOf rt c w = Some b
    /\ map resource (bundle_entry b) = (RComposition comp :: others ++ map RObservation observations)%list
    /\ map sec_title (comp_section comp)
       = ["Vitals"; "Physical Activity"; "General Assessment"; "Lifestyle"]
    /\ Forall sectionShape (comp_section comp)
    /\ Forall (fun s => sec_entry s <> Some []) (comp_section comp)
    /\ Forall (fun s => sec_entry s <> None \/ sec_text s <> None) (comp_section comp)
    /\ flat_map sectionRefs (comp_section comp) = map entryRef observations.
Proof.
  intros R.
  destruct (generateBundle_ready rt c w R)
    as (f & pat & w1 & prac & w2 & vit & phys & gen & life & w3 & comp & b
        & Hf & E1 & E2 & E3 & Hb & He & G & SV & QV & KP & KG & SL & QL & LL
        & Ci & Cs & Ca & Ct & Csec).
  exists b, comp, [RPatient pat; RPractitioner prac], (vit ++ phys :: gen :: life)%list.
  split; [exact Hb |]. split; [rewrite He; apply map_resource_entryOf |].
  rewrite Csec.
  destruct (buildSections_shape (vit ++ phys :: gen :: life) (Some phys) (Some gen))
    as [T Sh].
  split; [exact T |]. split; [exact Sh |].
  split; [| split].
  - eapply Forall_impl; [| exact Sh]. intros s Hs. apply (sectionShape_content s Hs).
  - eapply Forall_impl; [| exact Sh]. intros s Hs. apply (sectionShape_content s Hs).
  - now apply buildSections_refs.
Qed.

(** C9. In every generated bundle the entries are, in this order: the
    composition, the person, the attester, then the observations in the
    order they were generated: vitals, physical activity, general
    assessment, lifestyle rows, each entry under the identity coined for
    it, the observations under consecutive ones. *)
Theorem entries_in_fixed_order (rt : Runtime) (c : AppState) (w : World) :
  ready c = true ->
  exists f b comp pat w1 prac w2 vit phys gen life,
    form c = Some f
    /\ bundleOf rt c w = Some b
    /\ bundle_entry b
       = map entryOf (RComposition comp :: RPatient pat :: RPractitioner prac
                      :: map RObservation (vit ++ phys :: gen :: life))
    /\ buildFhirPatient rt f w = (pat, w1)
    /\ buildPractitioner rt (practitioner c) w1 = (prac, w2)
    /\ fst (collectObservations rt c (pat_id pat) (prac_id prac) w2)
       = ((vit ++ phys :: gen :: life)%list, phys, gen)
    /\ map obs_id (vit ++ phys :: gen :: life)
       = coined rt w2 (List.length (vit ++ phys :: gen :: life))
    /\ Forall quantityOnly vit /\ plainObservation phys /\ plainObservation gen
    /\ Forall lifestyleOnly life.
Proof.
  intros R.
  destruct (generateBundle_ready rt c w R)
    as (f & pat & w1 & prac & w2 & vit & phys & gen & life & w3 & comp & b
        & Hf & E1 & E2 & E3 & Hb & He & G & SV & QV & KP & KG & SL & QL & LL
        & Ci & Cs & Ca & Ct & Csec).
  exists f, b, comp, pat, w1, prac, w2, vit, phys, gen, life.
  rewrite E3. destruct G as (Gi & _ & _). auto 12.
Qed.

Lemma buildSections_vitals (observations : list Observation)
    (physObs genObs : option Observation) :
  exists vitalsSection sections,
    buildSections observations physObs genObs = vitalsSection :: sections
    /\ sec_title vitalsSection = "Vitals"
    /\ sectionRefs vitalsSection = map entryRef (filter hasValueQuantity observations).
Proof.
  unfold buildSections, push.
  destruct (map entryRef (filter hasValueQuantity observations)) as [|v vs];
    destruct (map entryRef (filter isLifestyle observations)) as [|l ls];
    destruct physObs, genObs; simpl;
    do 2 eexists; (split; [reflexivity |]); split; reflexivity.
Qed.

(** C4. A vital measurement whose numeric value is the empty string, null
    or undefined yields no observation, whatever its unit and code, and
    coins no identity; one with a value yields exactly one observation that
    carries the value as a quantity with the given unit. In a generated
    bundle the observations with a quantity are, in order, those of the
    vital inputs whose value is filled, and the Vitals section references
    exactly them. *)
Theorem empty_vitals_are_dropped (rt : Runtime) (c : AppState) (w : World) :
  ready c = true ->
  (forall patientId practitionerId codeText quantity unit loincCode w0,
      noQuantity quantity = true ->
      buildVitalObservation rt patientId practitionerId codeText quantity unit loincCode w0
      = (None, w0))
  /\ (forall patientId practitionerId codeText quantity unit loincCode w0,
      noQuantity quantity = false ->
      exists o w0',
        buildVitalObservation rt patientId practitionerId codeText quantity unit loincCode w0
        = (Some o, w0')
        /\ cc_text (obs_code o) = Some codeText
        /\ obs_value o = valueQuantity {| q_value := Number quantity; q_unit := unit;
                                          q_system := "http://unitsofmeasure.org";
                                          q_code := unit |})
  /\ exists b comp others observations vitalsSection sections,
       bundleOf rt c w = Some b
       /\ map resource (bundle_entry b)
          = (RComposition comp :: others ++ map RObservation observations)%list
       /\ Forall (fun r => forall o, r <> RObservation o) others
       /\ map vitalSummary (filter hasValueQuantity observations)
          = map vitalExpected (filter vitalFilled (vitalInputs c))
       /\ comp_section comp = vitalsSection :: sections
       /\ sec_title vitalsSection = "Vitals"
       /\ sectionRefs vitalsSection = map entryRef (filter hasValueQuantity observations).
Proof.
  intros R. split; [| split].
  - intros. now apply buildVitalObservation_absent.
  - intros p q t v u l w0 H.
    destruct (buildVitalObservation_present rt p q t v u l w0 H)
      as (o & w0' & E & _ & _ & _ & Ht & Hv & _).
    exists o, w0'. auto.
  - destruct (generateBundle_ready rt c w R)
      as (f & pat & w1 & prac & w2 & vit & phys & gen & life & w3 & comp & b
          & Hf & E1 & E2 & E3 & Hb & He & G & SV & QV & KP & KG & SL & QL & LL
          & Ci & Cs & Ca & Ct & Csec).
    destruct (observations_by_kind vit life phys gen QV KP KG QL) as [Ev El].
    exists b, comp, [RPatient pat; RPractitioner prac], (vit ++ phys :: gen :: life)%list.
    destruct (buildSections_vitals (vit ++ phys :: gen :: life) (Some phys) (Some gen))
      as (vs & rest & Es & Ts & Rs).
    exists vs, rest. rewrite Csec.
    split; [exact Hb |]. split; [rewrite He; apply map_resource_entryOf |].
    split; [repeat constructor; discriminate |].
    split; [rewrite Ev; exact SV |]. auto.
Qed.

(** C10. A lifestyle row whose label is empty and whose value is the empty
    string, null or undefined yields no observation; every other row yields
    exactly one, labelled by its label or by "Lifestyle" when that is empty,
    with a boolean value rendered as Yes or No and an empty other value as
    "Not provided": the lifestyle observations of a generated bundle are, in
    order, those of the rows that are kept. *)
Theorem lifestyle_rows_become_observations (rt : Runtime) (c : AppState) (w : World) :
  ready c = true ->
  (exists b comp others observations,
     bundleOf rt c w = Some b
     /\ map resource (bundle_entry b)
        = (RComposition comp :: others ++ map RObservation observations)%list
     /\ Forall (fun r => forall o, r <> RObservation o) others
     /\ map lifestyleSummary (filter isLifestyle observations)
        = map rowExpected (filter rowKept (lifestyle c)))
  /\ (forall v, rowKept {| li_label := ""; li_value := v |} = false
                <-> v = VStr "" \/ v = VNull \/ v = VUndefined)
  /\ (forall l v, l <> "" -> rowKept {| li_label := l; li_value := v |} = true)
  /\ (forall b, rowKept {| li_label := ""; li_value := VBool b |} = true
                /\ rowExpected {| li_label := ""; li_value := VBool b |}
                   = (Some "Lifestyle", Some (if b then "Yes" else "No")))
  /\ (forall l v, l <> "" -> truthy v = false -> v <> VBool false ->
                  rowExpected {| li_label := l; li_value := v |}
                  = (Some l, Some "Not provided")).
Proof.
  intros R. split; [| split; [| split; [| split]]].
  - destruct (generateBundle_ready rt c w R)
      as (f & pat & w1 & prac & w2 & vit & phys & gen & life & w3 & comp & b
          & Hf & E1 & E2 & E3 & Hb & He & G & SV & QV & KP & KG & SL & QL & LL
          & Ci & Cs & Ca & Ct & Csec).
    destruct (observations_by_kind vit life phys gen QV KP KG QL) as [Ev El].
    exists b, comp, [RPatient pat; RPractitioner prac], (vit ++ phys :: gen :: life)%list.
    split; [exact Hb |]. split; [rewrite He; apply map_resource_entryOf |].
    split; [repeat constructor; discriminate |].
    rewrite El. exact SL.
  - intros v. unfold rowKept, rowDropped. simpl.
    destruct v as [| | b | n | s | l | l]; simpl; split; intros H;
      try discriminate; auto;
      try (destruct H as [H | [H | H]]; discriminate).
    + left. f_equal. apply String.eqb_eq. now apply negb_false_iff in H.
    + destruct H as [H | [H | H]]; try discriminate. injection H as ->. reflexivity.
  - intros l v Hl. unfold rowKept, rowDropped. simpl.
    apply String.eqb_neq in Hl. now rewrite Hl.
  - intros b. split; [reflexivity | now destruct b].
  - intros l v Hl Hv Hb. unfold rowExpected, rowLabel, rowValueText. simpl.
    apply String.eqb_neq in Hl. rewrite Hl.
    destruct v as [| | [|] | n | s | l' | l']; simpl in *;
      try reflexivity; try discriminate; try congruence; now rewrite Hv.
Qed.

(** ** Coined identities are distinct, references resolve *)

Lemma coined_inj (rt : Runtime) (w : World) (n i j : nat) :
  NoDup (coined rt w n) ->
  uuid_calls w <= i < uuid_calls w + n ->
  uuid_calls w <= j < uuid_calls w + n ->
  uuidv4_at rt i = uuidv4_at rt j -> i = j.
Proof.
  intros N Hi Hj E. unfold coined in N.
  rewrite (NoDup_nth _ (uuidv4_at rt 0)) in N.
  specialize (N (i - uuid_calls w) (j - uuid_calls w)).
  rewrite length_map, length_seq, !map_nth, !seq_nth in N by lia.
  replace (uuid_calls w + (i - uuid_calls w)) with i in N by lia.
  replace (uuid_calls w + (j - uuid_calls w)) with j in N by lia.
  specialize (N ltac:(lia) ltac:(lia) E). lia.
Qed.

Lemma coined_In (rt : Runtime) (w : World) (n i : nat) :
  uuid_calls w <= i < uuid_calls w + n -> In (uuidv4_at rt i) (coined rt w n).
Proof.
  intros H. unfold coined. apply in_map. apply in_seq. lia.
Qed.

Lemma NoDup_map_coined (rt : Runtime) (w : World) (n : nat) (l : list nat) :
  NoDup (coined rt w n) -> NoDup l ->
  Forall (fun i => uuid_calls w <= i < uuid_calls w + n) l ->
  NoDup (map (uuidv4_at rt) l).
Proof.
  intros N. induction 1 as [|i l Hi Hl IH]; intros F; simpl.
  - constructor.
  - inversion F as [|? ? Fi Fl]; subst. constructor; [| auto].
    intros Hin. apply in_map_iff in Hin as (j & E & Hj).
    rewrite Forall_forall in Fl.
    assert (j = i) by (eapply coined_inj; eauto). subst. contradiction.
Qed.

Lemma resolve_unique (entries : list BundleEntry) (e : BundleEntry) :
  NoDup (map fullUrl entries) -> In e entries ->
  filter (fun x => String.eqb (fullUrl x) (fullUrl e)) entries = [e].
Proof.
  induction entries as [|a l IH]; simpl; intros N H; [contradiction |].
  inversion N as [|? ? Na Nl]; subst. destruct H as [-> | H].
  - rewrite String.eqb_refl. f_equal. apply filter_none.
    apply Forall_forall. intros x Hx. apply String.eqb_neq. intros E.
    apply Na. rewrite <- E. now apply in_map.
  - destruct (String.eqb_spec (fullUrl a) (fullUrl e)) as [E | _]; [| auto].
    exfalso. apply Na. rewrite E. now apply in_map.
Qed.

Lemma NoDup_map_urn (l : list string) : NoDup l -> NoDup (map urn l).
Proof.
  induction 1 as [|x l Hx _ IH]; simpl; constructor; [| exact IH].
  intros Hin. apply in_map_iff in Hin as (y & E & Hy).
  apply urn_inj in E. subst. contradiction.
Qed.

Lemma flat_map_map {A B C : Type} (f : A -> B) (g : B -> list C) (l : list A) :
  flat_map g (map f l) = flat_map (fun x => g (f x)) l.
Proof.
  induction l as [|x l IH]; simpl; [reflexivity | now rewrite IH].
Qed.

Lemma observationRefs_linked (patientId practitionerId : string) (l : list Observation) :
  Forall (wellLinked patientId practitionerId) l ->
  forall r, In r (flat_map observationRefs l) ->
            r = ref_to patientId \/ r = ref_to practitionerId.
Proof.
  induction 1 as [|o l [Hs Hp] _ IH]; simpl; intros r H; [contradiction |].
  unfold observationRefs in H at 1. rewrite Hs, Hp in H. simpl in H.
  destruct H as [H | [H | H]]; auto.
Qed.

(** C1. When the identities coined during a run are pairwise distinct and
    differ from a reused person identity, every cross-reference of the
    generated bundle (the composition's subject, author and attester party,
    every section entry, every observation's subject and performer) resolves
    to exactly one entry of the same bundle, each entry is filed under the
    identity of its resource, and no two resources share an identity. *)
Theorem references_resolve (rt : Runtime) (c : AppState) (w : World) (f : Form) :
  ready c = true ->
  form c = Some f ->
  NoDup (coined rt w (13 + List.length (lifestyle c))) ->
  ~ In (toLowerCase (resourceId f)) (coined rt w (13 + List.length (lifestyle c))) ->
  exists b,
    bundleOf rt c w = Some b
    /\ bundleRefs b <> []
    /\ (forall r, In r (bundleRefs b) ->
          exists e, resolve b r = [e] /\ reference r = urn (resourceIdOf (resource e)))
    /\ Forall (fun e => fullUrl e = urn (resourceIdOf (resource e))) (bundle_entry b)
    /\ NoDup (map (fun e => resourceIdOf (resource e)) (bundle_entry b)).
Proof.
  intros R Hform N Hseed.
  destruct (generateBundle_ready rt c w R)
    as (f' & pat & w1 & prac & w2 & vit & phys & gen & life & w3 & comp & b
        & Hf & E1 & E2 & E3 & Hb & He & G & SV & QV & KP & KG & SL & QL & LL
        & Ci & Cs & Ca & Ct & Csec).
  rewrite Hform in Hf. injection Hf as <-.
  set (obs := (vit ++ phys :: gen :: life)%list) in *.
  destruct G as (Gi & Gc & Gl).
  (* how far the run has drawn *)
  assert (Lv : List.length vit <= 8).
  { rewrite <- (length_map vitalSummary), SV, length_map.
    etransitivity; [apply filter_length_le | reflexivity]. }
  assert (Lo : List.length obs <= 10 + List.length (lifestyle c)).
  { unfold obs. rewrite length_app. simpl. lia. }
  pose proof (buildFhirPatient_calls rt f w) as C1. rewrite E1 in C1. simpl in C1.
  destruct (buildPractitioner_id rt (practitioner c) w1) as [Ip C2].
  rewrite E2 in Ip, C2. simpl in Ip, C2. 
  (* the identities *)
  assert (Ids : map (fun e => resourceIdOf (resource e)) (bundle_entry b)
                = comp_id comp :: pat_id pat :: prac_id prac :: map obs_id obs).
  { rewrite He, map_map. simpl. f_equal. f_equal. f_equal. now rewrite map_map. }
  assert (Nids : NoDup (comp_id comp :: pat_id pat :: prac_id prac :: map obs_id obs)).
  { assert (Nrest : NoDup (comp_id comp :: prac_id prac :: map obs_id obs)).
    { rewrite Ci, Ip, Gi, Gc. unfold coined.
      change (uuidv4_at rt (uuid_calls w2 + List.length obs)
              :: uuidv4_at rt (uuid_calls w1)
              :: map (uuidv4_at rt) (seq (uuid_calls w2) (List.length obs)))
        with (map (uuidv4_at rt) ((uuid_calls w2 + List.length obs) :: uuid_calls w1
                                  :: seq (uuid_calls w2) (List.length obs))).
      apply (NoDup_map_coined rt w (13 + List.length (lifestyle c))); [exact N | |].
      - constructor; [| constructor; [| apply seq_NoDup]].
        + simpl. rewrite in_seq. lia.
        + rewrite in_seq. lia.
      - repeat constructor; try lia.
        apply Forall_forall. intros i Hi. apply in_seq in Hi. lia. }
    assert (Hpat : ~ In (pat_id pat) (comp_id comp :: prac_id prac :: map obs_id obs)).
    { pose proof (buildFhirPatient_id rt f w) as Hp. rewrite E1 in Hp. simpl in Hp.
      rewrite Ci, Ip, Gi, Gc.
      destruct Hp as [(_ & Hid & Hw) | (_ & Hid & Hw)]; rewrite Hid; subst w1.
      - intros Hin. apply Hseed. simpl in Hin.
        destruct Hin as [<- | [<- | Hin]].
        + apply coined_In. lia.
        + apply coined_In. lia.
        + unfold coined in Hin. apply in_map_iff in Hin as (i & <- & Hi).
          apply in_seq in Hi. apply coined_In. lia.
      - simpl in C2. simpl. intros Hin.
        assert (Hk : forall i, uuid_calls w < i < uuid_calls w + (13 + List.length (lifestyle c)) ->
                           uuidv4_at rt i <> uuidv4_at rt (uuid_calls w)).
        { intros i Hi E. apply (coined_inj rt w (13 + List.length (lifestyle c))) in E; try lia. exact N. }
        destruct Hin as [E | [E | Hin]].
        + eapply Hk; [| exact E]. lia.
        + eapply Hk; [| exact E]. simpl. lia.
        + unfold coined in Hin. apply in_map_iff in Hin as (i & E & Hi).
          apply in_seq in Hi. eapply Hk; [| exact E]. lia. }
    inversion Nrest as [|? ? Hc Nr]; subst.
    constructor.
    - simpl. intros [E | Hin]; [| apply Hc; exact Hin].
      apply Hpat. left. symmetry. exact E.
    - constructor; [| exact Nr]. intros Hin. apply Hpat. right. exact Hin. }
  assert (Furl : Forall (fun e => fullUrl e = urn (resourceIdOf (resource e))) (bundle_entry b)).
  { rewrite He. apply Forall_forall. intros e He'.
    apply in_map_iff in He' as (r & <- & _). reflexivity. }
  assert (Nurl : NoDup (map fullUrl (bundle_entry b))).
  { rewrite (map_ext_in fullUrl (fun e => urn (resourceIdOf (resource e)))).
    - rewrite <- (map_map (fun e => resourceIdOf (resource e)) urn).
      apply NoDup_map_urn. rewrite Ids. exact Nids.
    - rewrite Forall_forall in Furl. exact Furl. }
  exists b. split; [exact Hb |].
  assert (Refs : forall r, In r (bundleRefs b) ->
                   In (reference r) (map fullUrl (bundle_entry b))).
  { intros r Hr. unfold bundleRefs in Hr. rewrite He in Hr |- *.
    rewrite flat_map_map in Hr. rewrite map_map. simpl in Hr |- *.
    unfold compositionRefs in Hr. rewrite Cs, Ca, Ct, Csec in Hr.
    unfold obs in Hr at 1. rewrite buildSections_refs in Hr by assumption.
    rewrite flat_map_map in Hr. simpl in Hr. fold obs in Hr.
    rewrite map_map.
    destruct Hr as [<- | [<- | [<- | Hr]]]; simpl; auto.
    apply in_app_iff in Hr as [Hr | Hr].
    - apply in_map_iff in Hr as (o & <- & Ho). right. right. right.
      apply in_map_iff. exists o. auto.
    - apply (observationRefs_linked _ _ _ Gl) in Hr as [-> | ->]; simpl; auto. }
  split; [| split; [| split; [exact Furl | rewrite Ids; exact Nids]]].
  - unfold bundleRefs. rewrite He. simpl. unfold compositionRefs. discriminate.
  - intros r Hr. apply Refs in Hr. apply in_map_iff in Hr as (e & E & He').
    exists e. split.
    + unfold resolve. rewrite <- E. now apply resolve_unique.
    + rewrite <- E. rewrite Forall_forall in Furl. now apply Furl.
Qed.

(* ===================================================================== *)
(** ** Identity reuse *)
(* ===================================================================== *)

(** The pattern of [isUuid] is the union of the five version patterns. *)
Lemma test_versions (p q : list cclass) :
  forall s, test (p ++ Range15 :: q) s
            = existsb (fun v => test (p ++ Lit v :: q) s) versionDigits.
Proof.
  induction p as [|k p IH]; intros s; destruct s as [|c s]; simpl; try reflexivity.
  - destruct (test q s).
    + rewrite !andb_true_r, orb_false_r.
      destruct c as [[] [] [] [] [] [] [] []]; reflexivity.
    + now rewrite !andb_false_r.
  - destruct (in_class k c); simpl; [apply IH | reflexivity].
Qed.

Lemma isUuid_versions (s : string) :
  isUuid (VStr s) = existsb (fun v => test (uuid_version_pattern v) s) versionDigits.
Proof.
  exact (test_versions (repeat HexI 8 ++ [Lit "-"] ++ repeat HexI 4 ++ [Lit "-"])%list
           (repeat HexI 3 ++ [Lit "-"] ++ [Variant89abI] ++ repeat HexI 3 ++ [Lit "-"]
            ++ repeat HexI 12)%list s).
Qed.

Lemma test_toLowerCase (p : list cclass) :
  (forall k c, In k p -> in_class k (lower_char c) = in_class k c) ->
  forall s, test p (toLowerCase s) = test p s.
Proof.
  induction p as [|k p IH]; intros H s; destruct s as [|c s]; simpl; try reflexivity.
  rewrite H by (left; reflexivity). rewrite IH; [reflexivity |].
  intros k' c' Hk. apply H. now right.
Qed.

Lemma isUuid_toLowerCase (s : string) : isUuid (VStr (toLowerCase s)) = isUuid (VStr s).
Proof.
  apply test_toLowerCase. intros k c Hk.
  assert (K : k = HexI \/ k = Lit "-" \/ k = Range15 \/ k = Variant89abI).
  { simpl in Hk. intuition (subst; auto). }
  destruct K as [-> | [-> | [-> | ->]]];
    destruct c as [[] [] [] [] [] [] [] []]; reflexivity.
Qed.

(** C6, as the code has it. Reuse-or-coin of the person identity returns
    the lower-cased seed exactly when the seed matches the identifier
    pattern of [isUuid]: 8-4-4-4-12 hexadecimal digits in either case, with
    a version digit from 1 to 5 and a variant digit among 8, 9, a, b. For
    every other seed the person receives the identity coined next, and that
    identity is not the seed. *)
Theorem person_identity_reuse (rt : Runtime) (f : Form) (w : World) :
  isUuid (VStr (uuidv4_at rt (uuid_calls w))) = true ->
  isUuid (VStr (resourceId f))
  = existsb (fun v => test (uuid_version_pattern v) (resourceId f)) versionDigits
  /\ (isUuidV4 (resourceId f) = true -> isUuid (VStr (resourceId f)) = true)
  /\ (pat_id (fst (buildFhirPatient rt f w)) = toLowerCase (resourceId f)
      <-> isUuid (VStr (resourceId f)) = true)
  /\ (isUuid (VStr (resourceId f)) = true -> snd (buildFhirPatient rt f w) = w)
  /\ (isUuid (VStr (resourceId f)) = false ->
      pat_id (fst (buildFhirPatient rt f w)) = uuidv4_at rt (uuid_calls w)
      /\ pat_id (fst (buildFhirPatient rt f w)) <> resourceId f
      /\ uuid_calls (snd (buildFhirPatient rt f w)) = S (uuid_calls w))
  /\ (forall apiP, mapApiToForm apiP = Some f ->
      isUuid (get_opt apiP "user_ref_id") = false ->
      pat_id (fst (buildFhirPatient rt f w)) = uuidv4_at rt (uuid_calls w)).
Proof.
  intros Hfresh.
  split; [apply isUuid_versions |].
  split.
  { intros H4. rewrite isUuid_versions. unfold versionDigits. cbn [existsb].
    unfold isUuidV4 in H4. rewrite H4. now rewrite !orb_true_r. }
  assert (Hne : forall s, isUuid (VStr s) = false -> uuidv4_at rt (uuid_calls w) <> s).
  { intros s Hs E. rewrite E in Hfresh. congruence. }
  destruct (buildFhirPatient_id rt f w) as [(U & Hid & Hw) | (U & Hid & Hw)];
    rewrite U, Hid, Hw.
  - split; [tauto |]. split; [reflexivity |]. split; [discriminate |].
    intros apiP Hm Hu. exfalso.
    unfold mapApiToForm in Hm.
    destruct (or_else (get_opt apiP "gender") (VStr "")); try discriminate.
    injection Hm as <-. simpl in U. rewrite Hu in U. discriminate.
  - split; [| split; [discriminate | split; [| reflexivity]]].
    + split; [| discriminate]. intros E. exfalso.
      apply (Hne (toLowerCase (resourceId f))); [| exact E].
      now rewrite isUuid_toLowerCase.
    + intros _. split; [reflexivity |]. split; [| reflexivity].
      now apply Hne.
Qed.

Lemma person_identity_reuse_witness :
  isUuid (VStr (uuidv4_at sampleRuntime (uuid_calls startWorld))) = true
  /\ isUuid (VStr (resourceId sampleForm)) = false
  /\ pat_id (fst (buildFhirPatient sampleRuntime sampleForm startWorld))
     = "00000000-0000-4000-8000-000000000000"
  /\ pat_id (fst (buildFhirPatient sampleRuntime sampleForm startWorld))
     <> resourceId sampleForm.
Proof.
  split; [reflexivity |]. split; [reflexivity |].
  destruct (person_identity_reuse sampleRuntime sampleForm startWorld eq_refl)
    as (_ & _ & _ & _ & H & _).
  destruct (H eq_refl) as (H1 & H2 & _).
  split; [rewrite H1; reflexivity | exact H2].
Defined.

(** C6 as stated fails: a version-1 identifier is not a version-4 one, yet
    it is reused and nothing is coined. *)
Lemma version1_seed_is_reused :
  isUuidV4 (resourceId version1Form) = false
  /\ pat_id (fst (buildFhirPatient sampleRuntime version1Form startWorld))
     = toLowerCase (resourceId version1Form)
  /\ pat_id (fst (buildFhirPatient sampleRuntime version1Form startWorld))
     <> uuidv4_at sampleRuntime (uuid_calls startWorld)
  /\ snd (buildFhirPatient sampleRuntime version1Form startWorld) = startWorld.
Proof.
  split; [reflexivity |]. split; [reflexivity |]. split; [| reflexivity].
  vm_compute. discriminate.
Qed.

(* ===================================================================== *)
(** ** Date repair *)
(* ===================================================================== *)

Lemma digit_not_white (c : ascii) : in_class Digit c = true -> isWhiteSpace c = false.
Proof.
  destruct c as [[] [] [] [] [] [] [] []]; simpl; intros H; try discriminate; reflexivity.
Qed.

Lemma digit_not_separator (c sep : ascii) :
  sep = "-"%char \/ sep = "/"%char -> in_class Digit c = true -> Ascii.eqb c sep = false.
Proof.
  intros [-> | ->]; destruct c as [[] [] [] [] [] [] [] []]; simpl; intros H;
    try discriminate; reflexivity.
Qed.

Lemma separator_not_digit (sep : ascii) :
  sep = "-"%char \/ sep = "/"%char -> in_class Digit sep = false.
Proof. now intros [-> | ->]. Qed.

Lemma allDigits_cons (c : ascii) (s : string) :
  allDigits (String c s) = true -> in_class Digit c = true /\ allDigits s = true.
Proof. simpl. intros H. now apply andb_true_iff in H. Qed.

Lemma allDigits_includes (sep : ascii) (s : string) :
  sep = "-"%char \/ sep = "/"%char -> allDigits s = true -> includes sep s = false.
Proof.
  intros Hs. induction s as [|c s IH]; [reflexivity |]. intros H.
  apply allDigits_cons in H as [Hc H]. cbn [includes].
  now rewrite (digit_not_separator c sep Hs Hc), IH.
Qed.

Lemma includes_app (c : ascii) (a b : string) :
  includes c (a ++ b) = includes c a || includes c b.
Proof.
  induction a as [|x a IH]; simpl; [reflexivity |]. now rewrite IH, orb_assoc.
Qed.

Lemma split_no_separator (sep : ascii) (a : string) :
  includes sep a = false -> split sep a = [a].
Proof.
  induction a as [|x a IH]; simpl; [reflexivity |]. intros H.
  apply orb_false_iff in H as [Hx Ha]. now rewrite Hx, (IH Ha).
Qed.

Lemma split_at_separator (sep : ascii) (a b : string) :
  includes sep a = false -> split sep (a ++ String sep b) = a :: split sep b.
Proof.
  induction a as [|x a IH]; simpl; intros H.
  - now rewrite Ascii.eqb_refl.
  - apply orb_false_iff in H as [Hx Ha]. now rewrite Hx, (IH Ha).
Qed.

Lemma append_cons_nonempty (a : string) (c : ascii) (r : string) : a ++ String c r <> "".
Proof. destruct a; discriminate. Qed.

Lemma trimEnd_digits (s : string) : allDigits s = true -> trimEnd s = s.
Proof.
  induction s as [|c s IH]; [reflexivity |]. intros H.
  apply allDigits_cons in H as [Hc H]. cbn [trimEnd].
  now rewrite (IH H), (digit_not_white c Hc).
Qed.

Lemma trimEnd_before (a : string) (c : ascii) (r : string) :
  r <> "" -> trimEnd r = r -> trimEnd (a ++ String c r) = a ++ String c r.
Proof.
  intros Hr Er. induction a as [|x a IH]; cbn [append trimEnd].
  - rewrite Er. apply String.eqb_neq in Hr. now rewrite Hr, andb_false_r.
  - rewrite IH.
    pose proof (append_cons_nonempty a c r) as Hn. apply String.eqb_neq in Hn.
    now rewrite Hn, andb_false_r.
Qed.

Lemma dayOrMonth_inv (s : string) :
  dayOrMonth s = true ->
  exists c r, s = String c r /\ in_class Digit c = true /\ allDigits s = true
              /\ (r = "" \/ exists c', r = String c' "" /\ in_class Digit c' = true).
Proof.
  unfold dayOrMonth. intros H. apply andb_true_iff in H as [Hd Hl].
  destruct s as [|c [|c' [|c'' r]]]; try discriminate.
  - exists c, "". pose proof Hd as Hd'. apply allDigits_cons in Hd as [Hc _]. auto.
  - exists c, (String c' ""). pose proof Hd as Hd'.
    apply allDigits_cons in Hd as [Hc Hd]. apply allDigits_cons in Hd as [Hc' _].
    split; [reflexivity |]. split; [exact Hc |]. split; [exact Hd' |].
    right. exists c'. auto.
Qed.

Lemma year4_inv (s : string) :
  year4 s = true -> allDigits s = true /\ String.length s = 4 /\ s <> "".
Proof.
  unfold year4. intros H. apply andb_true_iff in H as [Hd Hl].
  apply Nat.eqb_eq in Hl. repeat split; auto. intros ->. discriminate.
Qed.

Lemma test_length (p : list cclass) :
  forall s, test p s = true -> String.length s = List.length p.
Proof.
  induction p as [|k p IH]; intros [|c s] H; try discriminate; [reflexivity |].
  simpl in H. apply andb_true_iff in H as [_ H]. simpl. now rewrite (IH s H).
Qed.

Ltac ten_chars s L :=
  do 10 (destruct s as [|? s];
         [discriminate L | cbn [String.length] in L; apply Nat.succ_inj in L]);
  destruct s; [clear L | discriminate L].

(** What [ddmmyyyyToISO] does with a non-empty string. *)
Lemma ddmmyyyyToISO_string (s : string) :
  s <> "" ->
  ddmmyyyyToISO (VStr s)
  = if isYMD (trim s) then trim s
    else match separatorOf (trim s) with
         | None => ""
         | Some sep =>
             match split sep (trim s) with
             | [dd; mm; yyyy] =>
                 if negb (yyyy =? "") && Nat.eqb (String.length yyyy) 4
                 then padStart 4 "0" yyyy ++ "-" ++ padStart 2 "0" mm ++ "-"
                      ++ padStart 2 "0" dd
                 else ""
             | _ => ""
             end
         end.
Proof.
  intros H. unfold ddmmyyyyToISO, isYMD, separatorOf. cbn [truthy toString].
  apply String.eqb_neq in H. rewrite H. reflexivity.
Qed.

Section DayMonthYear.

Variables dd mm yyyy : string.
Variable sep : ascii.
Hypothesis Hsep : sep = "-"%char \/ sep = "/"%char.
Hypothesis Hdd : dayOrMonth dd = true.
Hypothesis Hmm : dayOrMonth mm = true.
Hypothesis Hyyyy : year4 yyyy = true.

Lemma dmy_trim : trim (dd ++ String sep (mm ++ String sep yyyy)) = (dd ++ String sep (mm ++ String sep yyyy)).
Proof.
  destruct (dayOrMonth_inv dd Hdd) as (c & r & -> & Hc & _).
  destruct (year4_inv yyyy Hyyyy) as (Hy & _ & Hne).
  unfold trim. cbn [append trimStart]. rewrite (digit_not_white c Hc).
  change (String c (r ++ String sep (mm ++ String sep yyyy)))
    with (String c r ++ String sep (mm ++ String sep yyyy)).
  apply trimEnd_before.
  - apply append_cons_nonempty.
  - apply trimEnd_before; [exact Hne | now apply trimEnd_digits].
Qed.

Lemma dmy_not_ymd : isYMD (dd ++ String sep (mm ++ String sep yyyy)) = false.
Proof.
  pose proof (separator_not_digit sep Hsep) as Hs.
  destruct (dayOrMonth_inv dd Hdd) as (c & r & -> & Hc & _ & [-> | (c' & -> & Hc')]);
    unfold isYMD, iso_date_pattern;
    cbn [repeat app append test]; rewrite Hc, ?Hc', Hs; reflexivity.
Qed.

Lemma dmy_separator : separatorOf (dd ++ String sep (mm ++ String sep yyyy)) = Some sep.
Proof.
  destruct (dayOrMonth_inv dd Hdd) as (_ & _ & _ & _ & Dd & _).
  destruct (dayOrMonth_inv mm Hmm) as (_ & _ & _ & _ & Dm & _).
  destruct (year4_inv yyyy Hyyyy) as (Dy & _ & _).
  unfold separatorOf.
  rewrite !includes_app. cbn [includes]. rewrite !includes_app. cbn [includes].
  destruct Hsep as [-> | ->].
  - rewrite Ascii.eqb_refl. now rewrite orb_true_r.
  - rewrite !(allDigits_includes "-") by auto.
    rewrite !(allDigits_includes "/") by auto. reflexivity.
Qed.

Lemma dmy_split : split sep (dd ++ String sep (mm ++ String sep yyyy)) = [dd; mm; yyyy].
Proof.
  destruct (dayOrMonth_inv dd Hdd) as (_ & _ & _ & _ & Dd & _).
  destruct (dayOrMonth_inv mm Hmm) as (_ & _ & _ & _ & Dm & _).
  destruct (year4_inv yyyy Hyyyy) as (Dy & _ & _).
  rewrite !split_at_separator, split_no_separator by now apply allDigits_includes.
  reflexivity.
Qed.

Lemma dmy_repaired :
  ddmmyyyyToISO (VStr (dd ++ String sep (mm ++ String sep yyyy)))
  = yyyy ++ "-" ++ padStart 2 "0" mm ++ "-" ++ padStart 2 "0" dd.
Proof.
  destruct (year4_inv yyyy Hyyyy) as (Dy & Ly & Ny).
  rewrite ddmmyyyyToISO_string by apply append_cons_nonempty.
  rewrite dmy_trim, dmy_not_ymd, dmy_separator, dmy_split.
  apply String.eqb_neq in Ny. rewrite Ny, Ly. cbn [negb andb Nat.eqb].
  unfold padStart at 1. rewrite Ly. reflexivity.
Qed.

Lemma dmy_result_is_ymd :
  isYMD (yyyy ++ "-" ++ padStart 2 "0" mm ++ "-" ++ padStart 2 "0" dd) = true.
Proof.
  destruct (year4_inv yyyy Hyyyy) as (Dy & Ly & _).
  destruct yyyy as [|y0 [|y1 [|y2 [|y3 [|y4 r]]]]]; try discriminate.
  apply allDigits_cons in Dy as [H0 Dy]. apply allDigits_cons in Dy as [H1 Dy].
  apply allDigits_cons in Dy as [H2 Dy]. apply allDigits_cons in Dy as [H3 _].
  destruct (dayOrMonth_inv dd Hdd) as (d & rd & -> & Hd & _ & [-> | (d' & -> & Hd')]);
  destruct (dayOrMonth_inv mm Hmm) as (m & rm & -> & Hm & _ & [-> | (m' & -> & Hm')]);
    unfold isYMD, iso_date_pattern, padStart;
    cbn [repeat app append test String.length Nat.sub replicate];
    rewrite H0, H1, H2, H3, Hd, Hm, ?Hd', ?Hm'; reflexivity.
Qed.

End DayMonthYear.

Lemma not_three_parts_absent (s : string) :
  isYMD (trim s) = false -> threeParts (trim s) = false -> ddmmyyyyToISO (VStr s) = "".
Proof.
  intros Hy Ht. destruct (String.eqb_spec s "") as [-> | Hs]; [reflexivity |].
  rewrite ddmmyyyyToISO_string by assumption. rewrite Hy.
  unfold threeParts in Ht. destruct (separatorOf (trim s)) as [sep|]; [| reflexivity].
  destruct (split sep (trim s)) as [|dd [|mm [|yyyy [|x r]]]]; try reflexivity.
  rewrite Ht. now rewrite andb_false_r.
Qed.

(** C7, as the code has it. Date repair maps a string in YYYY-MM-DD form
    to itself; it maps day, month and year joined by one separator, [-] or
    [/], with a day and a month of one or two digits and a year of four, to
    the year, the month and the day joined by [-], month and day padded to
    two digits (so 15-08-1990 and 15/08/1990 become 1990-08-15, and 1-2-1990
    becomes 1990-02-01); it yields the empty string, without an error, for a
    falsy value and for a string that, trimmed, neither is in YYYY-MM-DD
    form nor splits on its separator into three parts of which the last has
    four characters. *)
Theorem date_repair :
  (forall s, isYMD s = true -> ddmmyyyyToISO (VStr s) = s)
  /\ (forall dd mm yyyy sep,
        sep = "-"%char \/ sep = "/"%char ->
        dayOrMonth dd = true -> dayOrMonth mm = true -> year4 yyyy = true ->
        ddmmyyyyToISO (VStr (dd ++ String sep (mm ++ String sep yyyy)))
        = yyyy ++ "-" ++ padStart 2 "0" mm ++ "-" ++ padStart 2 "0" dd
        /\ isYMD (ddmmyyyyToISO (VStr (dd ++ String sep (mm ++ String sep yyyy)))) = true)
  /\ (forall s, isDMY s = true ->
        exists dd mm yyyy sep,
          s = dd ++ String sep (mm ++ String sep yyyy)
          /\ (sep = "-"%char \/ sep = "/"%char)
          /\ dayOrMonth dd = true /\ dayOrMonth mm = true /\ year4 yyyy = true
          /\ padStart 2 "0" mm = mm /\ padStart 2 "0" dd = dd)
  /\ ddmmyyyyToISO (VStr "15-08-1990") = "1990-08-15"
  /\ (forall v, truthy v = false -> ddmmyyyyToISO v = "")
  /\ (forall s, isYMD (trim s) = false -> threeParts (trim s) = false ->
                ddmmyyyyToISO (VStr s) = "").
Proof.
  split; [| split; [| split; [| split; [reflexivity | split]]]].
  - intros s H0. pose proof H0 as H.
    assert (Hs : s <> "") by (intros ->; discriminate).
    rewrite ddmmyyyyToISO_string by assumption.
    assert (Ht : trim s = s).
    { clear H0. unfold isYMD in H.
      pose proof (test_length _ _ H) as L. simpl in L.
      ten_chars s L.
      unfold iso_date_pattern in H. cbn [repeat app test] in H.
      repeat match type of H with
             | (_ && _)%bool = true => let H' := fresh "D" in apply andb_true_iff in H as [H' H]
             end.
      unfold trim. cbn [trimStart]. rewrite (digit_not_white _ D).
      match goal with
      | |- trimEnd (String ?a (String ?b (String ?c (String ?d (String ?e (String ?f
             (String ?g (String ?h ?r)))))))) = _ =>
          change (String a (String b (String c (String d (String e (String f
                    (String g (String h r))))))))
            with (String a (String b (String c (String d (String e (String f
                    (String g "")))))) ++ String h r)
      end.
      rewrite trimEnd_before; [reflexivity | discriminate |].
      apply trimEnd_digits. cbn [allDigits]. now rewrite D7, D8. }
    rewrite Ht, H0. reflexivity.
  - intros dd mm yyyy sep Hsep Hdd Hmm Hyyyy.
    rewrite (dmy_repaired dd mm yyyy sep Hsep Hdd Hmm Hyyyy).
    split; [reflexivity |]. now apply dmy_result_is_ymd.
  - intros s H. unfold isDMY in H. apply orb_true_iff in H.
    assert (K : exists sep, (sep = "-"%char \/ sep = "/"%char)
                            /\ test (dmy_pattern sep) s = true).
    { destruct H as [H | H]; eauto. }
    destruct K as (sep & Hsep & K).
    pose proof (test_length _ _ K) as L. simpl in L. ten_chars s L.
    unfold dmy_pattern in K. cbn [repeat app test] in K.
    repeat match type of K with
           | (_ && _)%bool = true => let H' := fresh "D" in apply andb_true_iff in K as [H' K]
           end.
    cbn [in_class] in D1, D4. apply Ascii.eqb_eq in D1, D4. subst.
    exists (String a (String a0 "")), (String a2 (String a3 "")),
      (String a5 (String a6 (String a7 (String a8 "")))), sep.
    unfold dayOrMonth, year4, padStart.
    cbn [allDigits String.length Nat.eqb Nat.sub replicate append].
    rewrite D, D0, D2, D3, D5, D6, D7, D8. simpl. auto 10.
  - intros v H. unfold ddmmyyyyToISO. now rewrite H.
  - exact not_three_parts_absent.
Qed.

Lemma date_repair_witness :
  isYMD "1990-08-15" = true
  /\ ddmmyyyyToISO (VStr "1990-08-15") = "1990-08-15"
  /\ ddmmyyyyToISO (VStr "1/2/1990") = "1990-02-01"
  /\ ddmmyyyyToISO (VStr "15081990") = "".
Proof.
  destruct date_repair as (A & B & _ & _ & _ & C).
  split; [reflexivity |]. split; [exact (A "1990-08-15" eq_refl) |].
  split.
  - exact (proj1 (B "1" "2" "1990" "/"%char (or_intror eq_refl) eq_refl eq_refl eq_refl)).
  - exact (C "15081990" eq_refl eq_refl).
Defined.

(** C7 as stated fails: 1-2-1990 is in neither of the named shapes, yet a
    birth date comes out; so does one for ab-cd-efgh. *)
Lemma single_digit_date_is_repaired :
  isYMD "1-2-1990" = false
  /\ isDMY "1-2-1990" = false
  /\ ddmmyyyyToISO (VStr "1-2-1990") = "1990-02-01"
  /\ ddmmyyyyToISO (VStr "1-2-1990") <> ""
  /\ isYMD "ab-cd-efgh" = false
  /\ isDMY "ab-cd-efgh" = false
  /\ ddmmyyyyToISO (VStr "ab-cd-efgh") = "efgh-cd-ab".
Proof.
  repeat split. discriminate.
Qed.

(* ===================================================================== *)
(** ** Alternate addresses *)
(* ===================================================================== *)

Lemma filter_filter {A : Type} (p q : A -> bool) (l : list A) :
  filter p (filter q l) = filter (fun x => q x && p x) l.
Proof.
  induction l as [|x l IH]; simpl; [reflexivity |].
  destruct (q x); simpl; [destruct (p x) |]; now rewrite IH.
Qed.

Lemma mem_app (x : string) (a b : list string) : mem x (a ++ b) = mem x a || mem x b.
Proof.
  induction a as [|y a IH]; simpl; [reflexivity |]. now rewrite IH, orb_assoc.
Qed.

(** Insertion into a Set one by one keeps the first occurrences. *)
Lemma Set_add_all (l : list string) :
  forall acc,
    fold_left Set_add l acc
    = (acc ++ firstOccurrences (filter (fun y => negb (mem y acc)) l))%list.
Proof.
  induction l as [|x l IH]; intros acc; simpl.
  - simp firstOccurrences. now rewrite app_nil_r.
  - rewrite IH. unfold Set_add. destruct (mem x acc) eqn:E; simpl.
    + reflexivity.
    + simp firstOccurrences. rewrite filter_filter, <- app_assoc. simpl.
      do 3 f_equal. apply filter_ext. intros y.
      rewrite mem_app. simpl. now rewrite orb_false_r, negb_orb.
Qed.

Lemma Set_from_firstOccurrences (l : list string) : Set_from l = firstOccurrences l.
Proof.
  unfold Set_from. rewrite Set_add_all. simpl. f_equal.
  clear. induction l as [|x l IH]; simpl; [reflexivity | now rewrite IH].
Qed.

Lemma firstOccurrences_In (l : list string) (x : string) :
  In x (firstOccurrences l) <-> In x l.
Proof.
  remember (List.length l) as n eqn:E. revert l E.
  induction n as [n IH] using lt_wf_ind. intros [|y l] E; simp firstOccurrences.
  - tauto.
  - simpl. rewrite (IH (List.length (filter (fun z => negb (z =? y)) l))); try reflexivity.
    + rewrite filter_In. split.
      * intros [H | [H _]]; auto.
      * intros [H | H]; [auto |].
        destruct (String.eqb_spec x y) as [-> | Hn]; [auto |].
        right. split; [exact H | reflexivity].
    + subst n. simpl. apply Nat.lt_succ_r. apply filter_length_le.
Qed.

Lemma firstOccurrences_NoDup (l : list string) : NoDup (firstOccurrences l).
Proof.
  remember (List.length l) as n eqn:E. revert l E.
  induction n as [n IH] using lt_wf_ind. intros [|y l] E; simp firstOccurrences.
  - constructor.
  - constructor.
    + rewrite firstOccurrences_In, filter_In. intros [_ H]. cbv beta in H.
      now rewrite String.eqb_refl in H.
    + apply (IH (List.length (filter (fun z => negb (z =? y)) l))); [| reflexivity].
      subst n. simpl. apply Nat.lt_succ_r. apply filter_length_le.
Qed.

Lemma filterBoolean_candidates (raw : list value) :
  filterBoolean (map abhaItem raw) = flat_map candidate raw.
Proof.
  unfold filterBoolean. induction raw as [|it raw IH]; [reflexivity |].
  cbn [map flat_map]. rewrite <- IH. clear IH.
  destruct it as [| | b | n | s | l | l]; unfold abhaItem, candidate.
  - reflexivity.
  - reflexivity.
  - now destruct b.
  - cbn [truthy]. now destruct (negb (n =? 0)%Z).
  - cbn [truthy]. destruct (s =? "") eqn:E; simpl; [reflexivity |]. now rewrite E.
  - reflexivity.
  - cbn [truthy negb]. destruct (truthy (get (VObj l) "address")).
    + cbn [somes filter app].
      now destruct (toString (get (VObj l) "address") =? "").
    + reflexivity.
Qed.

(** C8, as the code has it. When the nested alternate-address field is an
    array, extraction returns the first occurrences, in order, of the
    candidates of its items: a non-empty string as it is; for an object
    (or array) item the string of its address property when that property
    is truthy and its string not empty, else the JSON encoding of the item;
    nothing for an empty string, null, and items of any other type. When
    the field is not an array, it returns the legacy single address as a
    string if that is truthy, and no address otherwise. *)
Theorem address_extraction (apiPatient : value) :
  (forall raw, abhaList apiPatient = VArr raw ->
     extractAbhaAddresses apiPatient = firstOccurrences (flat_map candidate raw)
     /\ NoDup (extractAbhaAddresses apiPatient)
     /\ (forall a, In a (extractAbhaAddresses apiPatient) <-> In a (flat_map candidate raw)))
  /\ ((forall raw, abhaList apiPatient <> VArr raw) ->
      extractAbhaAddresses apiPatient = legacyAddress apiPatient)
  /\ (forall s, candidate (VStr s) = if s =? "" then [] else [s])
  /\ (forall props s, truthy (get (VObj props) "address") = true ->
                      toString (get (VObj props) "address") = s -> s <> "" ->
                      candidate (VObj props) = [s])
  /\ (forall props, truthy (get (VObj props) "address") = false ->
                    exists s, stringify (VObj props) = Some s /\ s <> ""
                              /\ candidate (VObj props) = [s])
  /\ (forall n b, candidate (VNum n) = [] /\ candidate (VBool b) = []
                  /\ candidate VNull = [] /\ candidate VUndefined = []).
Proof.
  split; [| split; [| split; [| split; [| split]]]].
  - intros raw H. unfold extractAbhaAddresses. fold (abhaList apiPatient). rewrite H.
    rewrite filterBoolean_candidates, Set_from_firstOccurrences.
    split; [reflexivity |]. split; [apply firstOccurrences_NoDup |].
    intros a. apply firstOccurrences_In.
  - intros H. unfold extractAbhaAddresses, legacyAddress. fold (abhaList apiPatient).
    destruct (abhaList apiPatient) as [| | b | n | s | l | l] eqn:E;
      try (destruct apiPatient; reflexivity).
    exfalso. now apply (H l).
  - reflexivity.
  - intros props s Ht Hs Hn. unfold candidate. rewrite Ht, Hs.
    apply String.eqb_neq in Hn. now rewrite Hn.
  - intros props Ht. unfold candidate. rewrite Ht. simpl.
    eexists. split; [reflexivity |]. split; [discriminate | reflexivity].
  - intros n b. repeat split.
Qed.

Lemma address_extraction_witness :
  abhaList mixedAddressRecord
  = VArr [ VStr "asha@abdm"; VObj [("address", VStr "rao@abdm")]; VNum 7;
           VStr "asha@abdm"; VObj [("id", VNum 3)]; VNull ]
  /\ extractAbhaAddresses mixedAddressRecord
     = ["asha@abdm"; "rao@abdm"; "{" ++ dquote ++ "id" ++ dquote ++ ":3}"]
  /\ extractAbhaAddresses sampleRecord = ["AB1234"].
Proof.
  split; [reflexivity |]. split.
  - destruct (address_extraction mixedAddressRecord) as (A & _).
    destruct (A _ eq_refl) as (E & _). rewrite E. reflexivity.
  - destruct (address_extraction sampleRecord) as (_ & B & _).
    rewrite B; [reflexivity |]. intros raw. discriminate.
Defined.

(** C8 as stated fails: an empty string in the list is a string item, yet
    it is not taken as a candidate. *)
Lemma empty_address_is_skipped :
  abhaList emptyAddressRecord = VArr [VStr ""; VStr "asha@abdm"]
  /\ firstOccurrences (flat_map claimedCandidate [VStr ""; VStr "asha@abdm"])
     = [""; "asha@abdm"]
  /\ extractAbhaAddresses emptyAddressRecord = ["asha@abdm"]
  /\ extractAbhaAddresses emptyAddressRecord
     <> firstOccurrences (flat_map claimedCandidate [VStr ""; VStr "asha@abdm"]).
Proof.
  split; [reflexivity |]. split; [reflexivity |]. split; [reflexivity |].
  discriminate.
Qed.

(* ===================================================================== *)
(** ** The run of the sample state *)
(* ===================================================================== *)

Lemma references_resolve_witness :
  ready sampleState = true
  /\ form sampleState = Some sampleForm
  /\ NoDup (coined sampleRuntime startWorld (13 + List.length (lifestyle sampleState)))
  /\ exists b,
       bundleOf sampleRuntime sampleState startWorld = Some b
       /\ bundleRefs b <> []
       /\ (forall r, In r (bundleRefs b) ->
             exists e, resolve b r = [e] /\ reference r = urn (resourceIdOf (resource e)))
       /\ Forall (fun e => fullUrl e = urn (resourceIdOf (resource e))) (bundle_entry b)
       /\ NoDup (map (fun e => resourceIdOf (resource e)) (bundle_entry b)).
Proof.
  assert (N : NoDup (coined sampleRuntime startWorld
                       (13 + List.length (lifestyle sampleState)))).
  { apply distinct_NoDup. vm_compute. reflexivity. }
  split; [reflexivity |]. split; [reflexivity |]. split; [exact N |].
  apply (references_resolve sampleRuntime sampleState startWorld sampleForm
           eq_refl eq_refl N).
  apply mem_false. vm_compute. reflexivity.
Defined.

Lemma sections_have_content_witness :
  ready sampleState = true
  /\ exists b comp others observations,
       bundleOf sampleRuntime sampleState startWorld = Some b
       /\ map resource (bundle_entry b)
          = (RComposition comp :: others ++ map RObservation observations)%list
       /\ map sec_title (comp_section comp)
          = ["Vitals"; "Physical Activity"; "General Assessment"; "Lifestyle"]
       /\ Forall sectionShape (comp_section comp)
       /\ Forall (fun s => sec_entry s <> Some []) (comp_section comp)
       /\ Forall (fun s => sec_entry s <> None \/ sec_text s <> None) (comp_section comp)
       /\ flat_map sectionRefs (comp_section comp) = map entryRef observations.
Proof.
  split; [reflexivity |].
  exact (sections_have_content sampleRuntime sampleState startWorld eq_refl).
Defined.

Lemma entries_in_fixed_order_witness :
  ready sampleState = true
  /\ exists b,
       bundleOf sampleRuntime sampleState startWorld = Some b
       /\ map (fun e => resourceIdOf (resource e)) (bundle_entry b)
          = [ "00000000-0000-4000-8000-000000000006";
              "00000000-0000-4000-8000-000000000000";
              "00000000-0000-4000-8000-000000000001";
              "00000000-0000-4000-8000-000000000002";
              "00000000-0000-4000-8000-000000000003";
              "00000000-0000-4000-8000-000000000004";
              "00000000-0000-4000-8000-000000000005" ].
Proof.
  split; [reflexivity |].
  destruct (entries_in_fixed_order sampleRuntime sampleState startWorld eq_refl)
    as (f & b & comp & pat & w1 & prac & w2 & vit & phys & gen & life
        & _ & Hb & _).
  exists b. split; [exact Hb |].
  unfold bundleOf in Hb. vm_compute in Hb. injection Hb as <-. reflexivity.
Defined.

Lemma empty_vitals_are_dropped_witness :
  ready sampleState = true
  /\ map vitalExpected (filter vitalFilled (vitalInputs sampleState))
     = [ (Some "Heart rate",
          Some {| q_value := Number (VStr "72"); q_unit := "beats/min";
                  q_system := "http://unitsofmeasure.org"; q_code := "beats/min" |}) ]
  /\ exists b comp others observations vitalsSection sections,
       bundleOf sampleRuntime sampleState startWorld = Some b
       /\ map resource (bundle_entry b)
          = (RComposition comp :: others ++ map RObservation observations)%list
       /\ Forall (fun r => forall o, r <> RObservation o) others
       /\ map vitalSummary (filter hasValueQuantity observations)
          = map vitalExpected (filter vitalFilled (vitalInputs sampleState))
       /\ comp_section comp = vitalsSection :: sections
       /\ sec_title vitalsSection = "Vitals"
       /\ sectionRefs vitalsSection = map entryRef (filter hasValueQuantity observations).
Proof.
  split; [reflexivity |]. split; [reflexivity |].
  exact (proj2 (proj2 (empty_vitals_are_dropped sampleRuntime sampleState startWorld
                         eq_refl))).
Defined.

Lemma lifestyle_rows_become_observations_witness :
  ready sampleState = true
  /\ map rowExpected (filter rowKept (lifestyle sampleState))
     = [ (Some "Smoking", Some "No") ]
  /\ exists b comp others observations,
       bundleOf sampleRuntime sampleState startWorld = Some b
       /\ map resource (bundle_entry b)
          = (RComposition comp :: others ++ map RObservation observations)%list
       /\ Forall (fun r => forall o, r <> RObservation o) others
       /\ map lifestyleSummary (filter isLifestyle observations)
          = map rowExpected (filter rowKept (lifestyle sampleState)).
Proof.
  split; [reflexivity |]. split; [reflexivity |].
  exact (proj1 (lifestyle_rows_become_observations sampleRuntime sampleState startWorld
                  eq_refl)).
Defined.

Lemma person_identifiers_witness :
  map identifierSummary
    (pat_identifier (fst (buildFhirPatient sampleRuntime sampleForm startWorld)))
  = [ ("AB1234", ["PI"], Some "ABHA Number");
      ("AB1234", ["PN"], Some "ABHA Address");
      ("42", ["MR"], Some "MRN") ].
Proof.
  rewrite (proj2 (proj2 (person_identifiers sampleRuntime sampleForm startWorld))).
  reflexivity.
Defined.

(* ===================================================================== *)
(** * Further properties of the component *)
(* ===================================================================== *)

(** ** What a run leaves in the state *)

Lemma generateBundle_state (rt : Runtime) (c : AppState) (w : World) :
  exists ob m w', generateBundle rt c w = (setMessage (setBundleJson c ob) m, w').
Proof.
  unfold generateBundle.
  destruct (form c) as [f|]; [| do 3 eexists; reflexivity].
  destruct (negb (truthy (selectedAbhaAddress f)) && negb (truthy (abhaRef f)));
    [do 3 eexists; reflexivity |].
  destruct ((name (practitioner c) =? "") || (license (practitioner c) =? ""));
    [do 3 eexists; reflexivity |].
  unfold bind.
  destruct (buildFhirPatient rt f w) as [pat w1].
  destruct (buildPractitioner rt (practitioner c) w1) as [prac w2].
  destruct (collectObservations rt c (pat_id pat) (prac_id prac) w2) as [[[obs phys] gen] w3].
  destruct (uuidv4 rt w3) as [compId w4].
  destruct (buildComposition rt compId f (practitioner c) pat prac
              (buildSections obs (Some phys) (Some gen)) w4) as [comp w5].
  destruct (buildBundle rt comp pat prac obs w5) as [b w6].
  do 3 eexists. reflexivity.
Qed.

Lemma generateBundle_sameInputs (rt : Runtime) (c : AppState) (w : World) :
  sameInputs c (fst (generateBundle rt c w)).
Proof.
  destruct (generateBundle_state rt c w) as (ob & m & w' & E). rewrite E.
  repeat split.
Qed.

(** The output of a run does not depend on the output of the run before. *)
Lemma generateBundle_ignores_output (rt : Runtime) (c : AppState)
    (ob : option Bundle) (m : string) (w : World) :
  generateBundle rt (setMessage (setBundleJson c ob) m) w = generateBundle rt c w.
Proof. reflexivity. Qed.

(** ** A property of every observation of a run *)

Section EachObservation.

Variable rt : Runtime.
Variables patientId practitionerId : string.
Variable P : Observation -> Prop.

Hypothesis vital_ok :
  forall codeText quantity unit loincCode w o w',
    loincCode <> "" ->
    buildVitalObservation rt patientId practitionerId codeText quantity unit loincCode w
    = (Some o, w') -> P o.
Hypothesis physical_ok :
  forall text w, P (fst (buildPhysicalActivityObs rt patientId practitionerId text w)).
Hypothesis general_ok :
  forall notes pain w,
    P (fst (buildGeneralAssessmentObs rt patientId practitionerId notes pain w)).
Hypothesis lifestyle_ok :
  forall label v w,
    label <> "" -> P (fst (buildLifestyleObs rt patientId practitionerId label v w)).

Lemma vitals_step_each (w0 w : World) (acc : list Observation)
    (codeText q unit loincCode : string) :
  loincCode <> "" ->
  Forall P acc /\ date_calls w = date_calls w0 + List.length acc ->
  Forall P (push_if acc (fst (buildVitalObservation rt patientId practitionerId codeText
                                (VStr q) unit loincCode w)))
  /\ date_calls (snd (buildVitalObservation rt patientId practitionerId codeText
                        (VStr q) unit loincCode w))
     = date_calls w0
       + List.length (push_if acc (fst (buildVitalObservation rt patientId practitionerId
                                          codeText (VStr q) unit loincCode w))).
Proof.
  intros Hc [HF HD].
  destruct (buildVitalObservation rt patientId practitionerId codeText (VStr q) unit
              loincCode w) as [[o|] w'] eqn:E; cbn [fst snd push_if].
  - split.
    + unfold push. apply Forall_app. split; [exact HF |]. constructor; [| constructor].
      eapply vital_ok; eauto.
    + unfold buildVitalObservation in E. destruct (noQuantity (VStr q)); [discriminate |].
      unfold bind, uuidv4, nowISO, ret in E. injection E as _ <-.
      unfold push. rewrite length_app. simpl. lia.
  - split; [exact HF |].
    unfold buildVitalObservation in E. destruct (noQuantity (VStr q)); [| discriminate].
    unfold ret in E. injection E as <-. exact HD.
Qed.

Lemma str_or_nonempty (a b : string) : b <> "" -> str_or a b <> "".
Proof.
  intros Hb. unfold str_or. destruct (String.eqb_spec a ""); auto.
Qed.

Lemma lifestyleLoop_each (rows : list LifestyleRow) :
  forall (acc : list Observation) (w0 w : World),
    Forall P acc /\ date_calls w = date_calls w0 + List.length acc ->
    Forall P (fst (lifestyleLoop rt patientId practitionerId rows acc w))
    /\ date_calls (snd (lifestyleLoop rt patientId practitionerId rows acc w))
       = date_calls w0
         + List.length (fst (lifestyleLoop rt patientId practitionerId rows acc w)).
Proof.
  induction rows as [|li rest IH]; intros acc w0 w [HF HD]; simpl.
  - auto.
  - destruct ((li_label li =? "") && noValue (li_value li)); [now apply IH |].
    unfold bind.
    assert (Hl : str_or (li_label li) "Lifestyle" <> "")
      by (apply str_or_nonempty; discriminate).
    pose proof (lifestyle_ok (str_or (li_label li) "Lifestyle") (li_value li) w Hl) as Ho.
    destruct (buildLifestyleObs rt patientId practitionerId
                (str_or (li_label li) "Lifestyle") (li_value li) w) as [o w1] eqn:E.
    apply IH. split.
    + unfold push. apply Forall_app. split; [exact HF |]. now constructor.
    + unfold buildLifestyleObs, bind, uuidv4, nowISO, ret in E. injection E as _ <-.
      unfold push. rewrite length_app. simpl. lia.
Qed.

Ltac vital_step_each H :=
  try rewrite when_filled_vital;
  match goal with
  | |- context [buildVitalObservation ?r ?p ?q ?l (VStr ?x) ?u ?k ?w] =>
      let V := fresh "V" in
      pose proof (vitals_step_each _ w _ l x u k ltac:(discriminate) H) as V;
      destruct (buildVitalObservation r p q l (VStr x) u k w) as [? ?];
      cbn [fst snd] in V; clear H; rename V into H; cbv beta iota zeta
  end.

Lemma collectObservations_each (c : AppState) (w : World) :
  Forall P (fst (fst (fst (collectObservations rt c patientId practitionerId w))))
  /\ date_calls (snd (collectObservations rt c patientId practitionerId w))
     = date_calls w
       + List.length (fst (fst (fst (collectObservations rt c patientId practitionerId w)))).
Proof.
  unfold collectObservations, bind.
  assert (H : Forall P [] /\ date_calls w = date_calls w + List.length (@nil Observation)).
  { split; [constructor | simpl; lia]. }
  do 8 vital_step_each H.
  match goal with
  | |- context [buildPhysicalActivityObs ?r ?p ?q ?t ?w1] =>
      pose proof (physical_ok t w1) as Hp;
      destruct (buildPhysicalActivityObs r p q t w1) as [phys wp] eqn:Ep
  end.
  match goal with
  | |- context [buildGeneralAssessmentObs ?r ?p ?q ?t ?b ?w1] =>
      pose proof (general_ok t b w1) as Hg;
      destruct (buildGeneralAssessmentObs r p q t b w1) as [gen wg] eqn:Eg
  end.
  cbn [fst] in Hp, Hg. destruct H as [HF HD].
  match goal with
  | |- context [lifestyleLoop ?r ?p ?q ?rows ?acc ?w1] =>
      pose proof (lifestyleLoop_each rows acc w w1) as HL;
      destruct (lifestyleLoop r p q rows acc w1) as [obs wl]
  end.
  cbn [fst snd ret] in *. unfold ret. cbn [fst snd].
  apply HL. split.
  - unfold push. rewrite !Forall_app. repeat split; auto.
  - unfold buildPhysicalActivityObs, bind, uuidv4, nowISO, ret in Ep. injection Ep as _ <-.
    unfold buildGeneralAssessmentObs, bind, uuidv4, nowISO, ret in Eg. injection Eg as _ <-.
    unfold push. rewrite !length_app. simpl. lia.
Qed.

End EachObservation.

(** ** The whole of a successful run *)

Lemma generateBundle_run (rt : Runtime) (c : AppState) (w : World) :
  ready c = true ->
  exists f pat w1 prac w2 vit phys gen life w3 comp b,
    form c = Some f
    /\ buildFhirPatient rt f w = (pat, w1)
    /\ buildPractitioner rt (practitioner c) w1 = (prac, w2)
    /\ collectObservations rt c (pat_id pat) (prac_id prac) w2
       = ((vit ++ phys :: gen :: life)%list, phys, gen, w3)
    /\ generateBundle rt c w
       = (setMessage (setBundleJson c (Some b)) MSG_GENERATED,
          {| uuid_calls := S (S (S (uuid_calls w3))); date_calls := S (S (date_calls w3)) |})
    /\ bundle_id b = uuidv4_at rt (S (uuid_calls w3))
    /\ snd (bundle_identifier b) = uuidv4_at rt (S (S (uuid_calls w3)))
    /\ comp_id comp = uuidv4_at rt (uuid_calls w3)
    /\ comp_text comp
       = generated ("<h3>Wellness Record - " ++ toString (displayName f) ++ "</h3>")
    /\ bundle_entry b
       = map entryOf (RComposition comp :: RPatient pat :: RPractitioner prac
                      :: map RObservation (vit ++ phys :: gen :: life))
    /\ generatedFrom rt (pat_id pat) (prac_id prac) w2 (vit ++ phys :: gen :: life) w3
    /\ map vitalSummary vit = map vitalExpected (filter vitalFilled (vitalInputs c))
    /\ map lifestyleSummary life = map rowExpected (filter rowKept (lifestyle c)).
Proof.
  intros R. destruct (ready_inv c R) as (f & Hf & G1 & G2).
  destruct (buildFhirPatient rt f w) as [pat w1] eqn:E1.
  destruct (buildPractitioner rt (practitioner c) w1) as [prac w2] eqn:E2.
  destruct (collectObservations_spec rt c (pat_id pat) (prac_id prac) w2)
    as (vit & phys & gen & life & w3 & E3 & G & SV & _ & _ & _ & SL & _).
  exists f, pat, w1, prac, w2, vit, phys, gen, life, w3.
  exists (fst (buildComposition rt (uuidv4_at rt (uuid_calls w3)) f (practitioner c) pat prac
                 (buildSections (vit ++ phys :: gen :: life) (Some phys) (Some gen))
                 {| uuid_calls := S (uuid_calls w3); date_calls := date_calls w3 |})).
  eexists.
  split; [exact Hf |]. split; [exact E1 |]. split; [exact E2 |]. split; [exact E3 |].
  split.
  { unfold generateBundle. rewrite Hf, G1, G2. unfold bind at 1. rewrite E1.
    unfold bind at 1. rewrite E2. unfold bind at 1. rewrite E3.
    unfold bind, uuidv4, buildComposition, buildBundle, nowISO, ret.
    cbn [fst snd uuid_calls date_calls]. reflexivity. }
  split; [reflexivity |]. split; [reflexivity |]. split; [reflexivity |].
  split; [reflexivity |].
  split.
  { cbn [bundle_entry]. rewrite fold_left_push. unfold push. simpl.
    rewrite map_map. reflexivity. }
  auto.
Qed.

(** ** Successful runs *)

Lemma buildFhirPatient_dates (rt : Runtime) (f : Form) (w : World) :
  date_calls (snd (buildFhirPatient rt f w)) = date_calls w.
Proof.
  destruct (buildFhirPatient_id rt f w) as [(_ & _ & ->) | (_ & _ & ->)]; reflexivity.
Qed.

Lemma map_length_eq {A B C : Type} (f : A -> C) (g : B -> C) (l : list A) (l' : list B) :
  map f l = map g l' -> List.length l = List.length l'.
Proof.
  intros E. rewrite <- (length_map f l), E. apply length_map.
Qed.

(** X1. A run that passes the preconditions ends in the Generated state
    with the success message and every input as it was. Its bundle has the
    composition, the person, the attester, one observation per filled vital,
    the physical-activity and the general-assessment observation and one per
    kept lifestyle row. The run coins one identity for each of these
    resources except a reused person identity, two more for the bundle, and
    reads the clock once per observation, once for the composition and once
    for the bundle. *)
Theorem successful_run (rt : Runtime) (c : AppState) (w : World) :
  ready c = true ->
  exists f b,
    form c = Some f
    /\ fst (generateBundle rt c w) = setMessage (setBundleJson c (Some b)) MSG_GENERATED
    /\ phase (fst (generateBundle rt c w)) = Generated
    /\ sameInputs c (fst (generateBundle rt c w))
    /\ List.length (bundle_entry b)
       = 5 + List.length (filter vitalFilled (vitalInputs c))
         + List.length (filter rowKept (lifestyle c))
    /\ uuid_calls (snd (generateBundle rt c w))
       = uuid_calls w + (if isUuid (VStr (resourceId f)) then 0 else 1)
         + List.length (bundle_entry b) + 1
    /\ date_calls (snd (generateBundle rt c w))
       = date_calls w + List.length (bundle_entry b) - 1.
Proof.
  intros R.
  destruct (generateBundle_run rt c w R)
    as (f & pat & w1 & prac & w2 & vit & phys & gen & life & w3 & comp & b
        & Hf & E1 & E2 & E3 & Eg & _ & _ & _ & _ & He & G & SV & SL).
  exists f, b. rewrite Eg. cbn [fst snd uuid_calls date_calls].
  split; [exact Hf |]. split; [reflexivity |]. split; [reflexivity |].
  split; [repeat split |].
  assert (Ln : List.length (bundle_entry b)
               = 5 + List.length vit + List.length life).
  { rewrite He. simpl. rewrite !length_map, length_app. simpl. lia. }
  apply map_length_eq in SV, SL. rewrite Ln, SV, SL.
  split; [reflexivity |].
  destruct G as (_ & Gc & _). rewrite length_app in Gc. simpl in Gc.
  pose proof (buildFhirPatient_id rt f w) as Hp. rewrite E1 in Hp. cbn [fst snd] in Hp.
  destruct (buildPractitioner_id rt (practitioner c) w1) as [_ C2].
  rewrite E2 in C2. simpl in C2.
  pose proof (buildFhirPatient_dates rt f w) as D1. rewrite E1 in D1. simpl in D1.
  assert (D2 : date_calls w2 = date_calls w1).
  { unfold buildPractitioner, bind, uuidv4, ret in E2. now injection E2 as _ <-. }
  pose proof (collectObservations_each rt (pat_id pat) (prac_id prac) (fun _ => True)
                (fun _ _ _ _ _ _ _ _ _ => I) (fun _ _ => I) (fun _ _ _ => I)
                (fun _ _ _ _ => I) c w2) as [_ D3].
  rewrite E3 in D3. cbn [fst snd] in D3. rewrite length_app in D3. simpl in D3.
  split.
  - destruct Hp as [(U & _ & ->) | (U & _ & ->)]; rewrite U;
      cbn [uuid_calls date_calls] in *; lia.
  - lia.
Qed.

Lemma successful_run_witness :
  ready sampleState = true
  /\ exists b,
       fst (generateBundle sampleRuntime sampleState startWorld)
       = setMessage (setBundleJson sampleState (Some b)) MSG_GENERATED
       /\ List.length (bundle_entry b) = 7
       /\ snd (generateBundle sampleRuntime sampleState startWorld)
          = {| uuid_calls := 9; date_calls := 6 |}.
Proof.
  split; [reflexivity |].
  destruct (successful_run sampleRuntime sampleState startWorld eq_refl)
    as (f & b & _ & E & _ & _ & L & _).
  exists b. split; [exact E |]. split; [exact L | reflexivity].
Defined.

(** X2. The output of a run does not depend on what the run before left:
    generating again from the state a run ended in, or after a reset of the
    preview, is generating from the state before. *)
Theorem previous_output_is_ignored (rt : Runtime) (c : AppState) (w w' : World) :
  generateBundle rt (fst (generateBundle rt c w)) w' = generateBundle rt c w'
  /\ generateBundle rt (resetPreview c) w' = generateBundle rt c w'
  /\ fst (generateBundle rt (fst (generateBundle rt c w)) w)
     = fst (generateBundle rt c w).
Proof.
  assert (A : forall w0, generateBundle rt (fst (generateBundle rt c w)) w0
                         = generateBundle rt c w0).
  { intros w0. destruct (generateBundle_state rt c w) as (ob & m & w1 & E).
    rewrite E. cbn [fst]. apply generateBundle_ignores_output. }
  split; [apply A |]. split; [apply generateBundle_ignores_output |].
  now rewrite A.
Qed.

(** ** Identities of the bundle itself *)

(** X3. When the identities coined during a run are pairwise distinct and
    differ from a reused person identity, the identity of the bundle and the
    value of its identifier differ from each other and from the identity of
    every resource in the bundle. *)
Theorem bundle_identity_is_fresh (rt : Runtime) (c : AppState) (w : World) (f : Form) :
  ready c = true ->
  form c = Some f ->
  NoDup (coined rt w (15 + List.length (lifestyle c))) ->
  ~ In (toLowerCase (resourceId f)) (coined rt w (15 + List.length (lifestyle c))) ->
  exists b,
    bundleOf rt c w = Some b
    /\ bundle_id b <> snd (bundle_identifier b)
    /\ ~ In (bundle_id b) (map (fun e => resourceIdOf (resource e)) (bundle_entry b))
    /\ ~ In (snd (bundle_identifier b))
            (map (fun e => resourceIdOf (resource e)) (bundle_entry b)).
Proof.
  intros R Hform N Hseed.
  destruct (generateBundle_run rt c w R)
    as (f' & pat & w1 & prac & w2 & vit & phys & gen & life & w3 & comp & b
        & Hf & E1 & E2 & E3 & Eg & Hb & Hi & Hc & _ & He & G & SV & SL).
  rewrite Hform in Hf. injection Hf as <-.
  exists b. split; [unfold bundleOf; now rewrite Eg |].
  destruct G as (Gi & Gc & _).
  apply map_length_eq in SV, SL.
  assert (Lv : List.length (filter vitalFilled (vitalInputs c)) <= 8)
    by (etransitivity; [apply filter_length_le | reflexivity]).
  assert (Ll : List.length (filter rowKept (lifestyle c)) <= List.length (lifestyle c))
    by apply filter_length_le.
  rewrite length_app in Gc, Gi. simpl in Gc.
  pose proof (buildFhirPatient_calls rt f w) as C1. rewrite E1 in C1. simpl in C1.
  destruct (buildPractitioner_id rt (practitioner c) w1) as [Ip C2].
  rewrite E2 in Ip, C2. simpl in Ip, C2.
  (* every resource identity is the seed or coined at an index up to the
     composition's *)
  assert (Ids : forall x,
             In x (map (fun e => resourceIdOf (resource e)) (bundle_entry b)) ->
             x = toLowerCase (resourceId f)
             \/ exists i, uuid_calls w <= i <= uuid_calls w3 /\ x = uuidv4_at rt i).
  { intros x Hx. rewrite He, map_map in Hx. simpl in Hx.
    destruct Hx as [<- | [<- | [<- | Hx]]].
    - right. exists (uuid_calls w3). split; [lia | exact Hc].
    - pose proof (buildFhirPatient_id rt f w) as Hp. rewrite E1 in Hp. cbn [fst snd] in Hp.
      destruct Hp as [(_ & Hid & _) | (_ & Hid & _)]; [now left |].
      right. exists (uuid_calls w). split; [lia | exact Hid].
    - right. exists (uuid_calls w1). split; [lia | exact Ip].
    - rewrite map_map in Hx. simpl in Hx.
      change (fun x => obs_id x) with obs_id in Hx.
      rewrite Gi in Hx. unfold coined in Hx.
      apply in_map_iff in Hx as (i & <- & Hin). apply in_seq in Hin.
      cbn [List.length] in Hin.
      right. exists i. split; [lia | reflexivity]. }
  assert (Fresh : forall j, uuid_calls w3 < j <= S (S (uuid_calls w3)) ->
             ~ In (uuidv4_at rt j)
                  (map (fun e => resourceIdOf (resource e)) (bundle_entry b))).
  { intros j Hj Hin. apply Ids in Hin as [E | (i & Hi' & E)].
    - apply Hseed. rewrite <- E. apply coined_In. lia.
    - apply (coined_inj rt w (15 + List.length (lifestyle c))) in E; [lia | exact N | lia | lia]. }
  rewrite Hb, Hi. split; [| split].
  - intros E.
    apply (coined_inj rt w (15 + List.length (lifestyle c))) in E; [lia | exact N | lia | lia].
  - apply Fresh. lia.
  - apply Fresh. lia.
Qed.

Lemma bundle_identity_is_fresh_witness :
  ready sampleState = true
  /\ exists b,
       bundleOf sampleRuntime sampleState startWorld = Some b
       /\ bundle_id b <> snd (bundle_identifier b)
       /\ ~ In (bundle_id b) (map (fun e => resourceIdOf (resource e)) (bundle_entry b))
       /\ ~ In (snd (bundle_identifier b))
               (map (fun e => resourceIdOf (resource e)) (bundle_entry b)).
Proof.
  split; [reflexivity |].
  apply (bundle_identity_is_fresh sampleRuntime sampleState startWorld sampleForm
           eq_refl eq_refl).
  - apply distinct_NoDup. vm_compute. reflexivity.
  - apply mem_false. vm_compute. reflexivity.
Defined.

(** ** What every resource of a bundle carries *)

Lemma append_nonempty_l (a b : string) : a <> "" -> a ++ b <> "".
Proof. destruct a; [congruence | discriminate]. Qed.

Lemma generated_present (body : string) : narrativePresent (generated body).
Proof.
  split; [reflexivity |]. split; [discriminate |]. now exists body.
Qed.

Lemma string_app_assoc (a b c : string) : (a ++ b) ++ c = a ++ b ++ c.
Proof.
  induction a as [|x a IH]; simpl; [reflexivity | now rewrite IH].
Qed.

Lemma generated_paragraph (body : string) :
  body <> "" -> paragraphNarrative (generated ("<p>" ++ body ++ "</p>")).
Proof.
  intros H. split; [reflexivity |]. exists body. split; [exact H | reflexivity].
Qed.

Lemma generated_paragraph_of (text body : string) :
  body <> "" -> text = "<p>" ++ body ++ "</p>" -> paragraphNarrative (generated text).
Proof.
  intros H ->. now apply generated_paragraph.
Qed.

Lemma paragraph_present (n : Narrative) : paragraphNarrative n -> narrativePresent n.
Proof.
  intros (S & body & _ & E). split; [exact S |]. rewrite E.
  split; [discriminate |]. now exists ("<p>" ++ body ++ "</p>").
Qed.

Lemma run_observations (b : Bundle) (comp : Composition) (pat : Patient)
    (prac : Practitioner) (obs : list Observation) :
  bundle_entry b
  = map entryOf (RComposition comp :: RPatient pat :: RPractitioner prac
                 :: map RObservation obs) ->
  bundleObservations b = obs.
Proof.
  intros E. unfold bundleObservations. rewrite E. clear E.
  cbn [map flat_map observationOf entryOf resource app].
  induction obs as [|o l IH]; [reflexivity |].
  cbn [map flat_map observationOf entryOf resource app]. rewrite IH. reflexivity.
Qed.

Lemma observation_wellformed (rt : Runtime) (patientId practitionerId : string)
    (c : AppState) (w : World) :
  Forall (fun o => paragraphNarrative (obs_text o) /\ codedObservation o)
    (fst (fst (fst (collectObservations rt c patientId practitionerId w)))).
Proof.
  apply collectObservations_each.
  - intros codeText quantity unit loincCode w0 o w' Hc E.
    unfold buildVitalObservation in E. destruct (noQuantity quantity); [discriminate |].
    unfold bind, uuidv4, nowISO, ret in E. injection E as <- _.
    cbn [obs_text obs_status obs_code]. split.
    + apply (generated_paragraph_of _ (codeText ++ ": " ++ toString quantity ++ " "
                                       ++ str_or unit "")).
      * destruct codeText; discriminate.
      * rewrite !string_app_assoc. reflexivity.
    + split; [reflexivity |]. pose proof Hc as Hn. apply String.eqb_neq in Hc. rewrite Hc.
      cbn [negb]. eexists. cbn [cc_coding cc_text].
      split; [reflexivity |]. split; [left; reflexivity |].
      split; [exact Hn | eexists; reflexivity].
  - intros text w0. unfold buildPhysicalActivityObs, bind, uuidv4, nowISO, ret.
    cbn [fst obs_text obs_status obs_code]. split.
    + apply generated_paragraph. apply str_or_nonempty. discriminate.
    + split; [reflexivity |]. eexists. cbn [cc_coding cc_text].
      split; [reflexivity |]. split; [left; reflexivity |].
      split; [cbn [coding_code]; discriminate | eexists; reflexivity].
  - intros notes pain w0. unfold buildGeneralAssessmentObs, bind, uuidv4, nowISO, ret.
    cbn [fst obs_text obs_status obs_code]. split.
    + apply generated_paragraph. apply str_or_nonempty. discriminate.
    + split; [reflexivity |]. eexists. cbn [cc_coding cc_text].
      split; [reflexivity |]. split; [left; reflexivity |].
      split; [cbn [coding_code]; discriminate | eexists; reflexivity].
  - intros label v w0 Hl. unfold buildLifestyleObs, bind, uuidv4, nowISO, ret.
    cbn [fst obs_text obs_status obs_code]. split.
    + match goal with
      | |- paragraphNarrative (generated ("<p>" ++ label ++ ": " ++ ?x ++ "</p>")) =>
          apply (generated_paragraph_of _ (label ++ ": " ++ x))
      end.
      * now apply append_nonempty_l.
      * rewrite !string_app_assoc. reflexivity.
    + split; [reflexivity |]. eexists. cbn [cc_coding cc_text].
      split; [reflexivity |]. split; [right; reflexivity |].
      split; [cbn [coding_code]; discriminate | eexists; reflexivity].
Qed.

Lemma buildFhirPatient_text (rt : Runtime) (f : Form) (w : World) :
  narrativePresent (pat_text (fst (buildFhirPatient rt f w))).
Proof.
  unfold buildFhirPatient, bind.
  destruct (if negb (resourceId f =? "") && isUuid (VStr (resourceId f))
            then ret (toLowerCase (resourceId f)) else uuidv4 rt) as [id w'].
  apply generated_present.
Qed.

Lemma buildPractitioner_text (rt : Runtime) (p : PractitionerInput) (w : World) :
  narrativePresent (prac_text (fst (buildPractitioner rt p w))).
Proof. apply generated_present. Qed.

(** X4. In every generated bundle each resource (composition, person,
    attester, every observation) carries a generated narrative whose text is
    not empty, and the paragraph of every observation's narrative is not
    empty either: an empty summary, empty notes or an empty lifestyle value
    are written as "Not provided". *)
Theorem narratives_are_never_empty (rt : Runtime) (c : AppState) (w : World) :
  ready c = true ->
  exists b,
    bundleOf rt c w = Some b
    /\ Forall (fun e => narrativePresent (narrativeOf (resource e))) (bundle_entry b)
    /\ Forall (fun o => paragraphNarrative (obs_text o)) (bundleObservations b)
    /\ List.length (bundleObservations b) + 3 = List.length (bundle_entry b).
Proof.
  intros R.
  destruct (generateBundle_run rt c w R)
    as (f & pat & w1 & prac & w2 & vit & phys & gen & life & w3 & comp & b
        & Hf & E1 & E2 & E3 & Eg & _ & _ & _ & Ht & He & _).
  pose proof (observation_wellformed rt (pat_id pat) (prac_id prac) c w2) as Ho.
  rewrite E3 in Ho. cbn [fst] in Ho.
  assert (Hp : Forall (fun o => paragraphNarrative (obs_text o))
                 (vit ++ phys :: gen :: life)).
  { eapply Forall_impl; [| exact Ho]. now intros o [H _]. }
  exists b. split; [unfold bundleOf; now rewrite Eg |].
  rewrite (run_observations b comp pat prac _ He).
  split; [| split; [exact Hp |]].
  - rewrite He. cbn [map]. repeat (apply Forall_cons).
    + change (narrativePresent (comp_text comp)). rewrite Ht. apply generated_present.
    + pose proof (buildFhirPatient_text rt f w) as T. rewrite E1 in T. exact T.
    + pose proof (buildPractitioner_text rt (practitioner c) w1) as T.
      rewrite E2 in T. exact T.
    + rewrite map_map. apply Forall_forall. intros e Hin.
      apply in_map_iff in Hin as (o & <- & Hin). cbn.
      rewrite Forall_forall in Hp. apply paragraph_present. now apply Hp.
  - rewrite He. cbn [map List.length]. rewrite !length_map. lia.
Qed.

Lemma narratives_are_never_empty_witness :
  ready sampleState = true
  /\ exists b,
       bundleOf sampleRuntime sampleState startWorld = Some b
       /\ Forall (fun e => narrativePresent (narrativeOf (resource e))) (bundle_entry b)
       /\ Forall (fun o => paragraphNarrative (obs_text o)) (bundleObservations b)
       /\ List.length (bundleObservations b) + 3 = List.length (bundle_entry b).
Proof.
  split; [reflexivity |].
  exact (narratives_are_never_empty sampleRuntime sampleState startWorld eq_refl).
Defined.

(** X5. In every generated bundle each observation is final and is
    classified by exactly one coding, of LOINC or of SNOMED CT, with a code
    and a text; a vital built without a code would carry the text alone. *)
Theorem observations_are_coded (rt : Runtime) (c : AppState) (w : World) :
  ready c = true ->
  (exists b,
     bundleOf rt c w = Some b
     /\ Forall codedObservation (bundleObservations b)
     /\ List.length (bundleObservations b)
        = 2 + List.length (filter vitalFilled (vitalInputs c))
          + List.length (filter rowKept (lifestyle c)))
  /\ (forall patientId practitionerId codeText quantity unit w0 o w0',
        buildVitalObservation rt patientId practitionerId codeText quantity unit "" w0
        = (Some o, w0') ->
        obs_code o = textOnly codeText).
Proof.
  intros R. split.
  - destruct (generateBundle_run rt c w R)
      as (f & pat & w1 & prac & w2 & vit & phys & gen & life & w3 & comp & b
          & Hf & E1 & E2 & E3 & Eg & _ & _ & _ & _ & He & _ & SV & SL).
    pose proof (observation_wellformed rt (pat_id pat) (prac_id prac) c w2) as Ho.
    rewrite E3 in Ho. cbn [fst] in Ho.
    exists b. split; [unfold bundleOf; now rewrite Eg |].
    rewrite (run_observations b comp pat prac _ He). split.
    + eapply Forall_impl; [| exact Ho]. now intros o [_ H].
    + apply map_length_eq in SV, SL. rewrite length_app. cbn [List.length]. lia.
  - intros p q t v u w0 o w0' E. unfold buildVitalObservation in E.
    destruct (noQuantity v); [discriminate |].
    unfold bind, uuidv4, nowISO, ret in E. injection E as <- _. reflexivity.
Qed.

Lemma observations_are_coded_witness :
  ready sampleState = true
  /\ exists b,
       bundleOf sampleRuntime sampleState startWorld = Some b
       /\ Forall codedObservation (bundleObservations b)
       /\ List.length (bundleObservations b) = 4.
Proof.
  split; [reflexivity |].
  exact (proj1 (observations_are_coded sampleRuntime sampleState startWorld eq_refl)).
Defined.

(** ** The attester and the person in a bundle *)

(** X6. The attester resource always carries exactly two identifiers, the
    license typed MD and the login id typed PN, whatever their values; in a
    generated bundle the license and the name of the attester are not
    empty. *)
Theorem attester_identifiers (rt : Runtime) (c : AppState) (w : World) :
  ready c = true ->
  (forall p w0,
     map identifierSummary (prac_identifier (fst (buildPractitioner rt p w0)))
     = [ (license p, ["MD"], Some "Medical License number");
         (loginId p, ["PN"], Some "Login id") ])
  /\ exists b prac,
       bundleOf rt c w = Some b
       /\ In (entryOf (RPractitioner prac)) (bundle_entry b)
       /\ map identifierSummary (prac_identifier prac)
          = [ (license (practitioner c), ["MD"], Some "Medical License number");
              (loginId (practitioner c), ["PN"], Some "Login id") ]
       /\ license (practitioner c) <> ""
       /\ prac_name prac = [name (practitioner c)]
       /\ name (practitioner c) <> "".
Proof.
  intros R.
  assert (A : forall p w0,
             map identifierSummary (prac_identifier (fst (buildPractitioner rt p w0)))
             = [ (license p, ["MD"], Some "Medical License number");
                 (loginId p, ["PN"], Some "Login id") ]).
  { intros p w0. unfold buildPractitioner, bind, uuidv4, ret.
    cbn [fst prac_identifier map]. unfold identifierSummary, identifierCode, id_type_of.
    cbn. now rewrite !str_or_empty. }
  split; [exact A |].
  destruct (generateBundle_run rt c w R)
    as (f & pat & w1 & prac & w2 & vit & phys & gen & life & w3 & comp & b
        & Hf & E1 & E2 & E3 & Eg & _ & _ & _ & _ & He & _).
  destruct (ready_inv c R) as (f' & _ & _ & G2).
  apply orb_false_iff in G2 as [Gn Gl].
  exists b, prac. split; [unfold bundleOf; now rewrite Eg |].
  split; [rewrite He; cbn [map]; auto with datatypes |].
  pose proof (A (practitioner c) w1) as A1. rewrite E2 in A1.
  split; [exact A1 |]. split; [now apply String.eqb_neq |].
  split; [| now apply String.eqb_neq].
  unfold buildPractitioner, bind, uuidv4, ret in E2. now injection E2 as <- _.
Qed.

Lemma attester_identifiers_witness :
  ready sampleState = true
  /\ exists b prac,
       bundleOf sampleRuntime sampleState startWorld = Some b
       /\ In (entryOf (RPractitioner prac)) (bundle_entry b)
       /\ map identifierSummary (prac_identifier prac)
          = [ ("LIC-1234", ["MD"], Some "Medical License number");
              ("pract-001", ["PN"], Some "Login id") ].
Proof.
  split; [reflexivity |].
  destruct (attester_identifiers sampleRuntime sampleState startWorld eq_refl)
    as (_ & b & prac & B & I & S & _).
  exists b, prac. auto.
Defined.

Lemma patient_identifier_summaries (rt : Runtime) (f : Form) (w : World) :
  map identifierSummary (pat_identifier (fst (buildFhirPatient rt f w)))
  = match identitySources f with
    | [] => [(pat_id (fst (buildFhirPatient rt f w)), ["PI"], Some "generated-id")]
    | sources => map sourceIdentifier sources
    end.
Proof.
  unfold buildFhirPatient, bind, identitySources.
  destruct (negb (resourceId f =? "") && isUuid (VStr (resourceId f)))%bool;
  simpl; destruct (truthy (abhaRef f)), (truthy (selectedAbhaAddress f)),
           (negb (mrn f =? "")); reflexivity.
Qed.

(** X7. The synthetic generated-id identifier never reaches a bundle: the
    preconditions of generation demand an external health id or address, so
    the person of every generated bundle carries an identifier typed PI or
    PN for it, in the order health id, address, record number, and none
    labelled generated-id. *)
Theorem generated_id_never_in_bundle (rt : Runtime) (c : AppState) (w : World) :
  ready c = true ->
  exists f b pat,
    form c = Some f
    /\ bundleOf rt c w = Some b
    /\ In (entryOf (RPatient pat)) (bundle_entry b)
    /\ identitySources f <> []
    /\ map identifierSummary (pat_identifier pat) = map sourceIdentifier (identitySources f)
    /\ Forall (fun i => cc_text (id_type i) <> Some "generated-id") (pat_identifier pat)
    /\ Exists (fun i => identifierCode i = ["PI"] \/ identifierCode i = ["PN"])
         (pat_identifier pat).
Proof.
  intros R.
  destruct (generateBundle_run rt c w R)
    as (f & pat & w1 & prac & w2 & vit & phys & gen & life & w3 & comp & b
        & Hf & E1 & E2 & E3 & Eg & _ & _ & _ & _ & He & _).
  assert (Hid : hasHealthIdentity f = true).
  { unfold ready in R. rewrite Hf in R. now apply andb_true_iff in R as [R _]. }
  pose proof (patient_identifier_summaries rt f w) as S. rewrite E1 in S. cbn [fst] in S.
  assert (Hs : identitySources f <> []).
  { unfold identitySources, hasHealthIdentity in *.
    destruct (truthy (abhaRef f)); [discriminate |].
    destruct (truthy (selectedAbhaAddress f)); [discriminate | discriminate]. }
  assert (S' : map identifierSummary (pat_identifier pat)
               = map sourceIdentifier (identitySources f)).
  { rewrite S. destruct (identitySources f); [congruence | reflexivity]. }
  exists f, b, pat. split; [exact Hf |]. split; [unfold bundleOf; now rewrite Eg |].
  split; [rewrite He; cbn [map]; auto with datatypes |].
  split; [exact Hs |]. split; [exact S' |]. split.
  - apply Forall_forall. intros i Hi Hg.
    apply (in_map identifierSummary) in Hi. rewrite S' in Hi.
    apply in_map_iff in Hi as (s & Es & _).
    unfold identifierSummary, sourceIdentifier in Es. injection Es as _ _ Et.
    rewrite Hg in Et.
    destruct (snd s =? "PI"); [discriminate |].
    destruct (snd s =? "PN"); discriminate.
  - apply Exists_exists.
    assert (K : exists s, In s (identitySources f) /\ (snd s = "PI" \/ snd s = "PN")).
    { unfold identitySources, hasHealthIdentity in *.
      destruct (truthy (abhaRef f)).
      - eexists. split; [left; reflexivity | left; reflexivity].
      - destruct (truthy (selectedAbhaAddress f)); [| discriminate].
        eexists. split; [left; reflexivity | right; reflexivity]. }
    destruct K as (s & Hin & Hc).
    apply (in_map sourceIdentifier) in Hin. rewrite <- S' in Hin.
    apply in_map_iff in Hin as (i & Ei & Hi). exists i. split; [exact Hi |].
    unfold identifierSummary, sourceIdentifier in Ei. injection Ei as _ Ec _.
    rewrite Ec. destruct Hc as [-> | ->]; auto.
Qed.

Lemma generated_id_never_in_bundle_witness :
  ready sampleState = true
  /\ exists f b pat,
       form sampleState = Some f
       /\ bundleOf sampleRuntime sampleState startWorld = Some b
       /\ In (entryOf (RPatient pat)) (bundle_entry b)
       /\ identitySources f <> []
       /\ map identifierSummary (pat_identifier pat)
          = map sourceIdentifier (identitySources f)
       /\ Forall (fun i => cc_text (id_type i) <> Some "generated-id") (pat_identifier pat)
       /\ Exists (fun i => identifierCode i = ["PI"] \/ identifierCode i = ["PN"])
            (pat_identifier pat).
Proof.
  split; [reflexivity |].
  exact (generated_id_never_in_bundle sampleRuntime sampleState startWorld eq_refl).
Defined.

(** ** The component as a state machine *)

Lemma nth_error_replaceAt {A : Type} (l : list A) (i : nat) (x y : A) :
  nth_error l i = Some y -> nth_error (replaceAt i x l) i = Some x.
Proof.
  revert i. induction l as [| a l IH]; intros [| i] H; try discriminate; simpl; auto.
Qed.

Lemma nth_error_replaceAt_other {A : Type} (l : list A) (i j : nat) (x : A) :
  i <> j -> nth_error (replaceAt i x l) j = nth_error l j.
Proof.
  revert i j. induction l as [| a l IH]; intros [| i] [| j] H; simpl; auto; try congruence.
Qed.

Lemma length_replaceAt {A : Type} (l : list A) (i : nat) (x : A) :
  List.length (replaceAt i x l) = List.length l.
Proof.
  revert i. induction l as [| a l IH]; intros [| i]; simpl; auto.
Qed.

Lemma Forall_replaceAt {A : Type} (P : A -> Prop) (l : list A) (i : nat) (x : A) :
  P x -> Forall P l -> Forall P (replaceAt i x l).
Proof.
  intros Hx H. revert i. induction H as [| a l Ha H IH]; intros [| i]; simpl; auto.
Qed.

Lemma Forall_removeAt {A : Type} (P : A -> Prop) (l : list A) (i : nat) :
  Forall P l -> Forall P (removeAt i l).
Proof.
  intros H. revert i. induction H as [| a l Ha H IH]; intros [| i]; simpl; auto.
Qed.

Lemma length_removeAt {A : Type} (l : list A) (i : nat) :
  i < List.length l -> S (List.length (removeAt i l)) = List.length l.
Proof.
  revert i. induction l as [| a l IH]; intros [| i] H; simpl in *; try lia.
  rewrite IH; lia.
Qed.

Lemma removeAt_last {A : Type} (l : list A) (x : A) :
  removeAt (List.length l) (l ++ [x])%list = l.
Proof. induction l as [| a l IH]; simpl; congruence. Qed.

(** The selection effect settles a state whose chosen entry exists. *)
Lemma selectionEffect_form (c : AppState) (f0 : Form) :
  formAt (forms c) (selectedIndex c) = Some f0 ->
  selectionEffect c = setForm c (Some (withSelected f0 (defaultAbhaAddress f0))).
Proof.
  intros H. unfold selectionEffect. rewrite H.
  unfold formAt in H. now destruct (0 <=? selectedIndex c)%Z.
Qed.

Lemma settled_no_forms (c : AppState) :
  settled c -> forms c = [] -> form c = None.
Proof.
  unfold settled. destruct (form c) as [f|]; [| reflexivity].
  intros (f0 & H & _) E. rewrite E in H. unfold formAt in H.
  destruct (0 <=? selectedIndex c)%Z; [| discriminate].
  now destruct (Z.to_nat (selectedIndex c)).
Qed.

Lemma settled_form (c : AppState) (f : Form) :
  settled c -> form c = Some f ->
  exists f0, formAt (forms c) (selectedIndex c) = Some f0
             /\ f = withSelected f0 (defaultAbhaAddress f0).
Proof. intros S E. unfold settled in S. now rewrite E in S. Qed.

Lemma formAt_replaceAt (l : list Form) (i : Z) (old x : Form) :
  formAt l i = Some old -> formAt (replaceAt (Z.to_nat i) x l) i = Some x.
Proof.
  unfold formAt. destruct (0 <=? i)%Z; [| discriminate].
  apply nth_error_replaceAt.
Qed.

(** What editing a field of the form leaves, once the selection effect
    has run on the new [forms]. *)
Lemma dispatch_field (rt : Runtime) (field : FormField) (text : string)
    (c : AppState) (w : World) (f : Form) :
  settled c -> form c = Some f ->
  exists f0,
    formAt (forms c) (selectedIndex c) = Some f0
    /\ f = withSelected f0 (defaultAbhaAddress f0)
    /\ dispatch rt (FieldEdited field text) c w
       = (Some (setForm
                  (setForms c (replaceAt (Z.to_nat (selectedIndex c))
                                 (setField f0 field text) (forms c)))
                  (Some (withSelected (setField f0 field text)
                           (defaultAbhaAddress (setField f0 field text))))), w).
Proof.
  intros S Hf. destruct (settled_form c f S Hf) as (f0 & H0 & E).
  exists f0. split; [exact H0 |]. split; [exact E |].
  unfold dispatch, handle, bind, ret, updateFormField. rewrite Hf, H0.
  cbn [selectionRuns orb]. f_equal. f_equal.
  rewrite (selectionEffect_form _ (setField f0 field text)).
  - reflexivity.
  - cbn [forms selectedIndex setForms setForm]. now apply formAt_replaceAt with (old := f0).
Qed.

Lemma boolOrString_change (text : string) : boolOrString (valueInputChange text).
Proof.
  unfold valueInputChange, boolOrString.
  destruct ((text =? "true") || (text =? "false"))%bool; eauto.
Qed.

Lemma loadPatients_cases (fetched : option value) (c : AppState) :
  (loadSucceeds fetched = false /\ loadPatients fetched c = setMessage c MSG_LOAD_FAILED)
  \/ (loadSucceeds fetched = true /\ loadPatients fetched c = setForms c [])
  \/ (exists first rest,
        loadSucceeds fetched = true
        /\ loadPatients fetched c
           = setForm (setSelectedIndex (setForms c (first :: rest)) 0%Z)
               (Some (withSelected first (defaultAbhaAddress first)))).
Proof.
  unfold loadSucceeds, loadPatients. destruct fetched as [data|]; [| now left].
  destruct (patientArray data) as [| | | | | arr |]; try now left.
  destruct (mapForms arr) as [[| first rest]|]; [right; left | right; right |]; eauto.
Qed.

Lemma dispatch_fetch_invariant (rt : Runtime) (fetched : option value)
    (c c' : AppState) (w w' : World) :
  stateInvariant false c ->
  dispatch rt (PatientsFetched fetched) c w = (Some c', w') ->
  stateInvariant true c'.
Proof.
  intros (S & L1 & L2 & E) H. specialize (E eq_refl).
  pose proof (settled_no_forms c S E) as Hn.
  assert (Hi : selectedIndex c = (-1)%Z).
  { unfold settled in S. rewrite Hn in S. tauto. }
  unfold dispatch, handle, bind, ret in H. injection H as <- _.
  destruct (loadPatients_cases fetched c) as [[B ->] | [[B ->] | (first & rest & B & ->)]];
    unfold selectionRuns; rewrite B; cbn [orb].
  - cbn [setMessage selectedIndex]. rewrite Z.eqb_refl. cbn [negb].
    split; [exact S |]. repeat split; auto; discriminate.
  - unfold selectionEffect. cbn [selectedIndex setForms]. rewrite Hi. cbn [Z.leb Z.compare].
    split; [| repeat split; auto; discriminate].
    unfold settled. cbn [form setForms forms selectedIndex]. rewrite Hn. auto.
  - rewrite (selectionEffect_form _ first) by reflexivity.
    split; [| repeat split; auto; discriminate].
    unfold settled. cbn [form setForm]. exists first. split; reflexivity.
Qed.

Lemma removeAt_nonempty {A : Type} (l : list A) (i : nat) :
  1 < List.length l -> removeAt i l <> [].
Proof.
  destruct l as [| a [| b l]]; simpl; try lia. intros _. destruct i; discriminate.
Qed.

(** The invariant holds after every event. *)
Lemma dispatch_event_invariant (rt : Runtime) (loaded : bool) (ev : Event)
    (c c' : AppState) (w w' : World) :
  stateInvariant loaded c ->
  (forall fetched, ev <> PatientsFetched fetched) ->
  dispatch rt ev c w = (Some c', w') ->
  stateInvariant loaded c'.
Proof.
  intros (S & L1 & L2 & E) Hev H.
  destruct ev as [fetched | index | field text | text | text | which text | which text
                 | text | text | checked | | i | i text | i text | |].
  - now elim (Hev fetched).
  - (* another person is chosen *)
    unfold dispatch, handle, bind, ret in H.
    destruct (forms c) as [| f1 fs] eqn:Ef.
    + destruct (index =? -1)%Z eqn:Ei; [| discriminate]. apply Z.eqb_eq in Ei. subst index.
      injection H as <- _.
      pose proof (settled_no_forms c S Ef) as Hn.
      assert (Hi : selectedIndex c = (-1)%Z).
      { unfold settled in S. rewrite Hn in S. tauto. }
      unfold selectionRuns. cbn [orb selectedIndex setSelectedIndex]. rewrite Hi.
      rewrite Z.eqb_refl. cbn [negb].
      assert (Hc : setSelectedIndex c (-1) = c) by (destruct c; cbn in Hi; now subst).
      rewrite Hc. exact (conj S (conj L1 (conj L2 (fun _ => Ef)))).
    + destruct ((0 <=? index)%Z && (index <? Z.of_nat (List.length (f1 :: fs)))%Z) eqn:Ei;
        [| discriminate].
      injection H as <- _.
      apply andb_true_iff in Ei as [I0 I1]. apply Z.leb_le in I0. apply Z.ltb_lt in I1.
      destruct (nth_error (f1 :: fs) (Z.to_nat index)) as [g|] eqn:Eg.
      2:{ apply nth_error_None in Eg. lia. }
      assert (Hat : formAt (forms (setSelectedIndex c index))
                      (selectedIndex (setSelectedIndex c index)) = Some g).
      { cbn [forms selectedIndex setSelectedIndex]. rewrite Ef. unfold formAt.
        apply Z.leb_le in I0. now rewrite I0. }
      assert (Hs : settled (selectionEffect (setSelectedIndex c index))).
      { rewrite (selectionEffect_form _ g Hat). unfold settled.
        cbn [form forms selectedIndex setForm setSelectedIndex].
        exists g. split; [| reflexivity].
        cbn [forms selectedIndex setSelectedIndex] in Hat. exact Hat. }
      unfold selectionRuns. cbn [orb selectedIndex setSelectedIndex].
      destruct (index =? selectedIndex c)%Z eqn:Es; cbn [negb].
      * apply Z.eqb_eq in Es. subst index.
        assert (Hc : setSelectedIndex c (selectedIndex c) = c) by now destruct c.
        rewrite Hc. split; [exact S |]. split; [exact L1 |]. split; [exact L2 |].
        intros Hl. specialize (E Hl). discriminate.
      * split; [exact Hs |]. rewrite (selectionEffect_form _ g Hat).
        split; [exact L1 |]. split; [exact L2 |].
        intros Hl. specialize (E Hl). discriminate.
  - (* a field of the form is edited *)
    pose proof H as H'. unfold dispatch, handle, bind, ret, updateFormField in H'.
    destruct (form c) as [f|] eqn:Hf; [| discriminate]. clear H'.
    destruct (dispatch_field rt field text c w f S Hf) as (f0 & H0 & Ef & D).
    rewrite D in H. injection H as <- _.
    split; [| split; [exact L1 | split; [exact L2 |]]].
    + unfold settled. cbn [form forms selectedIndex setForm setForms].
      exists (setField f0 field text). split; [| reflexivity].
      now apply formAt_replaceAt with (old := f0).
    + intros Hl. specialize (E Hl). rewrite (settled_no_forms c S E) in Hf. discriminate.
  - unfold dispatch, handle, bind, ret in H. injection H as <- _.
    unfold selectionRuns. cbn [orb selectedIndex setPractitioner setVitals setBody
      setPhysicalText setGeneralNotes setGeneralPain resetPreview setMessage setBundleJson].
    rewrite Z.eqb_refl. cbn [negb]. exact (conj S (conj L1 (conj L2 E))).
  - unfold dispatch, handle, bind, ret in H. injection H as <- _.
    unfold selectionRuns. cbn [orb selectedIndex setPractitioner setVitals setBody
      setPhysicalText setGeneralNotes setGeneralPain resetPreview setMessage setBundleJson].
    rewrite Z.eqb_refl. cbn [negb]. exact (conj S (conj L1 (conj L2 E))).
  - unfold dispatch, handle, bind, ret in H. injection H as <- _.
    unfold selectionRuns. cbn [orb selectedIndex setPractitioner setVitals setBody
      setPhysicalText setGeneralNotes setGeneralPain resetPreview setMessage setBundleJson].
    rewrite Z.eqb_refl. cbn [negb]. exact (conj S (conj L1 (conj L2 E))).
  - unfold dispatch, handle, bind, ret in H. injection H as <- _.
    unfold selectionRuns. cbn [orb selectedIndex setPractitioner setVitals setBody
      setPhysicalText setGeneralNotes setGeneralPain resetPreview setMessage setBundleJson].
    rewrite Z.eqb_refl. cbn [negb]. exact (conj S (conj L1 (conj L2 E))).
  - unfold dispatch, handle, bind, ret in H. injection H as <- _.
    unfold selectionRuns. cbn [orb selectedIndex setPractitioner setVitals setBody
      setPhysicalText setGeneralNotes setGeneralPain resetPreview setMessage setBundleJson].
    rewrite Z.eqb_refl. cbn [negb]. exact (conj S (conj L1 (conj L2 E))).
  - unfold dispatch, handle, bind, ret in H. injection H as <- _.
    unfold selectionRuns. cbn [orb selectedIndex setPractitioner setVitals setBody
      setPhysicalText setGeneralNotes setGeneralPain resetPreview setMessage setBundleJson].
    rewrite Z.eqb_refl. cbn [negb]. exact (conj S (conj L1 (conj L2 E))).
  - unfold dispatch, handle, bind, ret in H. injection H as <- _.
    unfold selectionRuns. cbn [orb selectedIndex setPractitioner setVitals setBody
      setPhysicalText setGeneralNotes setGeneralPain resetPreview setMessage setBundleJson].
    rewrite Z.eqb_refl. cbn [negb]. exact (conj S (conj L1 (conj L2 E))).
  - (* a row is added *)
    unfold dispatch, handle, bind, ret in H. injection H as <- _.
    unfold selectionRuns. cbn [orb selectedIndex addLifestyle setLifestyle].
    rewrite Z.eqb_refl. cbn [negb].
    split; [exact S |]. cbn [lifestyle addLifestyle setLifestyle forms].
    split; [now destruct (lifestyle c) |]. split; [| exact E].
    apply Forall_app. split; [exact L2 |]. constructor; [| constructor].
    right. now exists "".
  - (* a row is removed *)
    unfold dispatch, handle, bind, ret in H.
    destruct (Nat.ltb i (List.length (lifestyle c))); [| discriminate].
    injection H as <- _.
    unfold selectionRuns. cbn [orb selectedIndex removeLifestyle setLifestyle].
    rewrite Z.eqb_refl. cbn [negb].
    split; [exact S |]. cbn [lifestyle removeLifestyle setLifestyle forms].
    destruct (Nat.ltb 1 (List.length (lifestyle c))) eqn:El.
    + apply Nat.ltb_lt in El.
      split; [now apply removeAt_nonempty |]. split; [now apply Forall_removeAt | exact E].
    + auto.
  - (* the label of a row is edited *)
    unfold dispatch, handle, bind, ret, updateLifestyle in H.
    destruct (nth_error (lifestyle c) i) as [li|] eqn:En; [| discriminate].
    injection H as <- _.
    unfold selectionRuns. cbn [orb selectedIndex setLifestyle]. rewrite Z.eqb_refl. cbn [negb].
    split; [exact S |]. cbn [lifestyle setLifestyle forms].
    split; [| split; [| exact E]].
    + intros Hnil. apply (f_equal (@List.length _)) in Hnil.
      rewrite length_replaceAt in Hnil. destruct (lifestyle c); [congruence | discriminate].
    + apply Forall_replaceAt; [| exact L2]. cbn [applyRowUpdate li_value].
      rewrite Forall_forall in L2. apply L2. eapply nth_error_In; eauto.
  - (* the value of a row is edited *)
    unfold dispatch, handle, bind, ret, updateLifestyle in H.
    destruct (nth_error (lifestyle c) i) as [li|] eqn:En; [| discriminate].
    injection H as <- _.
    unfold selectionRuns. cbn [orb selectedIndex setLifestyle]. rewrite Z.eqb_refl. cbn [negb].
    split; [exact S |]. cbn [lifestyle setLifestyle forms].
    split; [| split; [| exact E]].
    + intros Hnil. apply (f_equal (@List.length _)) in Hnil.
      rewrite length_replaceAt in Hnil. destruct (lifestyle c); [congruence | discriminate].
    + apply Forall_replaceAt; [| exact L2]. cbn [applyRowUpdate li_value].
      apply boolOrString_change.
  - (* generation *)
    unfold dispatch, handle, bind, ret in H.
    destruct (generateBundle_state rt c w) as (ob & m & w1 & G). rewrite G in H.
    injection H as <- _.
    unfold selectionRuns. cbn [orb selectedIndex setPractitioner setVitals setBody
      setPhysicalText setGeneralNotes setGeneralPain resetPreview setMessage setBundleJson].
    rewrite Z.eqb_refl. cbn [negb]. exact (conj S (conj L1 (conj L2 E))).
  - unfold dispatch, handle, bind, ret in H. injection H as <- _.
    unfold selectionRuns. cbn [orb selectedIndex setPractitioner setVitals setBody
      setPhysicalText setGeneralNotes setGeneralPain resetPreview setMessage setBundleJson].
    rewrite Z.eqb_refl. cbn [negb]. exact (conj S (conj L1 (conj L2 E))).
Qed.

Lemma reachable_invariant (rt : Runtime) (loaded : bool) (c : AppState) (w : World) :
  reachable rt loaded c w -> stateInvariant loaded c.
Proof.
  induction 1 as [w | c w fetched c' w' _ IH D | loaded c w ev c' w' _ IH Hev D].
  - unfold stateInvariant, settled. cbn. repeat split; auto; try discriminate.
    constructor; [| constructor]. left. now exists false.
  - eapply dispatch_fetch_invariant; eauto.
  - eapply dispatch_event_invariant; eauto.
Qed.

Lemma loadedState_reachable : reachable sampleRuntime true loadedState startWorld.
Proof.
  apply (reach_fetch sampleRuntime initialState startWorld (Some sampleFeed)).
  - apply reach_start.
  - reflexivity.
Qed.

(** X8. In every state the component can reach, the form shown is the
    chosen entry of the list of persons with its default address selected
    (or there is no form, no person and the index -1); there is at least one
    lifestyle row and every row value is a boolean or a string; and until
    the list of persons has arrived there is no form, so that generation
    answers "Please select a patient." and coins nothing. *)
Theorem component_invariant (rt : Runtime) (loaded : bool) (c : AppState) (w : World) :
  reachable rt loaded c w ->
  settled c
  /\ lifestyle c <> []
  /\ Forall (fun li => boolOrString (li_value li)) (lifestyle c)
  /\ (loaded = false ->
      forms c = [] /\ form c = None
      /\ forall w0, message (fst (generateBundle rt c w0)) = "Please select a patient."
                    /\ bundleOf rt c w0 = None
                    /\ snd (generateBundle rt c w0) = w0).
Proof.
  intros R. destruct (reachable_invariant rt loaded c w R) as (S & L1 & L2 & E).
  split; [exact S |]. split; [exact L1 |]. split; [exact L2 |].
  intros Hl. specialize (E Hl). pose proof (settled_no_forms c S E) as Hn.
  split; [exact E |]. split; [exact Hn |]. intros w0.
  assert (Hr : ready c = false) by (unfold ready; now rewrite Hn).
  unfold bundleOf. rewrite (generateBundle_refused rt c w0 Hr).
  unfold refusal. rewrite Hn. auto.
Qed.

Lemma component_invariant_witness :
  reachable sampleRuntime true loadedState startWorld
  /\ settled loadedState
  /\ lifestyle loadedState <> [].
Proof.
  split; [exact loadedState_reachable |].
  destruct (component_invariant sampleRuntime true loadedState startWorld
              loadedState_reachable) as (S & L & _).
  exact (conj S L).
Defined.

Lemma generateBundle_sameForm (rt : Runtime) (c : AppState) (l : list Form) (f : Form)
    (w : World) :
  form c = Some f ->
  bundleOf rt (setForm (setForms c l) (Some f)) w = bundleOf rt c w.
Proof.
  destruct c as [fs i fo p pt gn gp ls vs bo bj m]. cbn [form]. intros ->.
  unfold bundleOf, generateBundle, setForm, setForms.
  cbn [form practitioner forms selectedIndex physicalText generalNotes generalPain
       lifestyle vitals body bundleJson message].
  destruct (negb (truthy (selectedAbhaAddress f)) && negb (truthy (abhaRef f)));
    [reflexivity |].
  destruct ((name p =? "") || (license p =? "")); [reflexivity |].
  unfold bind.
  destruct (buildFhirPatient rt f w) as [pat w1].
  destruct (buildPractitioner rt p w1) as [prac w2].
  match goal with
  | |- context [collectObservations rt ?a (pat_id pat) (prac_id prac) w2] =>
      change (collectObservations rt a (pat_id pat) (prac_id prac) w2)
        with (collectObservations rt
                {| forms := fs; selectedIndex := i; form := Some f; practitioner := p;
                   physicalText := pt; generalNotes := gn; generalPain := gp;
                   lifestyle := ls; vitals := vs; body := bo; bundleJson := bj;
                   message := m |} (pat_id pat) (prac_id prac) w2)
  end.
  destruct (collectObservations rt _ (pat_id pat) (prac_id prac) w2) as [[[obs phys] gen] w3].
  destruct (uuidv4 rt w3) as [compId w4].
  destruct (buildComposition rt compId f p pat prac
              (buildSections obs (Some phys) (Some gen)) w4) as [comp w5].
  destruct (buildBundle rt comp pat prac obs w5) as [b w6].
  reflexivity.
Qed.

(** X9. Choosing an address in the address select does not stick: the edit
    renews the list of persons, the selection effect runs again and puts
    the default address back. The form, every input of a run and the bundle
    a run would produce are what they were before the choice. *)
Theorem address_choice_does_not_stick (rt : Runtime) (loaded : bool) (c c' : AppState)
    (w w' : World) (text : string) :
  reachable rt loaded c w ->
  dispatch rt (FieldEdited F_selectedAbhaAddress text) c w = (Some c', w') ->
  sameForm c c'
  /\ w' = w
  /\ (forall f, form c' = Some f -> selectedAbhaAddress f = defaultAbhaAddress f)
  /\ (forall w0, bundleOf rt c' w0 = bundleOf rt c w0).
Proof.
  intros R D. destruct (reachable_invariant rt loaded c w R) as (S & _).
  pose proof D as D'. unfold dispatch, handle, bind, ret, updateFormField in D'.
  destruct (form c) as [f|] eqn:Hf; [| discriminate]. clear D'.
  destruct (dispatch_field rt F_selectedAbhaAddress text c w f S Hf) as (f0 & H0 & Ef & D1).
  rewrite D1 in D. injection D as <- <-.
  assert (Hform : Some (withSelected (setField f0 F_selectedAbhaAddress text)
                          (defaultAbhaAddress (setField f0 F_selectedAbhaAddress text)))
                  = Some f).
  { rewrite Ef. reflexivity. }
  rewrite Hform.
  split.
  { unfold sameForm. cbn [form practitioner physicalText generalNotes generalPain lifestyle
                          vitals body setForm setForms].
    rewrite Hf. repeat split. }
  split; [reflexivity |]. split.
  - cbn [form setForm]. intros g Hg. injection Hg as <-. rewrite Ef. reflexivity.
  - intros w0. now apply generateBundle_sameForm.
Qed.

Lemma address_choice_does_not_stick_witness :
  reachable sampleRuntime true loadedState startWorld
  /\ dispatch sampleRuntime (FieldEdited F_selectedAbhaAddress "asha@abdm") loadedState
       startWorld
     = (Some (setForms loadedState
                [withSelected (setField sampleForm F_selectedAbhaAddress "asha@abdm")
                   (VStr "asha@abdm")]), startWorld)
  /\ form (setForms loadedState
             [withSelected (setField sampleForm F_selectedAbhaAddress "asha@abdm")
                (VStr "asha@abdm")])
     = form loadedState.
Proof.
  split; [exact loadedState_reachable |].
  assert (D : dispatch sampleRuntime (FieldEdited F_selectedAbhaAddress "asha@abdm")
                loadedState startWorld
              = (Some (setForms loadedState
                         [withSelected (setField sampleForm F_selectedAbhaAddress "asha@abdm")
                            (VStr "asha@abdm")]), startWorld)) by reflexivity.
  split; [exact D |].
  exact (proj1 (proj1 (address_choice_does_not_stick sampleRuntime true loadedState _
                         startWorld startWorld "asha@abdm" loadedState_reachable D))).
Defined.

(** X10. In every reachable state the selected address of the form is the
    first option the address select offers, when that option is not empty;
    it is the empty string when the select offers none. *)
Theorem selected_address_is_first_option (rt : Runtime) (loaded : bool) (c : AppState)
    (w : World) (f : Form) :
  reachable rt loaded c w ->
  form c = Some f ->
  selectedAbhaAddress f = defaultAbhaAddress f
  /\ match abhaOptions f with
     | [] => selectedAbhaAddress f = VStr ""
     | o :: _ => truthy o = true -> selectedAbhaAddress f = o
     end.
Proof.
  intros R Hf. destruct (reachable_invariant rt loaded c w R) as (S & _).
  destruct (settled_form c f S Hf) as (f0 & _ & ->).
  split; [reflexivity |].
  unfold abhaOptions, defaultAbhaAddress, firstAddress.
  cbn [abhaAddresses abhaRef selectedAbhaAddress withSelected].
  destruct (abhaAddresses f0) as [| a l].
  - cbn [or_else truthy]. destruct (truthy (abhaRef f0)) eqn:T.
    + intros _. unfold or_else. cbn [truthy]. now rewrite T.
    + unfold or_else. cbn [truthy]. now rewrite T.
  - cbn [map]. intros T. unfold or_else. now rewrite T, T.
Qed.

Lemma selected_address_is_first_option_witness :
  reachable sampleRuntime true loadedState startWorld
  /\ form loadedState = Some sampleForm
  /\ selectedAbhaAddress sampleForm = VStr "AB1234".
Proof.
  split; [exact loadedState_reachable |]. split; [reflexivity |].
  exact (proj2 (selected_address_is_first_option sampleRuntime true loadedState startWorld
                  sampleForm loadedState_reachable eq_refl) eq_refl).
Defined.

(** X11. Editing any other field of the form reads back: the form shows
    the text typed in that field and the same entry of the list of persons
    holds it too; the other fields, the identity seed and the addresses of
    the person are untouched, and a bundle generated earlier stays in the
    preview. *)
Theorem field_edit_reads_back (rt : Runtime) (loaded : bool) (c c' : AppState)
    (w w' : World) (field : FormField) (text : string) :
  reachable rt loaded c w ->
  field <> F_selectedAbhaAddress ->
  dispatch rt (FieldEdited field text) c w = (Some c', w') ->
  exists f f' g',
    form c = Some f /\ form c' = Some f'
    /\ getField f' field = VStr text
    /\ (forall g, g <> field -> g <> F_selectedAbhaAddress -> getField f' g = getField f g)
    /\ resourceId f' = resourceId f /\ abhaAddresses f' = abhaAddresses f
    /\ api f' = api f
    /\ selectedIndex c' = selectedIndex c
    /\ List.length (forms c') = List.length (forms c)
    /\ formAt (forms c') (selectedIndex c') = Some g'
    /\ getField g' field = VStr text
    /\ bundleJson c' = bundleJson c /\ message c' = message c /\ w' = w.
Proof.
  intros R Hfield D. destruct (reachable_invariant rt loaded c w R) as (S & _).
  pose proof D as D'. unfold dispatch, handle, bind, ret, updateFormField in D'.
  destruct (form c) as [f|] eqn:Hf; [| discriminate]. clear D'.
  destruct (dispatch_field rt field text c w f S Hf) as (f0 & H0 & Ef & D1).
  rewrite D1 in D. injection D as <- <-.
  exists f, (withSelected (setField f0 field text)
               (defaultAbhaAddress (setField f0 field text))), (setField f0 field text).
  split; [reflexivity |]. split; [reflexivity |].
  split; [now destruct field |].
  split; [intros g G1 G2; rewrite Ef; destruct field, g; try reflexivity; congruence |].
  split; [now rewrite Ef |]. split; [now rewrite Ef |]. split; [now rewrite Ef |].
  split; [reflexivity |].
  cbn [forms selectedIndex setForm setForms bundleJson message].
  split; [apply length_replaceAt |].
  split; [now apply formAt_replaceAt with (old := f0) |].
  split; [now destruct field |]. auto.
Qed.

Lemma field_edit_reads_back_witness :
  reachable sampleRuntime true loadedState startWorld
  /\ F_displayName <> F_selectedAbhaAddress
  /\ exists c' f',
       dispatch sampleRuntime (FieldEdited F_displayName "Asha R.") loadedState startWorld
       = (Some c', startWorld)
       /\ form c' = Some f' /\ displayName f' = VStr "Asha R.".
Proof.
  split; [exact loadedState_reachable |]. split; [discriminate |].
  eexists.
  destruct (field_edit_reads_back sampleRuntime true loadedState _ startWorld startWorld
              F_displayName "Asha R." loadedState_reachable ltac:(discriminate) eq_refl)
    as (f & f' & g' & _ & Hf' & Hg & _).
  exists f'. split; [reflexivity |]. split; [exact Hf' | exact Hg].
Defined.

(** ** The preview and the message *)

Lemma selectionEffect_output (c : AppState) :
  bundleJson (selectionEffect c) = bundleJson c
  /\ message (selectionEffect c) = message c.
Proof.
  unfold selectionEffect. destruct (0 <=? selectedIndex c)%Z; [| auto].
  destruct (formAt (forms c) (selectedIndex c)); auto.
Qed.

Lemma effect_output (b : bool) (c : AppState) :
  bundleJson (if b then selectionEffect c else c) = bundleJson c
  /\ message (if b then selectionEffect c else c) = message c.
Proof. destruct b; [apply selectionEffect_output | auto]. Qed.

Lemma loadPatients_output (fetched : option value) (c : AppState) :
  bundleJson (loadPatients fetched c) = bundleJson c
  /\ message (loadPatients fetched c)
     = if loadSucceeds fetched then message c else MSG_LOAD_FAILED.
Proof.
  destruct (loadPatients_cases fetched c) as [[B ->] | [[B ->] | (first & rest & B & ->)]];
    rewrite B; auto.
Qed.

(** X12. The preview is written by the Generate and Reset buttons alone.
    Every other event leaves the bundle of the preview as it is, so that the
    preview can show a bundle older than the inputs, and coins nothing; it
    leaves the message too, except that a failed load sets the load-failure
    message. The Reset button empties preview and message; the Generate button fills the preview
    exactly when the preconditions hold; neither changes an input. *)
Theorem preview_written_by_generate_and_reset (rt : Runtime) (ev : Event)
    (c c' : AppState) (w w' : World) :
  dispatch rt ev c w = (Some c', w') ->
  (writesPreview ev = false ->
   bundleJson c' = bundleJson c /\ w' = w
   /\ message c' = match ev with
                   | PatientsFetched fetched =>
                       if loadSucceeds fetched then message c else MSG_LOAD_FAILED
                   | _ => message c
                   end)
  /\ (ev = ResetClicked ->
      phase c' = Idle /\ message c' = "" /\ sameInputs c c' /\ w' = w)
  /\ (ev = GenerateClicked ->
      (phase c' = Generated <-> ready c = true) /\ sameInputs c c').
Proof.
  intros D. split; [| split].
  - intros Hw. unfold dispatch, bind in D.
    destruct (handle rt ev c w) as [[c1|] w1] eqn:H; unfold ret in D; [| discriminate].
    injection D as <- <-.
    destruct (effect_output (selectionRuns ev c c1) c1) as [-> ->].
    destruct ev as [fetched | index | field text | text | text | which text | which text
                   | text | text | checked | | i | i text | i text | |];
      try discriminate Hw; unfold handle, ret in H.
    + injection H as <- <-. destruct (loadPatients_output fetched c) as [-> ->]. auto.
    + destruct (match forms c with
                | [] => (index =? -1)%Z
                | _ :: _ => ((0 <=? index)%Z && (index <? Z.of_nat (List.length (forms c)))%Z)%bool
                end); [| discriminate].
      injection H as <- <-. auto.
    + unfold updateFormField in H. destruct (form c); [| discriminate].
      injection H as <- <-. auto.
    + injection H as <- <-. auto.
    + injection H as <- <-. auto.
    + injection H as <- <-. auto.
    + injection H as <- <-. auto.
    + injection H as <- <-. auto.
    + injection H as <- <-. auto.
    + injection H as <- <-. auto.
    + injection H as <- <-. auto.
    + destruct (Nat.ltb i (List.length (lifestyle c))); [| discriminate].
      injection H as <- <-. auto.
    + unfold updateLifestyle in H. destruct (nth_error (lifestyle c) i); [| discriminate].
      injection H as <- <-. auto.
    + unfold updateLifestyle in H. destruct (nth_error (lifestyle c) i); [| discriminate].
      injection H as <- <-. auto.
  - intros ->. unfold dispatch, handle, bind, ret in D. injection D as <- <-.
    unfold selectionRuns. cbn [orb selectedIndex resetPreview setMessage setBundleJson].
    rewrite Z.eqb_refl. cbn [negb]. repeat split.
  - intros ->. unfold dispatch, handle, bind, ret in D.
    destruct (generateBundle rt c w) as [c1 w1] eqn:G. injection D as <- <-.
    pose proof (generateBundle_sameInputs rt c w) as SI. rewrite G in SI. cbn [fst] in SI.
    assert (Hi : selectedIndex c1 = selectedIndex c) by apply SI.
    unfold selectionRuns. cbn [orb]. rewrite Hi, Z.eqb_refl. cbn [negb].
    split; [| exact SI].
    destruct (ready c) eqn:R.
    + destruct (generateBundle_run rt c w R)
        as (f & pat & w1' & prac & w2 & vit & phys & gen & life & w3 & comp & b
            & _ & _ & _ & _ & Eg & _).
      rewrite Eg in G. injection G as <- _. unfold phase. cbn. tauto.
    + rewrite (generateBundle_refused rt c w R) in G. injection G as <- _.
      unfold phase. cbn. split; discriminate.
Qed.

Lemma preview_written_by_generate_and_reset_witness :
  exists c',
    dispatch sampleRuntime GenerateClicked sampleState startWorld
    = (Some c', {| uuid_calls := 9; date_calls := 6 |})
    /\ phase c' = Generated
    /\ forall text c'' w'',
         dispatch sampleRuntime (PhysicalTextEdited text) c'
           {| uuid_calls := 9; date_calls := 6 |} = (Some c'', w'') ->
         bundleJson c'' = bundleJson c'.
Proof.
  eexists. split; [reflexivity |]. split.
  - apply (proj2 (proj2 (preview_written_by_generate_and_reset sampleRuntime GenerateClicked
                           sampleState _ startWorld _ eq_refl)) eq_refl).
    reflexivity.
  - intros text c'' w'' D.
    exact (proj1 (proj1 (preview_written_by_generate_and_reset sampleRuntime
                           (PhysicalTextEdited text) _ c'' _ w'' D) eq_refl)).
Defined.

(** ** Loading the list of persons *)






(** ** The identity of a loaded person *)

Lemma lower_char_twice (c : ascii) : lower_char (lower_char c) = lower_char c.
Proof. destruct c as [[] [] [] [] [] [] [] []]; reflexivity. Qed.

Lemma toLowerCase_twice (s : string) : toLowerCase (toLowerCase s) = toLowerCase s.
Proof.
  induction s as [| c s IH]; [reflexivity |]. cbn [toLowerCase].
  now rewrite lower_char_twice, IH.
Qed.

(** X14. A person whose feed record carries a [user_ref_id] that the
    identifier pattern accepts keeps that identity, lower-cased, as the id of
    the person resource, and no identity is coined for it; no edit of the
    form changes the identity, since no input edits the seed. *)
Theorem loaded_person_keeps_identity (rt : Runtime) (apiP : value) (f : Form) (w : World) :
  mapApiToForm apiP = Some f ->
  isUuid (get_opt apiP "user_ref_id") = true ->
  exists s,
    get_opt apiP "user_ref_id" = VStr s
    /\ resourceId f = toLowerCase s
    /\ snd (buildFhirPatient rt f w) = w
    /\ pat_id (fst (buildFhirPatient rt f w)) = toLowerCase s
    /\ (forall field text v,
          pat_id (fst (buildFhirPatient rt (withSelected (setField f field text) v) w))
          = toLowerCase s).
Proof.
  intros M U.
  destruct (get_opt apiP "user_ref_id") as [| | | | s | |] eqn:G; try discriminate U.
  exists s. split; [reflexivity |].
  assert (Hr : resourceId f = toLowerCase s).
  { unfold mapApiToForm in M.
    destruct (or_else (get_opt apiP "gender") (VStr "")); try discriminate.
    injection M as <-. cbn [resourceId]. rewrite G, U.
    assert (Hg : get apiP "user_ref_id" = VStr s).
    { unfold get_opt in G. destruct apiP; try discriminate; exact G. }
    rewrite Hg. reflexivity. }
  assert (Hu : isUuid (VStr (resourceId f)) = true).
  { rewrite Hr, isUuid_toLowerCase. exact U. }
  assert (K : forall g, resourceId g = resourceId f ->
                pat_id (fst (buildFhirPatient rt g w)) = toLowerCase s
                /\ snd (buildFhirPatient rt g w) = w).
  { intros g Eg.
    destruct (buildFhirPatient_id rt g w) as [(_ & Hid & Hw) | (Hn & _)].
    - rewrite Hid, Eg, Hr, toLowerCase_twice. auto.
    - rewrite Eg in Hn. congruence. }
  split; [exact Hr |]. split; [apply (K f eq_refl) |].
  split; [apply (K f eq_refl) |].
  intros field text v. apply K. reflexivity.
Qed.

Lemma loaded_person_keeps_identity_witness :
  exists f,
    mapApiToForm (VObj [("user_ref_id", VStr "0F8FAD5B-D9CB-469F-A165-70867728950E")])
    = Some f
    /\ pat_id (fst (buildFhirPatient sampleRuntime f startWorld))
       = "0f8fad5b-d9cb-469f-a165-70867728950e".
Proof.
  eexists. split; [reflexivity |].
  destruct (loaded_person_keeps_identity sampleRuntime
              (VObj [("user_ref_id", VStr "0F8FAD5B-D9CB-469F-A165-70867728950E")])
              _ startWorld eq_refl eq_refl) as (s & G & _ & _ & Hid & _).
  injection G as <-. exact Hid.
Defined.

(** ** The two assessments of a run *)

Lemma str_or_twice (a b : string) : str_or (str_or a b) b = str_or a b.
Proof.
  unfold str_or. destruct (a =? "") eqn:E; [| now rewrite E].
  now destruct (b =? "").
Qed.

Ltac skip_vitals :=
  repeat match goal with
         | |- context [buildVitalObservation ?r ?p ?q ?a ?b ?u ?l ?w] =>
             destruct (buildVitalObservation r p q a b u l w) as [? ?]
         | |- context [when_filled ?s ?m ?w] =>
             destruct (when_filled s m w) as [? ?]
         end.

Lemma collectObservations_assessments (rt : Runtime) (c : AppState)
    (patientId practitionerId : string) (w : World) :
  exists w1 w2,
    snd (fst (fst (collectObservations rt c patientId practitionerId w)))
    = fst (buildPhysicalActivityObs rt patientId practitionerId
             (str_or (physicalText c) "Not provided") w1)
    /\ snd (fst (collectObservations rt c patientId practitionerId w))
       = fst (buildGeneralAssessmentObs rt patientId practitionerId
                (str_or (generalNotes c) "Not provided") (generalPain c) w2).
Proof.
  unfold collectObservations, bind. skip_vitals.
  match goal with
  | |- context [buildPhysicalActivityObs ?r ?p ?q ?t ?w1] =>
      exists w1; destruct (buildPhysicalActivityObs r p q t w1) as [phys wp] eqn:Ep
  end.
  match goal with
  | |- context [buildGeneralAssessmentObs ?r ?p ?q ?t ?b ?w2] =>
      exists w2; destruct (buildGeneralAssessmentObs r p q t b w2) as [gen wg] eqn:Eg
  end.
  match goal with
  | |- context [lifestyleLoop ?r ?p ?q ?rows ?acc ?w3] =>
      destruct (lifestyleLoop r p q rows acc w3) as [obs wl]
  end.
  unfold ret. cbn [fst snd]. auto.
Qed.

(** X15. Every generated bundle reports the two assessments, whatever was
    typed: a physical-activity observation whose value is the summary, and
    a general-assessment observation whose value is the notes and whose one
    component answers the pain question with Yes or No; an empty summary
    and empty notes are reported as "Not provided". *)
Theorem assessments_always_reported (rt : Runtime) (c : AppState) (w : World) :
  ready c = true ->
  exists b phys gen,
    bundleOf rt c w = Some b
    /\ In phys (bundleObservations b) /\ In gen (bundleObservations b)
    /\ obs_profile phys = [OBS_PHYSICAL_PROFILE]
    /\ obs_value phys = valueString (str_or (physicalText c) "Not provided")
    /\ obs_profile gen = [OBS_GENERAL_PROFILE]
    /\ obs_value gen
       = valueCodeableConcept (textOnly (str_or (generalNotes c) "Not provided"))
    /\ obs_component gen
       = [ {| cmp_code := textOnly "Any current pain?";
              cmp_value := textOnly (if generalPain c then "Yes" else "No") |} ].
Proof.
  intros R.
  destruct (generateBundle_run rt c w R)
    as (f & pat & w1 & prac & w2 & vit & phys & gen & life & w3 & comp & b
        & Hf & E1 & E2 & E3 & Eg & _ & _ & _ & _ & He & _).
  destruct (collectObservations_assessments rt c (pat_id pat) (prac_id prac) w2)
    as (wa & wb & Hp & Hg).
  rewrite E3 in Hp, Hg. cbn [fst snd] in Hp, Hg.
  exists b, phys, gen. split; [unfold bundleOf; now rewrite Eg |].
  rewrite (run_observations b comp pat prac _ He).
  split; [apply in_or_app; right; left; reflexivity |].
  split; [apply in_or_app; right; right; left; reflexivity |].
  rewrite Hp, Hg. unfold buildPhysicalActivityObs, buildGeneralAssessmentObs, bind, uuidv4,
    nowISO, ret. cbn [fst obs_profile obs_value obs_component]. rewrite !str_or_twice.
  repeat split.
Qed.

Lemma assessments_always_reported_witness :
  ready sampleState = true
  /\ exists b phys gen,
       bundleOf sampleRuntime sampleState startWorld = Some b
       /\ In phys (bundleObservations b) /\ In gen (bundleObservations b)
       /\ obs_value phys = valueString "Not provided"
       /\ obs_value gen = valueCodeableConcept (textOnly "Not provided").
Proof.
  split; [reflexivity |].
  destruct (assessments_always_reported sampleRuntime sampleState startWorld eq_refl)
    as (b & phys & gen & B & I1 & I2 & _ & V1 & _ & V2 & _).
  exists b, phys, gen. auto.
Defined.

(** ** Lifestyle rows *)

(** X16. What is typed in the value input of a lifestyle row is shown
    again letter for letter. Exactly the texts true and false are stored as
    booleans and reported as Yes and No; every other text is stored and
    reported as typed, the empty text as "Not provided". Every value a row
    can hold is one the input can show. *)
Theorem value_input_round_trip (text : string) :
  valueInputText (valueInputChange text) = Some text
  /\ boolOrString (valueInputChange text)
  /\ (forall rt patientId practitionerId label w,
        obs_value (fst (buildLifestyleObs rt patientId practitionerId label
                          (valueInputChange text) w))
        = valueCodeableConcept
            (textOnly (if text =? "true" then "Yes"
                       else if text =? "false" then "No"
                       else if text =? "" then "Not provided" else text)))
  /\ (forall v, boolOrString v -> exists shown, valueInputText v = Some shown).
Proof.
  split; [| split; [| split]].
  - unfold valueInputChange.
    destruct (String.eqb_spec text "true") as [-> | _]; [reflexivity |].
    destruct (String.eqb_spec text "false") as [-> | _]; reflexivity.
  - apply boolOrString_change.
  - intros rt p q label w. unfold buildLifestyleObs, bind, uuidv4, nowISO, ret.
    cbn [fst obs_value]. unfold valueInputChange.
    destruct (String.eqb_spec text "true") as [-> | _]; [reflexivity |].
    destruct (String.eqb_spec text "false") as [-> | _]; [reflexivity |].
    cbn [orb]. unfold or_else. cbn [truthy]. now destruct (text =? "").
  - intros v [[[] ->] | [s ->]]; eexists; reflexivity.
Qed.

Lemma lifestyleLoop_blank (rt : Runtime) (patientId practitionerId : string)
    (rows : list LifestyleRow) :
  forall (acc : list Observation) (w : World),
    lifestyleLoop rt patientId practitionerId
      (rows ++ [ {| li_label := ""; li_value := VStr "" |} ])%list acc w
    = lifestyleLoop rt patientId practitionerId rows acc w.
Proof.
  induction rows as [| li rest IH]; intros acc w; [reflexivity |].
  cbn [app lifestyleLoop].
  destruct ((li_label li =? "") && noValue (li_value li)); [apply IH |].
  unfold bind.
  destruct (buildLifestyleObs rt patientId practitionerId
              (str_or (li_label li) "Lifestyle") (li_value li) w) as [o w1].
  apply IH.
Qed.

Lemma collectObservations_blank (rt : Runtime) (c : AppState)
    (patientId practitionerId : string) (w : World) :
  collectObservations rt (addLifestyle c) patientId practitionerId w
  = collectObservations rt c patientId practitionerId w.
Proof.
  unfold collectObservations, bind, addLifestyle.
  cbn [vitals body physicalText generalNotes generalPain lifestyle setLifestyle].
  skip_vitals.
  match goal with
  | |- context [buildPhysicalActivityObs ?r ?p ?q ?t ?w1] =>
      destruct (buildPhysicalActivityObs r p q t w1) as [phys wp]
  end.
  match goal with
  | |- context [buildGeneralAssessmentObs ?r ?p ?q ?t ?b ?w2] =>
      destruct (buildGeneralAssessmentObs r p q t b w2) as [gen wg]
  end.
  now rewrite lifestyleLoop_blank.
Qed.

Lemma setLifestyle_same (c : AppState) : setLifestyle c (lifestyle c) = c.
Proof. now destruct c. Qed.

(** X17. A row added and left untouched is not reported: the bundle of a
    run and the identities and time stamps it consumes are what they are
    without the row. Removing the added row gives back the state before the
    addition. *)
Theorem untouched_row_is_not_reported (rt : Runtime) (c : AppState) (w : World) :
  lifestyle c <> [] ->
  List.length (lifestyle (addLifestyle c)) = S (List.length (lifestyle c))
  /\ bundleOf rt (addLifestyle c) w = bundleOf rt c w
  /\ message (fst (generateBundle rt (addLifestyle c) w))
     = message (fst (generateBundle rt c w))
  /\ snd (generateBundle rt (addLifestyle c) w) = snd (generateBundle rt c w)
  /\ removeLifestyle (List.length (lifestyle c)) (addLifestyle c) = c.
Proof.
  intros Hne.
  split; [unfold addLifestyle; cbn [lifestyle setLifestyle]; rewrite length_app; simpl; lia |].
  assert (G : bundleOf rt (addLifestyle c) w = bundleOf rt c w
              /\ message (fst (generateBundle rt (addLifestyle c) w))
                 = message (fst (generateBundle rt c w))
              /\ snd (generateBundle rt (addLifestyle c) w) = snd (generateBundle rt c w)).
  { unfold bundleOf, generateBundle.
    change (form (addLifestyle c)) with (form c).
    change (practitioner (addLifestyle c)) with (practitioner c).
    destruct (form c) as [f|]; [| auto].
    destruct (negb (truthy (selectedAbhaAddress f)) && negb (truthy (abhaRef f))); [auto |].
    destruct ((name (practitioner c) =? "") || (license (practitioner c) =? "")); [auto |].
    unfold bind.
    destruct (buildFhirPatient rt f w) as [pat w1].
    destruct (buildPractitioner rt (practitioner c) w1) as [prac w2].
    rewrite collectObservations_blank.
    destruct (collectObservations rt c (pat_id pat) (prac_id prac) w2)
      as [[[obs phys] gen] w3].
    destruct (uuidv4 rt w3) as [compId w4].
    destruct (buildComposition rt compId f (practitioner c) pat prac
                (buildSections obs (Some phys) (Some gen)) w4) as [comp w5].
    destruct (buildBundle rt comp pat prac obs w5) as [b w6].
    auto. }
  destruct G as (G1 & G2 & G3). split; [exact G1 |]. split; [exact G2 |].
  split; [exact G3 |].
  unfold removeLifestyle, addLifestyle. cbn [lifestyle setLifestyle].
  rewrite length_app. cbn [List.length].
  destruct (Nat.ltb_spec 1 (List.length (lifestyle c) + 1)) as [_ | H].
  - rewrite removeAt_last. clear. destruct c. reflexivity.
  - destruct (lifestyle c); [congruence | simpl in H; lia].
Qed.

Lemma untouched_row_is_not_reported_witness :
  lifestyle initialState <> []
  /\ removeLifestyle 1 (addLifestyle initialState) = initialState
  /\ bundleOf sampleRuntime (addLifestyle sampleState) startWorld
     = bundleOf sampleRuntime sampleState startWorld.
Proof.
  split; [discriminate |]. split.
  - exact (proj2 (proj2 (proj2 (proj2 (untouched_row_is_not_reported sampleRuntime
             initialState startWorld ltac:(discriminate)))))).
  - exact (proj1 (proj2 (untouched_row_is_not_reported sampleRuntime sampleState startWorld
                           ltac:(discriminate)))).
Defined.

Lemma nth_error_removeAt {A : Type} (l : list A) (i j : nat) :
  nth_error (removeAt i l) j = nth_error l (if Nat.ltb j i then j else S j).
Proof.
  revert i j. induction l as [| a l IH]; intros i j.
  - assert (N : forall k, nth_error (@nil A) k = None) by (now intros [| k]).
    replace (removeAt i (@nil A)) with (@nil A) by (now destruct i).
    now rewrite !N.
  - destruct i as [| i]; [reflexivity |].
    destruct j as [| j]; [reflexivity |].
    cbn [removeAt nth_error]. rewrite IH.
    change (Nat.ltb (S j) (S i)) with (Nat.ltb j i).
    now destruct (Nat.ltb j i).
Qed.

(** X18. The last lifestyle row cannot be removed: with one row the
    removal changes nothing. With more rows it takes out the row of the
    given index and no other, the rows behind it moving up by one; the list
    of rows is never left empty. *)
Theorem last_row_cannot_be_removed (c : AppState) (i : nat) :
  lifestyle c <> [] ->
  lifestyle (removeLifestyle i c) <> []
  /\ (List.length (lifestyle c) = 1 -> removeLifestyle i c = c)
  /\ (1 < List.length (lifestyle c) -> i < List.length (lifestyle c) ->
      S (List.length (lifestyle (removeLifestyle i c))) = List.length (lifestyle c)
      /\ forall j, nth_error (lifestyle (removeLifestyle i c)) j
                   = nth_error (lifestyle c) (if Nat.ltb j i then j else S j)).
Proof.
  intros Hne. unfold removeLifestyle. cbn [lifestyle setLifestyle].
  split; [| split].
  - destruct (Nat.ltb_spec 1 (List.length (lifestyle c))) as [H | H]; [| exact Hne].
    now apply removeAt_nonempty.
  - intros H1. rewrite H1. cbn [Nat.ltb Nat.leb]. apply setLifestyle_same.
  - intros H1 Hi. apply Nat.ltb_lt in H1. rewrite H1.
    split; [now apply length_removeAt | intros j; apply nth_error_removeAt].
Qed.

Lemma last_row_cannot_be_removed_witness :
  lifestyle initialState <> []
  /\ removeLifestyle 0 initialState = initialState
  /\ lifestyle (removeLifestyle 0 sampleState)
     = [ {| li_label := ""; li_value := VStr "" |} ].
Proof.
  split; [discriminate |]. split; [| reflexivity].
  exact (proj1 (proj2 (last_row_cannot_be_removed initialState 0 ltac:(discriminate)))
           eq_refl).
Defined.

(** X19. An edit of a lifestyle row changes the edited field of that row
    and nothing else: the number of rows, the other rows and the other
    field of the row stay. Beyond the rows shown there is nothing to
    edit. *)
Theorem row_edit_changes_one_row (i : nat) (u : RowUpdate) (c c' : AppState) :
  updateLifestyle i u c = Some c' ->
  List.length (lifestyle c') = List.length (lifestyle c)
  /\ i < List.length (lifestyle c)
  /\ (exists li li',
        nth_error (lifestyle c) i = Some li /\ nth_error (lifestyle c') i = Some li'
        /\ match u with
           | SetLabel s => li_label li' = s /\ li_value li' = li_value li
           | SetValue v => li_value li' = v /\ li_label li' = li_label li
           end)
  /\ (forall j, j <> i -> nth_error (lifestyle c') j = nth_error (lifestyle c) j)
  /\ forms c' = forms c /\ form c' = form c /\ bundleJson c' = bundleJson c.
Proof.
  unfold updateLifestyle. destruct (nth_error (lifestyle c) i) as [li|] eqn:E; [| discriminate].
  intros H. injection H as <-. cbn [lifestyle setLifestyle].
  split; [apply length_replaceAt |].
  split; [apply nth_error_Some; congruence |].
  split.
  - exists li, (applyRowUpdate li u). split; [reflexivity |].
    split; [now apply nth_error_replaceAt with (y := li) |]. now destruct u.
  - split; [intros j Hj; apply nth_error_replaceAt_other; congruence | repeat split].
Qed.

Lemma row_edit_changes_one_row_witness :
  exists c',
    updateLifestyle 0 (SetValue (valueInputChange "true")) initialState = Some c'
    /\ List.length (lifestyle c') = 1
    /\ nth_error (lifestyle c') 0
       = Some {| li_label := "Smoking"; li_value := VBool true |}.
Proof.
  eexists. split; [reflexivity |].
  split; [| reflexivity].
  exact (proj1 (row_edit_changes_one_row 0 (SetValue (valueInputChange "true"))
                  initialState _ eq_refl)).
Defined.

(** ** Date repair, once more *)

Lemma trimStart_white (ws s : string) :
  allWhite ws = true -> trimStart (ws ++ s) = trimStart s.
Proof.
  induction ws as [| c ws IH]; [reflexivity |]. cbn [allWhite append trimStart].
  intros H. apply andb_true_iff in H as [Hc H]. rewrite Hc. now apply IH.
Qed.

Lemma trimStart_allWhite (ws : string) : allWhite ws = true -> trimStart ws = "".
Proof.
  induction ws as [| c ws IH]; [reflexivity |]. cbn [allWhite trimStart].
  intros H. apply andb_true_iff in H as [Hc H]. rewrite Hc. now apply IH.
Qed.

Lemma trimEnd_white (ws : string) : allWhite ws = true -> trimEnd ws = "".
Proof.
  induction ws as [| c ws IH]; [reflexivity |]. cbn [allWhite trimEnd].
  intros H. apply andb_true_iff in H as [Hc H]. now rewrite (IH H), Hc.
Qed.

Lemma trimEnd_app_white (s ws : string) :
  allWhite ws = true -> trimEnd (s ++ ws) = trimEnd s.
Proof.
  intros H. induction s as [| c s IH]; cbn [append trimEnd].
  - now apply trimEnd_white.
  - now rewrite IH.
Qed.

Lemma trim_app_white (s ws : string) :
  allWhite ws = true -> trim (s ++ ws) = trim s.
Proof.
  intros H. unfold trim. induction s as [| c s IH]; cbn [append trimStart].
  - now rewrite (trimStart_allWhite ws H).
  - destruct (isWhiteSpace c); [exact IH |].
    change (String c (s ++ ws)) with (String c s ++ ws). now apply trimEnd_app_white.
Qed.

Lemma trimEnd_twice (s : string) : trimEnd (trimEnd s) = trimEnd s.
Proof.
  induction s as [| c s IH]; [reflexivity |]. cbn [trimEnd].
  destruct (isWhiteSpace c && (trimEnd s =? "")) eqn:E; [reflexivity |].
  cbn [trimEnd]. rewrite IH. now rewrite E.
Qed.

Lemma trimStart_trimmed (s : string) :
  trimStart (trimEnd (trimStart s)) = trimEnd (trimStart s).
Proof.
  induction s as [| c s IH]; [reflexivity |]. cbn [trimStart].
  destruct (isWhiteSpace c) eqn:W; [exact IH |].
  cbn [trimEnd]. rewrite W. cbn [andb trimStart]. now rewrite W.
Qed.

Lemma trim_twice (s : string) : trim (trim s) = trim s.
Proof. unfold trim. now rewrite trimStart_trimmed, trimEnd_twice. Qed.

(** [ddmmyyyyToISO] reads the trimmed string only. *)
Lemma ddmmyyyyToISO_trim (s t : string) :
  trim s = trim t -> ddmmyyyyToISO (VStr s) = ddmmyyyyToISO (VStr t).
Proof.
  assert (K : forall u, trim u = "" -> ddmmyyyyToISO (VStr u) = "").
  { intros u Hu. unfold ddmmyyyyToISO. destruct (negb (truthy (VStr u))); [reflexivity |].
    cbn [toString]. now rewrite Hu. }
  intros E. destruct (String.eqb_spec s "") as [-> | Hs].
  - symmetry. apply K. now rewrite <- E.
  - destruct (String.eqb_spec t "") as [-> | Ht].
    + apply K. now rewrite E.
    + rewrite (ddmmyyyyToISO_string s Hs), (ddmmyyyyToISO_string t Ht). now rewrite E.
Qed.

(** X20. Date repair reads the date without the white space around it:
    spaces, tabs and line ends before and after the date change nothing, and
    repairing the trimmed string gives what repairing the string gives. *)
Theorem date_repair_ignores_padding (before s after : string) :
  allWhite before = true ->
  allWhite after = true ->
  ddmmyyyyToISO (VStr (before ++ s ++ after)) = ddmmyyyyToISO (VStr s)
  /\ ddmmyyyyToISO (VStr (trim s)) = ddmmyyyyToISO (VStr s).
Proof.
  intros Hb Ha. split.
  - apply ddmmyyyyToISO_trim. unfold trim at 1. rewrite (trimStart_white before _ Hb).
    fold (trim (s ++ after)). now apply trim_app_white.
  - apply ddmmyyyyToISO_trim. apply trim_twice.
Qed.

Lemma date_repair_ignores_padding_witness :
  ddmmyyyyToISO (VStr (String " " (String "009" "") ++ "15/08/1990" ++ String "010" ""))
  = "1990-08-15".
Proof.
  rewrite (proj1 (date_repair_ignores_padding (String " " (String "009" "")) "15/08/1990"
                    (String "010" "") eq_refl eq_refl)).
  reflexivity.
Defined.

Lemma length_append (a b : string) :
  String.length (a ++ b) = String.length a + String.length b.
Proof. induction a as [| x a IH]; simpl; [reflexivity | now rewrite IH]. Qed.

Lemma length_replicate (n : nat) (c : ascii) : String.length (replicate n c) = n.
Proof. induction n as [| n IH]; simpl; [reflexivity | now rewrite IH]. Qed.

Lemma length_padStart (n : nat) (c : ascii) (s : string) :
  n <= String.length (padStart n c s).
Proof. unfold padStart. rewrite length_append, length_replicate. lia. Qed.

Lemma padStart_full (n : nat) (c : ascii) (s : string) :
  String.length s = n -> padStart n c s = s.
Proof. intros <-. unfold padStart. now rewrite Nat.sub_diag. Qed.

(** X21. Whatever the value, date repair yields the empty string or a
    string of the shape of a date: four characters, a hyphen, two characters
    or more, a hyphen, two characters or more. So the birth date of every
    loaded form is empty or of that shape. *)
Theorem date_repair_result_shape (v : value) :
  (ddmmyyyyToISO v = "" \/ dateShaped (ddmmyyyyToISO v))
  /\ (forall f, mapApiToForm v = Some f -> birthDate f = "" \/ dateShaped (birthDate f)).
Proof.
  assert (K : forall u, ddmmyyyyToISO u = "" \/ dateShaped (ddmmyyyyToISO u)).
  { intros u. unfold ddmmyyyyToISO. destruct (negb (truthy u)); [now left |].
    destruct (test iso_date_pattern (trim (toString u))) eqn:T.
    - right. pose proof (test_length _ _ T) as L. simpl in L.
      destruct (trim (toString u)) as [| a0 t]; [discriminate |].
      revert T L. generalize (String a0 t). clear. intros s T L.
      ten_chars s L.
      unfold iso_date_pattern in T. cbn [repeat app test] in T.
      repeat match type of T with
             | (_ && _)%bool = true =>
                 let H' := fresh "D" in apply andb_true_iff in T as [H' T]
             end.
      cbn [in_class] in D3, D6. apply Ascii.eqb_eq in D3, D6. subst.
      exists (String a (String a0 (String a1 (String a2 "")))),
        (String a4 (String a5 "")), (String a7 (String a8 "")).
      cbn. auto.
    - destruct (if includes "-" (trim (toString u)) then Some "-"%char
                else if includes "/" (trim (toString u)) then Some "/"%char else None)
        as [sep|]; [| now left].
      destruct (split sep (trim (toString u))) as [| dd [| mm [| yyyy [| x l]]]];
        try now left.
      destruct (negb (yyyy =? "") && Nat.eqb (String.length yyyy) 4) eqn:C; [| now left].
      apply andb_true_iff in C as [_ C]. apply Nat.eqb_eq in C.
      right. exists yyyy, (padStart 2 "0" mm), (padStart 2 "0" dd).
      rewrite (padStart_full 4 "0" yyyy C).
      split; [reflexivity |]. split; [exact C |].
      split; apply length_padStart. }
  split; [apply K |].
  intros f M. unfold mapApiToForm in M.
  destruct (or_else (get_opt v "gender") (VStr "")); try discriminate.
  injection M as <-. cbn [birthDate].
  destruct (K (get_opt v "dob")) as [-> | H]; [now left |].
  unfold str_or. destruct (ddmmyyyyToISO (get_opt v "dob") =? ""); [now left | now right].
Qed.

(** ** Time stamps *)

Lemma stamped_push (rt : Runtime) (d0 : nat) (acc : list Observation) (w w' : World)
    (o : Observation) :
  stamped rt d0 acc w ->
  obs_effectiveDateTime o = now_at rt (date_calls w) ->
  date_calls w' = S (date_calls w) ->
  stamped rt d0 (push acc o) w'.
Proof.
  intros [HM HD] Ho Hw. unfold stamped, push.
  rewrite length_app, map_app, HM. cbn [List.length map].
  rewrite Nat.add_1_r, seq_S, map_app. cbn [map]. rewrite Ho, HD, Hw.
  split; [reflexivity | lia].
Qed.

Lemma vitals_step_stamped (rt : Runtime) (patientId practitionerId : string) (d0 : nat)
    (w : World) (acc : list Observation) (codeText q unit loincCode : string) :
  stamped rt d0 acc w ->
  stamped rt d0
    (push_if acc (fst (buildVitalObservation rt patientId practitionerId codeText
                         (VStr q) unit loincCode w)))
    (snd (buildVitalObservation rt patientId practitionerId codeText (VStr q) unit
            loincCode w)).
Proof.
  intros H. unfold buildVitalObservation. destruct (noQuantity (VStr q)); [exact H |].
  unfold bind, uuidv4, nowISO, ret. cbn [fst snd push_if].
  eapply stamped_push; [exact H | reflexivity | reflexivity].
Qed.

Lemma lifestyleLoop_stamped (rt : Runtime) (patientId practitionerId : string) (d0 : nat)
    (rows : list LifestyleRow) :
  forall (acc : list Observation) (w : World),
    stamped rt d0 acc w ->
    stamped rt d0 (fst (lifestyleLoop rt patientId practitionerId rows acc w))
      (snd (lifestyleLoop rt patientId practitionerId rows acc w)).
Proof.
  induction rows as [| li rest IH]; intros acc w H; cbn [lifestyleLoop].
  - exact H.
  - destruct ((li_label li =? "") && noValue (li_value li)); [now apply IH |].
    unfold bind, buildLifestyleObs, uuidv4, nowISO, ret. apply IH.
    eapply stamped_push; [exact H | reflexivity | reflexivity].
Qed.

Ltac vital_step_stamped H :=
  try rewrite when_filled_vital;
  match goal with
  | |- context [buildVitalObservation ?r ?p ?q ?l (VStr ?x) ?u ?k ?w] =>
      let V := fresh "V" in
      pose proof (vitals_step_stamped r p q _ w _ l x u k H) as V;
      destruct (buildVitalObservation r p q l (VStr x) u k w) as [? ?];
      cbn [fst snd] in V; clear H; rename V into H; cbv beta iota zeta
  end.

Lemma collectObservations_stamped (rt : Runtime) (c : AppState)
    (patientId practitionerId : string) (w : World) :
  stamped rt (date_calls w)
    (fst (fst (fst (collectObservations rt c patientId practitionerId w))))
    (snd (collectObservations rt c patientId practitionerId w)).
Proof.
  unfold collectObservations, bind.
  assert (H : stamped rt (date_calls w) [] w).
  { split; [reflexivity | simpl; lia]. }
  do 8 vital_step_stamped H.
  unfold buildPhysicalActivityObs, buildGeneralAssessmentObs, bind, uuidv4, nowISO, ret.
  match goal with
  | |- context [lifestyleLoop ?r ?p ?q ?rows ?acc ?w1] =>
      pose proof (lifestyleLoop_stamped r p q (date_calls w) rows acc w1) as HL;
      destruct (lifestyleLoop r p q rows acc w1) as [obs wl]
  end.
  cbn [fst snd] in *. apply HL.
  eapply stamped_push; [| reflexivity | reflexivity].
  eapply stamped_push; [exact H | reflexivity | reflexivity].
Qed.

Lemma generateBundle_stamps (rt : Runtime) (c : AppState) (w : World) :
  ready c = true ->
  exists f pat w1 prac w2 obs phys gen w3 comp b,
    form c = Some f
    /\ buildFhirPatient rt f w = (pat, w1)
    /\ buildPractitioner rt (practitioner c) w1 = (prac, w2)
    /\ collectObservations rt c (pat_id pat) (prac_id prac) w2 = (obs, phys, gen, w3)
    /\ bundleOf rt c w = Some b
    /\ bundle_entry b
       = map entryOf (RComposition comp :: RPatient pat :: RPractitioner prac
                      :: map RObservation obs)
    /\ comp_date comp = now_at rt (date_calls w3)
    /\ bundle_timestamp b = now_at rt (S (date_calls w3))
    /\ comp_status comp = "final" /\ comp_title comp = "Wellness Record"
    /\ bundle_type b = "document"
    /\ comp_subject comp = {| reference := urn (pat_id pat);
                              ref_display := Some (displayName f) |}
    /\ comp_author comp = [ {| reference := urn (prac_id prac);
                               ref_display := Some (VStr (name (practitioner c))) |} ]
    /\ comp_attester comp = [ {| att_mode := "official"; att_party := ref_to (prac_id prac) |} ]
    /\ comp_type comp
       = {| cc_coding := Some [ {| coding_system := "http://loinc.org";
                                   coding_code := "11502-2";
                                   coding_display := None |} ];
            cc_text := Some "Wellness Record" |}.
Proof.
  intros R. destruct (ready_inv c R) as (f & Hf & G1 & G2).
  destruct (buildFhirPatient rt f w) as [pat w1] eqn:E1.
  destruct (buildPractitioner rt (practitioner c) w1) as [prac w2] eqn:E2.
  destruct (collectObservations rt c (pat_id pat) (prac_id prac) w2)
    as [[[obs phys] gen] w3] eqn:E3.
  exists f, pat, w1, prac, w2, obs, phys, gen, w3.
  exists (fst (buildComposition rt (uuidv4_at rt (uuid_calls w3)) f (practitioner c) pat prac
                 (buildSections obs (Some phys) (Some gen))
                 {| uuid_calls := S (uuid_calls w3); date_calls := date_calls w3 |})).
  eexists.
  split; [exact Hf |]. split; [exact E1 |]. split; [exact E2 |].
  split; [exact E3 |].
  split.
  { unfold bundleOf, generateBundle. rewrite Hf, G1, G2. unfold bind at 1. rewrite E1.
    unfold bind at 1. rewrite E2. unfold bind at 1. rewrite E3.
    unfold bind, uuidv4, buildComposition, buildBundle, nowISO, ret.
    cbn [fst snd uuid_calls date_calls bundleJson setMessage setBundleJson]. reflexivity. }
  split.
  { cbn [bundle_entry]. rewrite fold_left_push. unfold push. simpl.
    rewrite map_map. reflexivity. }
  repeat split.
Qed.

(** X22. The time stamps of a bundle are the readings of the clock in the
    order of construction: the observations carry consecutive readings in
    the order of their entries, the composition the reading after the last
    observation, and the bundle the reading after that. The person and the
    attester read no clock. *)
Theorem timestamps_in_clock_order (rt : Runtime) (c : AppState) (w : World) :
  ready c = true ->
  exists b comp,
    bundleOf rt c w = Some b
    /\ hd_error (map resource (bundle_entry b)) = Some (RComposition comp)
    /\ map obs_effectiveDateTime (bundleObservations b)
       = map (now_at rt) (seq (date_calls w) (List.length (bundleObservations b)))
    /\ comp_date comp = now_at rt (date_calls w + List.length (bundleObservations b))
    /\ bundle_timestamp b
       = now_at rt (S (date_calls w + List.length (bundleObservations b)))
    /\ date_calls (snd (generateBundle rt c w))
       = 2 + date_calls w + List.length (bundleObservations b).
Proof.
  intros R.
  destruct (generateBundle_stamps rt c w R)
    as (f & pat & w1 & prac & w2 & obs & phys & gen & w3 & comp & b
        & Hf & E1 & E2 & E3 & Hb & He & Hd & Ht & _).
  pose proof (collectObservations_stamped rt c (pat_id pat) (prac_id prac) w2) as S.
  rewrite E3 in S. cbn [fst snd] in S. destruct S as [SM SD].
  assert (D2 : date_calls w2 = date_calls w).
  { pose proof (buildFhirPatient_dates rt f w) as D1. rewrite E1 in D1. cbn [snd] in D1.
    unfold buildPractitioner, bind, uuidv4, ret in E2. injection E2 as _ <-.
    exact D1. }
  rewrite D2 in SM, SD.
  exists b, comp. split; [exact Hb |].
  rewrite (run_observations b comp pat prac obs He).
  split; [rewrite He; reflexivity |]. split; [exact SM |].
  rewrite <- SD. split; [exact Hd |]. split; [exact Ht |].
  destruct (generateBundle_run rt c w R)
    as (f' & pat' & w1' & prac' & w2' & vit & phys' & gen' & life & w3' & comp' & b'
        & Hf' & E1' & E2' & E3' & Eg & _).
  rewrite Hf in Hf'. injection Hf' as <-.
  rewrite E1 in E1'. injection E1' as <- <-.
  rewrite E2 in E2'. injection E2' as <- <-.
  rewrite E3 in E3'. injection E3' as _ _ _ <-.
  rewrite Eg. cbn [snd date_calls]. lia.
Qed.

Lemma timestamps_in_clock_order_witness :
  ready sampleState = true
  /\ exists b comp,
       bundleOf sampleRuntime sampleState startWorld = Some b
       /\ hd_error (map resource (bundle_entry b)) = Some (RComposition comp)
       /\ List.length (bundleObservations b) = 4
       /\ date_calls (snd (generateBundle sampleRuntime sampleState startWorld)) = 6.
Proof.
  split; [reflexivity |].
  destruct (timestamps_in_clock_order sampleRuntime sampleState startWorld eq_refl)
    as (b & comp & B & H & _ & _ & _ & D).
  exists b, comp. split; [exact B |]. split; [exact H |].
  split; [| reflexivity].
  assert (E : date_calls (snd (generateBundle sampleRuntime sampleState startWorld)) = 6)
    by reflexivity.
  rewrite E in D. cbn [startWorld date_calls] in D. lia.
Defined.

(** ** Optional members of the person *)

(** X23. The person resource leaves out what the form leaves empty: an
    empty gender or birth date is absent rather than an empty string, there
    is a phone exactly when the mobile number is truthy and an address
    exactly when the address is; the name is always the display name. *)
Theorem empty_person_fields_are_left_out (rt : Runtime) (f : Form) (w : World) :
  let pat := fst (buildFhirPatient rt f w) in
  pat_gender pat <> Some "" /\ pat_birthDate pat <> Some ""
  /\ (pat_gender pat = None <-> gender f = "")
  /\ (pat_birthDate pat = None <-> birthDate f = "")
  /\ (forall g, pat_gender pat = Some g -> g = gender f)
  /\ (forall d, pat_birthDate pat = Some d -> d = birthDate f)
  /\ pat_telecom pat
     = (if truthy (mobile f)
        then [ {| cp_system := "phone"; cp_value := toString (mobile f) |} ] else [])
  /\ pat_address pat = (if truthy (address f) then [address f] else [])
  /\ pat_name pat = [displayName f]
  /\ pat_profile pat = [NDHM_PATIENT_PROFILE].
Proof.
  unfold buildFhirPatient, bind.
  destruct (if negb (resourceId f =? "") && isUuid (VStr (resourceId f))
            then ret (toLowerCase (resourceId f)) else uuidv4 rt) as [id w'].
  unfold ret. cbn [fst pat_gender pat_birthDate pat_telecom pat_address pat_name pat_profile].
  destruct (String.eqb_spec (gender f) "") as [Eg | Eg];
    destruct (String.eqb_spec (birthDate f) "") as [Ed | Ed];
    repeat split; try discriminate; try congruence; intros; congruence.
Qed.

(** ** Choosing a person *)






(** ** The header of the document *)

(** X26. The composition of every generated bundle is final, titled
    Wellness Record and typed by LOINC 11502-2; its subject points at the
    person of the bundle and displays the name the person resource carries,
    its one author points at the attester of the bundle and displays the
    name the attester resource carries, and its one attester, of mode
    official, is that attester too. The bundle is a document. *)
Theorem header_names_person_and_attester (rt : Runtime) (c : AppState) (w : World) :
  ready c = true ->
  exists b comp pat prac rest,
    bundleOf rt c w = Some b
    /\ bundle_type b = "document"
    /\ map resource (bundle_entry b)
       = RComposition comp :: RPatient pat :: RPractitioner prac :: rest
    /\ comp_status comp = "final" /\ comp_title comp = "Wellness Record"
    /\ map coding_code (match cc_coding (comp_type comp) with Some l => l | None => [] end)
       = ["11502-2"]
    /\ reference (comp_subject comp) = urn (pat_id pat)
    /\ map Some (pat_name pat) = [ref_display (comp_subject comp)]
    /\ map reference (comp_author comp) = [urn (prac_id prac)]
    /\ map (fun n => Some (VStr n)) (prac_name prac) = map ref_display (comp_author comp)
    /\ map att_mode (comp_attester comp) = ["official"]
    /\ map (fun a => reference (att_party a)) (comp_attester comp) = [urn (prac_id prac)].
Proof.
  intros R.
  destruct (generateBundle_stamps rt c w R)
    as (f & pat & w1 & prac & w2 & obs & phys & gen & w3 & comp & b
        & Hf & E1 & E2 & E3 & Hb & He & _ & _ & Hs & Ht & Hd & Cs & Ca & Cat & Cty).
  exists b, comp, pat, prac, (map RObservation obs).
  split; [exact Hb |]. split; [exact Hd |].
  split; [rewrite He; cbn [map]; rewrite map_map; cbn [entryOf resource];
          now rewrite map_id |].
  split; [exact Hs |]. split; [exact Ht |].
  rewrite Cs, Ca, Cat, Cty. cbn [cc_coding map coding_code reference ref_display att_mode
                                 att_party ref_to].
  split; [reflexivity |]. split; [reflexivity |].
  assert (Np : pat_name pat = [displayName f]).
  { unfold buildFhirPatient, bind in E1.
    destruct (if negb (resourceId f =? "") && isUuid (VStr (resourceId f))
              then ret (toLowerCase (resourceId f)) else uuidv4 rt) as [id w'].
    unfold ret in E1. now injection E1 as <- _. }
  assert (Nq : prac_name prac = [name (practitioner c)]).
  { unfold buildPractitioner, bind, uuidv4, ret in E2. now injection E2 as <- _. }
  rewrite Np, Nq. repeat split.
Qed.

Lemma header_names_person_and_attester_witness :
  ready sampleState = true
  /\ exists b comp pat prac rest,
       bundleOf sampleRuntime sampleState startWorld = Some b
       /\ map resource (bundle_entry b)
          = RComposition comp :: RPatient pat :: RPractitioner prac :: rest
       /\ map Some (pat_name pat) = [ref_display (comp_subject comp)]
       /\ map reference (comp_author comp) = [urn (prac_id prac)].
Proof.
  split; [reflexivity |].
  destruct (header_names_person_and_attester sampleRuntime sampleState startWorld eq_refl)
    as (b & comp & pat & prac & rest & B & _ & E & _ & _ & _ & _ & N & A & _).
  exists b, comp, pat, prac, rest. auto.
Defined.

(** ** What the address refusal means *)

(** X27. In every reachable state the form has a health identity exactly
    when its first address or its health id is truthy, the selected address
    being the default one. So generation answers "Please select ABHA
    address." exactly when both are falsy, and then the address select
    offers no address that would help: it has no option, or its first option
    is the empty address. *)
Theorem address_refusal_needs_health_id (rt : Runtime) (loaded : bool) (c : AppState)
    (w : World) (f : Form) :
  reachable rt loaded c w ->
  form c = Some f ->
  hasHealthIdentity f = (truthy (firstAddress f) || truthy (abhaRef f))%bool
  /\ (message (fst (generateBundle rt c w)) = "Please select ABHA address."
      <-> truthy (firstAddress f) = false /\ truthy (abhaRef f) = false)
  /\ (truthy (firstAddress f) = false -> truthy (abhaRef f) = false ->
      abhaOptions f = [] \/ exists l, abhaOptions f = VStr "" :: l).
Proof.
  intros R Hf. destruct (reachable_invariant rt loaded c w R) as (S & _).
  destruct (settled_form c f S Hf) as (f0 & _ & Ef).
  assert (H : hasHealthIdentity f = (truthy (firstAddress f) || truthy (abhaRef f))%bool).
  { rewrite Ef. unfold hasHealthIdentity, defaultAbhaAddress.
    change (firstAddress (withSelected f0
                            (or_else (or_else (firstAddress f0) (abhaRef f0)) (VStr ""))))
      with (firstAddress f0).
    cbn [abhaRef selectedAbhaAddress withSelected].
    generalize (firstAddress f0) (abhaRef f0). intros a r. unfold or_else.
    destruct (truthy a) eqn:Ta; cbv beta iota.
    - rewrite ?Ta. now rewrite orb_true_r.
    - destruct (truthy r) eqn:Tr; cbv beta iota; rewrite ?Tr; reflexivity. }
  split; [exact H |]. split.
  - destruct (ready c) eqn:Rd.
    + destruct (generateBundle_run rt c w Rd)
        as (f' & pat & w1 & prac & w2 & vit & phys & gen & life & w3 & comp & b
            & Hf' & _ & _ & _ & Eg & _).
      rewrite Eg. cbn [fst message setMessage].
      unfold ready in Rd. rewrite Hf in Rd. apply andb_true_iff in Rd as [Hh _].
      rewrite H in Hh. split; [discriminate |].
      intros [A B]. rewrite A, B in Hh. discriminate.
    + rewrite (generateBundle_refused rt c w Rd). cbn [fst message setMessage].
      unfold refusal. rewrite Hf. rewrite H.
      destruct (truthy (firstAddress f)), (truthy (abhaRef f)); cbn [orb];
        split; try discriminate; try tauto; intros [? ?]; discriminate.
  - intros A B. unfold abhaOptions. unfold firstAddress in A.
    destruct (abhaAddresses f) as [| a l]; [rewrite B; now left |].
    right. cbn [truthy] in A. apply negb_false_iff in A. apply String.eqb_eq in A.
    subst a. cbn [map]. eauto.
Qed.

Lemma address_refusal_needs_health_id_witness :
  reachable sampleRuntime true loadedState startWorld
  /\ form loadedState = Some sampleForm
  /\ hasHealthIdentity sampleForm = true
  /\ message (fst (generateBundle sampleRuntime loadedState startWorld))
     <> "Please select ABHA address.".
Proof.
  split; [exact loadedState_reachable |]. split; [reflexivity |].
  destruct (address_refusal_needs_health_id sampleRuntime true loadedState startWorld
              sampleForm loadedState_reachable eq_refl) as (H & M & _).
  split; [exact H |]. intros E. apply M in E. destruct E as [E _]. discriminate E.
Defined.
